(** * smart-date-input: the parsing and suggestion engine

    A shallow embedding of [src/lib/activity-date-utils.ts]:
    [parseSmartDateString], [generateSmartSuggestions], [isOverdue] and
    [getDueDateStatus], with the JavaScript string, regular-expression and
    [Date] operations they rest on.

    Conventions of the model.
    - A JavaScript string is a [string]; a character is read as a UTF-16
      code unit below 256.
    - A [number] holding a confidence is a binary64 float ([PrimFloat]); a
      [number] holding a timestamp, an hour, a day or a count is an integer
      ([Z]), and [NaN] results of [parseInt] are [None].
    - A [Date] is its time value in milliseconds since the epoch, or
      [InvalidDate]; the local time zone is taken to be UTC.
    - The clock ([new Date()], [Date.now()]) is an explicit argument [now].
    - [new Date(text)], date-fns [format] and [formatDistanceToNow] are
      parameters of the development. *)

From Stdlib Require Import Bool Arith ZArith Lia List Ascii String.
From Stdlib Require Import Floats.PrimFloat Floats.SpecFloat Floats.FloatOps.
From Stdlib Require Import Numbers.DecimalString Numbers.DecimalPos.
From Stdlib Require Import Sorting.Sorted Sorting.Permutation.
Import ListNotations.

Set Warnings "-inexact-float".

(* ================================================================== *)
(** * JavaScript strings *)
(* ================================================================== *)

Module JsString.

Local Open Scope string_scope.
Local Open Scope nat_scope.

Definition code (c : ascii) : nat := nat_of_ascii c.

(** WhiteSpace and LineTerminator code units below 256: TAB, LF, VT, FF,
    CR, SP and NBSP.  Used by [trim], by [\s] and by [parseInt]. *)
Definition isWhiteSpace (c : ascii) : bool :=
  ((9 <=? code c) && (code c <=? 13)) || (code c =? 32) || (code c =? 160).

Definition isDigit (c : ascii) : bool :=
  (48 <=? code c) && (code c <=? 57).

Definition isUpper (c : ascii) : bool :=
  ((65 <=? code c) && (code c <=? 90))
  || ((192 <=? code c) && (code c <=? 222) && negb (code c =? 215)).

Definition isLower (c : ascii) : bool :=
  ((97 <=? code c) && (code c <=? 122))
  || ((224 <=? code c) && (code c <=? 254) && negb (code c =? 247)).

Definition isAsciiLetter (c : ascii) : bool :=
  ((65 <=? code c) && (code c <=? 90)) || ((97 <=? code c) && (code c <=? 122)).

(** [\w]: letters, digits and underscore. *)
Definition isWordChar (c : ascii) : bool :=
  isAsciiLetter c || isDigit c || (code c =? 95).

Definition toLowerChar (c : ascii) : ascii :=
  if isUpper c then ascii_of_nat (code c + 32) else c.

Definition toUpperChar (c : ascii) : ascii :=
  if isLower c then ascii_of_nat (code c - 32) else c.

Fixpoint map (f : ascii -> ascii) (s : string) : string :=
  match s with
  | EmptyString => EmptyString
  | String c s' => String (f c) (map f s')
  end.

Definition toLowerCase : string -> string := map toLowerChar.
Definition toUpperCase : string -> string := map toUpperChar.

Fixpoint trimStart (s : string) : string :=
  match s with
  | EmptyString => EmptyString
  | String c s' => if isWhiteSpace c then trimStart s' else s
  end.

Fixpoint trimEnd (s : string) : string :=
  match s with
  | EmptyString => EmptyString
  | String c s' =>
      match trimEnd s' with
      | EmptyString => if isWhiteSpace c then EmptyString else String c EmptyString
      | t => String c t
      end
  end.

Definition trim (s : string) : string := trimEnd (trimStart s).

(** [s.startsWith(p)]. *)
Fixpoint startsWith (p s : string) : bool :=
  match p, s with
  | EmptyString, _ => true
  | String a p', String b s' => Ascii.eqb a b && startsWith p' s'
  | String _ _, EmptyString => false
  end.

(** [s.includes(p)]. *)
Fixpoint includes (p s : string) : bool :=
  startsWith p s
  || match s with
     | EmptyString => false
     | String _ s' => includes p s'
     end.

Fixpoint drop (n : nat) (s : string) : string :=
  match n, s with
  | O, _ => s
  | S n', String _ s' => drop n' s'
  | S _, EmptyString => EmptyString
  end.

(** [s.replace(p, r)] with a string pattern: the first occurrence only. *)
Fixpoint replaceFirst (p r s : string) : string :=
  if startsWith p s then r ++ drop (length p) s
  else match s with
       | EmptyString => EmptyString
       | String c s' => String c (replaceFirst p r s')
       end.

(** [s.charAt(0).toUpperCase() + s.slice(1)]. *)
Definition capitalize (s : string) : string :=
  match s with
  | EmptyString => EmptyString
  | String c s' => String (toUpperChar c) s'
  end.

(** [xs.indexOf(s)], [None] for -1. *)
Fixpoint indexOf (s : string) (xs : list string) : option nat :=
  match xs with
  | [] => None
  | x :: xs' =>
      if String.eqb x s then Some 0
      else option_map S (indexOf s xs')
  end.

(** [xs.findIndex(p)], [None] for -1. *)
Fixpoint findIndex {A : Type} (p : A -> bool) (xs : list A) : option nat :=
  match xs with
  | [] => None
  | x :: xs' => if p x then Some 0 else option_map S (findIndex p xs')
  end.

(** The value of a run of decimal digits read from the left, with the rest. *)
Fixpoint digitsValue (acc : Z) (s : string) : Z :=
  match s with
  | String c s' =>
      if isDigit c then digitsValue (10 * acc + Z.of_nat (code c - 48))%Z s'
      else acc
  | EmptyString => acc
  end.

(** [parseInt(s, 10)]: leading white space, an optional sign, then the
    longest run of digits; [None] is NaN. *)
Definition parseInt (s : string) : option Z :=
  match trimStart s with
  | String "-" (String c _ as ds) =>
      if isDigit c then Some (- digitsValue 0 ds)%Z else None
  | String "+" (String c _ as ds) =>
      if isDigit c then Some (digitsValue 0 ds) else None
  | String c _ as ds =>
      if isDigit c then Some (digitsValue 0 ds) else None
  | EmptyString => None
  end.

(** [String(n)] for an integer. *)
Definition ofZ (n : Z) : string := NilEmpty.string_of_int (Z.to_int n).

End JsString.

(* ================================================================== *)
(** * Regular expressions *)
(* ================================================================== *)

(** The fragment of ECMAScript regular expressions the source uses:
    literals, character classes, sequence, alternation, capturing groups,
    the greedy optional [r?], greedy quantifiers over a character class
    ([\d{1,2}], [\d+], [\s*], [\s+]) and the assertions [^], [$] and [\b].
    [run] lists the ways a pattern matches at a position in backtracking
    order, so the head of the list is the match the engine reports. *)
Module Regex.

Import JsString.
Local Open Scope string_scope.
Local Open Scope nat_scope.

Inductive regex : Type :=
| Lit (s : string)
| Class (p : ascii -> bool)
| Seq (r1 r2 : regex)
| Alt (r1 r2 : regex)
| Group (n : nat) (r : regex)
| Opt (r : regex)
| Repeat (p : ascii -> bool) (lo : nat) (hi : option nat)
| Bol
| Eol
| WordB.

(** A position during a match attempt: the code unit before it, the text
    consumed since the attempt started, the text ahead, and the captures. *)
Record mstate : Type := MState {
  prev : option ascii;
  matched : string;
  rest : string;
  caps : list (nat * string)
}.

(** A pattern character against a code unit of the text.  Under the [i]
    flag both are canonicalized (upper-cased); the pattern characters of
    the source are ASCII, and no code unit from 128 up canonicalizes to
    one. *)
Definition charEq (ic : bool) (a b : ascii) : bool :=
  if ic then Ascii.eqb (toUpperChar a) (toUpperChar b) else Ascii.eqb a b.

Fixpoint runLit (ic : bool) (l : string) (pv : option ascii) (m s : string)
  (cs : list (nat * string)) : list mstate :=
  match l with
  | EmptyString => [MState pv m s cs]
  | String a l' =>
      match s with
      | String b s' =>
          if charEq ic a b
          then runLit ic l' (Some b) (m ++ String b EmptyString) s' cs
          else []
      | EmptyString => []
      end
  end.

Definition hasRoom (hi : option nat) : bool :=
  match hi with Some O => false | _ => true end.

(** Greedy: the longer runs come first. *)
Fixpoint runRepeat (p : ascii -> bool) (lo : nat) (hi : option nat)
  (pv : option ascii) (m s : string) (cs : list (nat * string)) : list mstate :=
  (match s with
   | String c s' =>
       if p c && hasRoom hi
       then runRepeat p (pred lo) (option_map pred hi)
              (Some c) (m ++ String c EmptyString) s' cs
       else []
   | EmptyString => []
   end ++ (if lo =? 0 then [MState pv m s cs] else []))%list.

Definition isWordOpt (o : option ascii) : bool :=
  match o with Some c => isWordChar c | None => false end.

Definition next (s : string) : option ascii :=
  match s with String c _ => Some c | EmptyString => None end.

Fixpoint run (ic : bool) (r : regex) (st : mstate) : list mstate :=
  match r with
  | Lit l => runLit ic l (prev st) (matched st) (rest st) (caps st)
  | Class p =>
      match rest st with
      | String c s' =>
          if p c
          then [MState (Some c) (matched st ++ String c EmptyString) s' (caps st)]
          else []
      | EmptyString => []
      end
  | Seq r1 r2 => flat_map (run ic r2) (run ic r1 st)
  | Alt r1 r2 => (run ic r1 st ++ run ic r2 st)%list
  | Group n r1 =>
      List.map
        (fun st' =>
           MState (prev st') (matched st ++ matched st') (rest st')
                  ((n, matched st') :: caps st'))
        (run ic r1 (MState (prev st) EmptyString (rest st) (caps st)))
  | Opt r1 => (run ic r1 st ++ [st])%list
  | Repeat p lo hi => runRepeat p lo hi (prev st) (matched st) (rest st) (caps st)
  | Bol => match prev st with None => [st] | Some _ => [] end
  | Eol => match rest st with EmptyString => [st] | String _ _ => [] end
  | WordB =>
      if xorb (isWordOpt (prev st)) (isWordOpt (next (rest st)))
      then [st] else []
  end.

(** A [RegExp] object: its source text (what [toString] prints between the
    slashes), its [i] flag, and the pattern the source text denotes. *)
Record RegExp : Type := mkRegExp {
  source : string;
  ignoreCase : bool;
  pattern : regex
}.

Definition toString (re : RegExp) : string :=
  "/" ++ source re ++ "/" ++ (if ignoreCase re then "i" else "").

(** The array [String.prototype.match] returns for a non-global pattern:
    [m0] is element 0, [groups] the captures that took part. *)
Record MatchResult : Type := mkMatch {
  m0 : string;
  groups : list (nat * string)
}.

(** [match[n]], [None] for undefined. *)
Definition group (n : nat) (m : MatchResult) : option string :=
  option_map snd (find (fun g => fst g =? n) (groups m)).

(** Leftmost match: the start positions are tried from left to right. *)
Fixpoint searchFrom (ic : bool) (r : regex) (pv : option ascii) (s : string)
  : option MatchResult :=
  match run ic r (MState pv EmptyString s []) with
  | st :: _ => Some (mkMatch (matched st) (caps st))
  | [] =>
      match s with
      | String c s' => searchFrom ic r (Some c) s'
      | EmptyString => None
      end
  end.

(** [s.match(re)]. *)
Definition exec (re : RegExp) (s : string) : option MatchResult :=
  searchFrom (ignoreCase re) (pattern re) None s.

(** [re.test(s)]. *)
Definition test (re : RegExp) (s : string) : bool :=
  match exec re s with Some _ => true | None => false end.

(** Truthiness of [match[n]]: defined and not empty. *)
Definition truthy (o : option string) : bool :=
  match o with Some (String _ _) => true | _ => false end.

Definition seqs (rs : list regex) : regex :=
  fold_right Seq (Lit EmptyString) rs.

(** [a|b|c] over literal alternatives; a list of at least one. *)
Fixpoint alts (ls : list string) : regex :=
  match ls with
  | [] => Class (fun _ => false)
  | [l] => Lit l
  | l :: ls' => Alt (Lit l) (alts ls')
  end.

Definition digits (lo : nat) (hi : option nat) : regex := Repeat isDigit lo hi.
Definition spaces (lo : nat) : regex := Repeat isWhiteSpace lo None.

End Regex.

(* ================================================================== *)
(** * Dates *)
(* ================================================================== *)

(** The time value of a [Date] and the date-fns helpers the source
    imports.  Local time is UTC, so that a calendar day is [msPerDay]
    milliseconds and the fields of a date are those of its time value. *)
Module JsDate.

Local Open Scope Z_scope.

Inductive Date : Type :=
| ValidDate (t : Z)
| InvalidDate.

Definition msPerDay : Z := 86400000.
Definition msPerHour : Z := 3600000.
Definition msPerMinute : Z := 60000.

(** Time values range over 100,000,000 days either side of the epoch. *)
Definition maxTime : Z := 8640000000000000.

Definition timeClip (t : Z) : Date :=
  if Z.abs t <=? maxTime then ValidDate t else InvalidDate.

Definition isValid (d : Date) : bool :=
  match d with ValidDate _ => true | InvalidDate => false end.

(** [getTime()], [None] for NaN. *)
Definition getTime (d : Date) : option Z :=
  match d with ValidDate t => Some t | InvalidDate => None end.

Definition dayOf (t : Z) : Z := t / msPerDay.
Definition timeWithinDay (t : Z) : Z := t mod msPerDay.

(** Day number of the civil date [y]-[m]-[d], [m] in 1..12, in the
    proleptic Gregorian calendar. *)
Definition daysFromCivil (y m d : Z) : Z :=
  let y' := if m <=? 2 then y - 1 else y in
  let era := y' / 400 in
  let yoe := y' - era * 400 in
  let mp := if 2 <? m then m - 3 else m + 9 in
  let doy := (153 * mp + 2) / 5 + d - 1 in
  let doe := yoe * 365 + yoe / 4 - yoe / 100 + doy in
  era * 146097 + doe - 719468.

(** Year, month (1..12) and day of the month of a day number. *)
Definition civilFromDays (z : Z) : Z * Z * Z :=
  let z' := z + 719468 in
  let era := z' / 146097 in
  let doe := z' - era * 146097 in
  let yoe := (doe - doe / 1460 + doe / 36524 - doe / 146096) / 365 in
  let doy := doe - (365 * yoe + yoe / 4 - yoe / 100) in
  let mp := (5 * doy + 2) / 153 in
  let d := doy - (153 * mp + 2) / 5 + 1 in
  let m := if mp <? 10 then mp + 3 else mp - 9 in
  let y := yoe + era * 400 in
  (if m <=? 2 then y + 1 else y, m, d).

Definition getFullYear (t : Z) : Z :=
  let '(y, _, _) := civilFromDays (dayOf t) in y.

(** [getMonth()], 0 for January. *)
Definition getMonth (t : Z) : Z :=
  let '(_, m, _) := civilFromDays (dayOf t) in m - 1.

(** [getDate()], the day of the month. *)
Definition getDate (t : Z) : Z :=
  let '(_, _, d) := civilFromDays (dayOf t) in d.

(** [getDay()], 0 for Sunday; the epoch was a Thursday. *)
Definition getDay (t : Z) : Z := (dayOf t + 4) mod 7.

Definition getHours (t : Z) : Z := (t / msPerHour) mod 24.
Definition getMinutes (t : Z) : Z := (t / msPerMinute) mod 60.

(** MakeDay: months outside 0..11 carry into the year, and the day of the
    month is an offset from the first of the month. *)
Definition makeDay (year month date : Z) : Z :=
  daysFromCivil (year + month / 12) (month mod 12 + 1) 1 + date - 1.

Definition makeDate (day time : Z) : Z := day * msPerDay + time.

(** [new Date(year, month, day)]: midnight of that day; a year in 0..99
    stands for 1900 + year. *)
Definition ofYMD (year month day : Z) : Date :=
  let yr := if (0 <=? year) && (year <=? 99) then 1900 + year else year in
  timeClip (makeDate (makeDay yr month day) 0).

(** [d < now] on the time values; false when [d] is invalid. *)
Definition ltTime (d : Date) (now : Z) : bool :=
  match d with ValidDate t => t <? now | InvalidDate => false end.

(** date-fns [addDays(date, amount)]. *)
Definition addDays (t : Z) (amount : Z) : Date :=
  timeClip (t + amount * msPerDay).

(** date-fns [addMonths(date, amount)]: the same day of the month [amount]
    months away, or the last day of that month when it is shorter.  The
    last day of the desired month is found first ([setMonth] with day 0). *)
Definition addMonths (t : Z) (amount : Z) : Date :=
  if amount =? 0 then ValidDate t
  else
    let dayOfMonth := getDate t in
    match timeClip (makeDate (makeDay (getFullYear t) (getMonth t + amount + 1) 0)
                      (timeWithinDay t)) with
    | ValidDate endOfDesiredMonth =>
        if getDate endOfDesiredMonth <=? dayOfMonth
        then ValidDate endOfDesiredMonth
        else timeClip (makeDate
                         (makeDay (getFullYear endOfDesiredMonth)
                            (getMonth endOfDesiredMonth) dayOfMonth)
                         (timeWithinDay t))
    | InvalidDate => InvalidDate
    end.

(** date-fns [endOfDay(date)]: 23:59:59.999 of the same day. *)
Definition endOfDay (t : Z) : Date :=
  timeClip (makeDate (dayOf t) (msPerDay - 1)).

(** date-fns [startOfDay(date)]. *)
Definition startOfDay (t : Z) : Date :=
  timeClip (makeDate (dayOf t) 0).

(** date-fns [setMinutes(date, minutes)]. *)
Definition setMinutes (d : Date) (minutes : Z) : Date :=
  match d with
  | ValidDate t =>
      timeClip (makeDate (dayOf t)
                  (getHours t * msPerHour + minutes * msPerMinute
                   + t mod msPerMinute))
  | InvalidDate => InvalidDate
  end.

(** date-fns [setHours(date, hours)]. *)
Definition setHours (d : Date) (hours : Z) : Date :=
  match d with
  | ValidDate t =>
      timeClip (makeDate (dayOf t) (hours * msPerHour + t mod msPerHour))
  | InvalidDate => InvalidDate
  end.

(** [new Date(year, month + 1, 0).getDate()]: the number of days of the
    month, [None] for NaN. *)
Definition daysInMonth (year month : Z) : option Z :=
  option_map getDate (getTime (ofYMD year (month + 1) 0)).

End JsDate.

(* ================================================================== *)
(** * Data model *)
(* ================================================================== *)

Import JsString Regex JsDate.

(** [DateParseResult["parsedComponents"]]: an absent field is [None]. *)
Module ParsedComponents.
Record t : Type := mk {
  relative : option string;
  time : option string;
  weekday : option string;
  date : option string;
  modifiers : option (list string)
}.
Definition empty : t := mk None None None None None.
Definition setRelative (v : string) (c : t) : t :=
  mk (Some v) (time c) (weekday c) (date c) (modifiers c).
Definition setTime (v : string) (c : t) : t :=
  mk (relative c) (Some v) (weekday c) (date c) (modifiers c).
Definition setWeekday (v : string) (c : t) : t :=
  mk (relative c) (time c) (Some v) (date c) (modifiers c).
Definition setDate (v : string) (c : t) : t :=
  mk (relative c) (time c) (weekday c) (Some v) (modifiers c).
End ParsedComponents.

Module DateParseResult.
Record t : Type := mk {
  date : Date;
  confidence : float;
  originalInput : string;
  parsedComponents : ParsedComponents.t
}.
End DateParseResult.

Module Category.
Inductive t : Type := relative | time | date | natural.
End Category.

Module SmartSuggestion.
Record t : Type := mk {
  label : string;
  value : string;
  confidence : float;
  preview : string;
  parsedDate : option Date;
  category : Category.t
}.
End SmartSuggestion.

(** [Math.min] on two numbers. *)
Definition Math_min (x y : float) : float :=
  if (PrimFloat.is_nan x || PrimFloat.is_nan y)%bool then PrimFloat.nan
  else if PrimFloat.ltb x y then x else y.

(* ================================================================== *)
(** * parseSmartDateString *)
(* ================================================================== *)

Module Parser.

Local Open Scope string_scope.

(** The [let] and [const] locals the body of [parseSmartDateString]
    updates as it goes. *)
Record Locals : Type := mkLocals {
  confidence : float;
  parsedDate : option Date;
  components : ParsedComponents.t;
  extractedTime : option (Z * Z);
  timeMatch : option MatchResult
}.

Definition initial : Locals :=
  mkLocals 0%float None ParsedComponents.empty None None.

(** The first pattern of a list that matches, with its match: the
    [for (const pattern of ...) { if (match) { ...; break } }] loops. *)
Fixpoint firstMatch (ps : list RegExp) (s : string)
  : option (RegExp * MatchResult) :=
  match ps with
  | [] => None
  | p :: ps' =>
      match exec p s with
      | Some m => Some (p, m)
      | None => firstMatch ps' s
      end
  end.

(** [parseInt(match[n], 10)]. *)
Definition parseGroup (n : nat) (m : MatchResult) : option Z :=
  match group n m with
  | Some g => parseInt g
  | None => None
  end.

Definition timePatterns : list RegExp :=
  [ mkRegExp "\b(\d{1,2})(?::(\d{2}))?\s*(am|pm)\b" true
      (seqs [WordB; Group 1 (digits 1 (Some 2));
             Opt (Seq (Lit ":") (Group 2 (digits 2 (Some 2))));
             spaces 0; Group 3 (alts ["am"; "pm"]); WordB]);
    mkRegExp "\b(\d{1,2}):(\d{2})\b" false
      (seqs [WordB; Group 1 (digits 1 (Some 2)); Lit ":";
             Group 2 (digits 2 (Some 2)); WordB]);
    mkRegExp "\b(\d{1,2})\s*(am|pm)\b" true
      (seqs [WordB; Group 1 (digits 1 (Some 2)); spaces 0;
             Group 2 (alts ["am"; "pm"]); WordB]) ].

(** Hours after the am/pm adjustment. *)
Definition adjustHours (hours : option Z) (ampm : option string) : option Z :=
  if (match ampm with Some a => String.eqb a "pm" | None => false end
      && negb (match hours with Some h => (h =? 12)%Z | None => false end))%bool
  then option_map (fun h => h + 12)%Z hours
  else if (match ampm with Some a => String.eqb a "am" | None => false end
           && (match hours with Some h => (h =? 12)%Z | None => false end))%bool
  then Some 0%Z
  else hours.

(** [hours >= 0 && hours <= 23 && minutes >= 0 && minutes <= 59]; a
    comparison with NaN is false. *)
Definition timeInRange (hours minutes : option Z) : bool :=
  match hours, minutes with
  | Some h, Some m => ((0 <=? h) && (h <=? 23) && (0 <=? m) && (m <=? 59))%Z%bool
  | _, _ => false
  end.

Definition timeHours (m : MatchResult) : option Z :=
  adjustHours (parseGroup 1 m) (option_map toLowerCase (group 3 m)).

Definition timeMinutes (m : MatchResult) : option Z :=
  if truthy (group 2 m) then parseGroup 2 m else Some 0%Z.

(** The loop over [timePatterns]. *)
Definition extractTime (trimmed : string) (st : Locals) : Locals :=
  match firstMatch timePatterns trimmed with
  | Some (_, m) =>
      match timeHours m, timeMinutes m with
      | Some h, Some mi =>
          if timeInRange (Some h) (Some mi)
          then mkLocals (confidence st + 0.3)%float (parsedDate st)
                 (ParsedComponents.setTime (m0 m) (components st))
                 (Some (h, mi)) (Some m)
          else mkLocals (confidence st) (parsedDate st) (components st)
                 (extractedTime st) (Some m)
      | _, _ =>
          mkLocals (confidence st) (parsedDate st) (components st)
            (extractedTime st) (Some m)
      end
  | None => st
  end.

(** [timeMatch ? trimmed.replace(timeMatch[0], "").trim() : trimmed]. *)
Definition inputWithoutTime (trimmed : string) (st : Locals) : string :=
  match timeMatch st with
  | Some m => trim (replaceFirst (m0 m) "" trimmed)
  | None => trimmed
  end.

(** One row of [relativePatterns]: a day offset or a handler. *)
Record RelativePattern : Type := mkRelative {
  rpPattern : RegExp;
  rpDays : option Z;
  rpHandler : option (Z -> MatchResult -> Date);
  rpConfidence : float
}.

Definition byDays (re : RegExp) (days : Z) (c : float) : RelativePattern :=
  mkRelative re (Some days) None c.

Definition byHandler (re : RegExp) (h : Z -> MatchResult -> Date) (c : float)
  : RelativePattern :=
  mkRelative re None (Some h) c.

(** [addDays(now, parseInt(match[1], 10))], negated when [sign] is -1; an
    amount that is NaN gives an invalid date. *)
Definition addParsedDays (sign : Z) (now : Z) (m : MatchResult) : Date :=
  match parseGroup 1 m with
  | Some n => addDays now (sign * n)
  | None => InvalidDate
  end.

Definition relativePatterns : list RelativePattern :=
  [ byDays (mkRegExp "^(today|now)$" true
              (seqs [Bol; Group 1 (alts ["today"; "now"]); Eol]))
           0 0.9;
    byDays (mkRegExp "^tomorrow$" true (seqs [Bol; Lit "tomorrow"; Eol]))
           1 0.9;
    byDays (mkRegExp "^yesterday$" true (seqs [Bol; Lit "yesterday"; Eol]))
           (-1) 0.9;
    byDays (mkRegExp "^(next week|in a week)$" true
              (seqs [Bol; Group 1 (alts ["next week"; "in a week"]); Eol]))
           7 0.8;
    byDays (mkRegExp "^(last week|a week ago)$" true
              (seqs [Bol; Group 1 (alts ["last week"; "a week ago"]); Eol]))
           (-7) 0.8;
    byHandler (mkRegExp "^(next month|in a month)$" true
                 (seqs [Bol; Group 1 (alts ["next month"; "in a month"]); Eol]))
              (fun now _ => addMonths now 1) 0.8;
    byHandler (mkRegExp "^(last month|a month ago)$" true
                 (seqs [Bol; Group 1 (alts ["last month"; "a month ago"]); Eol]))
              (fun now _ => addMonths now (-1)) 0.8;
    byHandler (mkRegExp "^in (\d+) days?$" true
                 (seqs [Bol; Lit "in "; Group 1 (digits 1 None); Lit " day";
                        Opt (Lit "s"); Eol]))
              (addParsedDays 1) 0.85;
    byHandler (mkRegExp "^(\d+) days? ago$" true
                 (seqs [Bol; Group 1 (digits 1 None); Lit " day";
                        Opt (Lit "s"); Lit " ago"; Eol]))
              (addParsedDays (-1)) 0.85;
    byHandler (mkRegExp "^(end of day|eod)$" true
                 (seqs [Bol; Group 1 (alts ["end of day"; "eod"]); Eol]))
              (fun now _ => endOfDay now) 0.7;
    byHandler (mkRegExp "^(start of day|beginning of day)$" true
                 (seqs [Bol; Group 1 (alts ["start of day"; "beginning of day"]);
                        Eol]))
              (fun now _ => startOfDay now) 0.7 ].

(** The first row whose pattern matches, with its match. *)
Fixpoint firstRelative (rows : list RelativePattern) (s : string)
  : option (RelativePattern * MatchResult) :=
  match rows with
  | [] => None
  | row :: rows' =>
      match exec (rpPattern row) s with
      | Some m => Some (row, m)
      | None => firstRelative rows' s
      end
  end.

(** The loop over [relativePatterns]. *)
Definition resolveRelative (now : Z) (text : string) (st : Locals) : Locals :=
  match firstRelative relativePatterns text with
  | Some (row, m) =>
      let parsed :=
        match rpHandler row with
        | Some handler => Some (handler now m)
        | None =>
            match rpDays row with
            | Some days => Some (addDays now days)
            | None => parsedDate st
            end
        end in
      mkLocals (confidence st + rpConfidence row)%float parsed
        (ParsedComponents.setRelative (m0 m) (components st))
        (extractedTime st) (timeMatch st)
  | None => st
  end.

Definition weekdays : list string :=
  ["monday"; "tuesday"; "wednesday"; "thursday"; "friday"; "saturday"; "sunday"].

(** [new RegExp(`^(next\\s+)?(${weekdays.join("|")})$`, "i")]. *)
Definition weekdayPattern : RegExp :=
  mkRegExp
    "^(next\s+)?(monday|tuesday|wednesday|thursday|friday|saturday|sunday)$"
    true
    (seqs [Bol; Opt (Group 1 (Seq (Lit "next") (spaces 1)));
           Group 2 (alts weekdays); Eol]).

(** The number of days from [now] to the target weekday (1 = Monday,
    7 = Sunday): a full week further when "next" was written or the day is
    today or already past in this week. *)
Definition daysUntilTarget (now : Z) (isNext : bool) (targetDayIndex : nat) : Z :=
  let targetDay := (Z.of_nat targetDayIndex + 1)%Z in
  let today := if (getDay now =? 0)%Z then 7%Z else getDay now in
  let d := (targetDay - today)%Z in
  if (isNext || (d <=? 0)%Z)%bool then (d + 7)%Z else d.

(** The block under [// Weekday patterns]. *)
Definition resolveWeekday (now : Z) (text : string) (st : Locals) : Locals :=
  match parsedDate st with
  | Some _ => st
  | None =>
      match exec weekdayPattern text with
      | Some m =>
          let isNext := truthy (group 1 m) in
          match option_map toLowerCase (group 2 m) with
          | Some weekdayName =>
              match indexOf weekdayName weekdays with
              | Some targetDayIndex =>
                  mkLocals
                    (confidence st + (if isNext then 0.85 else 0.8))%float
                    (Some (addDays now (daysUntilTarget now isNext targetDayIndex)))
                    (ParsedComponents.setWeekday (m0 m) (components st))
                    (extractedTime st) (timeMatch st)
              | None => st
              end
          | None => st
          end
      | None => st
      end
  end.

Definition monthAlternatives : list string :=
  ["jan"; "january"; "feb"; "february"; "mar"; "march"; "apr"; "april";
   "may"; "jun"; "june"; "jul"; "july"; "aug"; "august"; "sep"; "september";
   "oct"; "october"; "nov"; "november"; "dec"; "december"].

Definition monthAlternativesSource : string :=
  "jan|january|feb|february|mar|march|apr|april|may|jun|june|jul|july|aug|august|sep|september|oct|october|nov|november|dec|december".

Definition monthPatterns : list RegExp :=
  [ mkRegExp ("\b(" ++ monthAlternativesSource ++ ")\s+(\d{1,2})(?:\s+(?:at|@))?")
      true
      (seqs [WordB; Group 1 (alts monthAlternatives); spaces 1;
             Group 2 (digits 1 (Some 2));
             Opt (Seq (spaces 1) (alts ["at"; "@"]))]);
    mkRegExp ("\b(\d{1,2})\s+(" ++ monthAlternativesSource ++ ")") true
      (seqs [WordB; Group 1 (digits 1 (Some 2)); spaces 1;
             Group 2 (alts monthAlternatives)]);
    mkRegExp "\b(\d{1,2})[/-](\d{1,2})\b" false
      (seqs [WordB; Group 1 (digits 1 (Some 2));
             Class (fun c => (Ascii.eqb c "/" || Ascii.eqb c "-")%bool);
             Group 2 (digits 1 (Some 2)); WordB]) ].

(** The array [monthNames] of both branches. *)
Definition monthNames : list string :=
  ["jan"; "january"; "feb"; "february"; "mar"; "march"; "apr"; "april";
   "may"; "jun"; "june"; "jul"; "july"; "aug"; "august"; "sep"; "september";
   "oct"; "october"; "nov"; "november"; "dec"; "december"].

(** [Math.floor(monthNames.findIndex(...) / 2)], with -1 when no name
    is found. *)
Definition monthOfName (monthStr : string) : Z :=
  let monthIndex :=
    match findIndex (fun name => startsWith (substring 0 3 name) monthStr)
            monthNames with
    | Some i => Z.of_nat i
    | None => (-1)%Z
    end in
  (monthIndex / 2)%Z.

(** The month (0-based) and day one match of a month pattern gives, by the
    three-way branch of the loop body; [None] is NaN. *)
Definition monthAndDay (pat : RegExp) (m : MatchResult) : option Z * option Z :=
  if includes "jan|january" (toString pat)
  then (option_map (fun g => monthOfName (toLowerCase g)) (group 1 m),
        parseGroup 2 m)
  else if (truthy (group 2 m)
           && match parseGroup 2 m with None => true | Some _ => false end)%bool
  then (option_map (fun g => monthOfName (toLowerCase g)) (group 2 m),
        parseGroup 1 m)
  else (option_map (fun n => n - 1)%Z (parseGroup 1 m), parseGroup 2 m).

(** [month >= 0 && month <= 11 && day >= 1 && day <= 31]. *)
Definition monthDayInRange (month day : option Z) : bool :=
  match month, day with
  | Some mo, Some d => ((0 <=? mo) && (mo <=? 11) && (1 <=? d) && (d <=? 31))%Z%bool
  | _, _ => false
  end.

(** This year's date, or next year's when this year's is before [now]. *)
Definition thisOrNextYear (now month day : Z) : Date :=
  let year := getFullYear now in
  let d := ofYMD year month day in
  if ltTime d now then ofYMD (year + 1) month day else d.

(** The block under [// Month/date patterns]. *)
Definition resolveMonthDay (now : Z) (text : string) (st : Locals) : Locals :=
  match parsedDate st with
  | Some _ => st
  | None =>
      match firstMatch monthPatterns text with
      | Some (pat, m) =>
          match monthAndDay pat m with
          | (Some month, Some day) =>
              if monthDayInRange (Some month) (Some day)
              then mkLocals (confidence st + 0.75)%float
                     (Some (thisOrNextYear now month day))
                     (ParsedComponents.setDate (m0 m) (components st))
                     (extractedTime st) (timeMatch st)
              else st
          | _ => st
          end
      | None => st
      end
  end.

Section WithDateParse.

(** [new Date(text)]: the host's parse of a date string. *)
Variable dateParse : string -> Date.

(** The block under [// Fallback to standard date parsing]. *)
Definition resolveFallback (input : string) (st : Locals) : Locals :=
  match parsedDate st with
  | Some _ => st
  | None =>
      let standardDate := dateParse input in
      if isValid standardDate
      then mkLocals (confidence st + 0.5)%float (Some standardDate)
             (components st) (extractedTime st) (timeMatch st)
      else st
  end.

(** [setHours(setMinutes(parsedDate, minutes), hours)] when a time was
    extracted. *)
Definition applyTime (d : Date) (st : Locals) : Date :=
  match extractedTime st with
  | Some (hours, minutes) => setHours (setMinutes d minutes) hours
  | None => d
  end.

(** From [if (!parsedDate) return null] to the end of the function. *)
Definition finish (input : string) (st : Locals) : option DateParseResult.t :=
  match parsedDate st with
  | None => None
  | Some d =>
      if PrimFloat.ltb (confidence st) 0.3 then None
      else Some (DateParseResult.mk (applyTime d st)
                   (Math_min (confidence st) 1.0) input (components st))
  end.

(** The locals when the resolver chain has run, before [finish]. *)
Definition resolve (now : Z) (input : string) : Locals :=
  let trimmed := toLowerCase (trim input) in
  let st := extractTime trimmed initial in
  let text := inputWithoutTime trimmed st in
  resolveFallback input
    (resolveMonthDay now text
       (resolveWeekday now text
          (resolveRelative now text st))).

Definition parseSmartDateString (now : Z) (input : string)
  : option DateParseResult.t :=
  if String.eqb (trim input) "" then None
  else finish input (resolve now input).

(** [parseDateString], the legacy wrapper. *)
Definition parseDateString (now : Z) (dateString : string) : option Date :=
  option_map DateParseResult.date (parseSmartDateString now dateString).

End WithDateParse.

End Parser.

(* ================================================================== *)
(** * generateSmartSuggestions *)
(* ================================================================== *)

Module Suggestions.

Import Parser.
Local Open Scope string_scope.

(** [xs.filter((x, index) => p(index, x))]. *)
Fixpoint filterIndexed {A : Type} (p : nat -> A -> bool) (index : nat)
  (xs : list A) : list A :=
  match xs with
  | [] => []
  | x :: xs' =>
      if p index x then x :: filterIndexed p (S index) xs'
      else filterIndexed p (S index) xs'
  end.

(** [index === self.findIndex((s) => s.value === suggestion.value)]: the
    first entry of each value stays. *)
Definition dedupByValue (self : list SmartSuggestion.t) : list SmartSuggestion.t :=
  filterIndexed
    (fun index suggestion =>
       match findIndex
               (fun s => String.eqb (SmartSuggestion.value s)
                           (SmartSuggestion.value suggestion)) self with
       | Some i => Nat.eqb index i
       | None => false
       end)
    0%nat self.

(** [!Number.isNaN(s.confidence) && s.confidence > 0]. *)
Definition validConfidence (s : SmartSuggestion.t) : bool :=
  (negb (PrimFloat.is_nan (SmartSuggestion.confidence s))
   && PrimFloat.ltb 0 (SmartSuggestion.confidence s))%bool.

(** The comparator [(a, b) => b.confidence - a.confidence]. *)
Definition byConfidence (a b : SmartSuggestion.t) : float :=
  (SmartSuggestion.confidence b - SmartSuggestion.confidence a)%float.

(** [Array.prototype.sort] with a comparator: a stable sort, [a] after [b]
    when the comparator is positive on [(a, b)]. *)
Fixpoint insertSorted {A : Type} (cmp : A -> A -> float) (x : A) (l : list A)
  : list A :=
  match l with
  | [] => [x]
  | y :: l' =>
      if PrimFloat.ltb 0 (cmp x y) then y :: insertSorted cmp x l'
      else x :: l
  end.

Definition sort {A : Type} (cmp : A -> A -> float) (l : list A) : list A :=
  fold_right (insertSorted cmp) [] l.

Definition atLeast (c : float) (s : SmartSuggestion.t) : bool :=
  PrimFloat.leb c (SmartSuggestion.confidence s).

(** From [// Sort by confidence and remove duplicates] to the end. *)
Definition postProcess (suggestions : list SmartSuggestion.t)
  : list SmartSuggestion.t :=
  let filteredSuggestions :=
    sort byConfidence (filter validConfidence (dedupByValue suggestions)) in
  match filteredSuggestions with
  | top :: _ =>
      let maxConfidence := SmartSuggestion.confidence top in
      if PrimFloat.leb 0.9 maxConfidence
      then firstn 3 (filter (atLeast 0.85) filteredSuggestions)
      else if PrimFloat.leb 0.7 maxConfidence
      then firstn 5 (filter (atLeast 0.6) filteredSuggestions)
      else firstn 6 filteredSuggestions
  | [] => firstn 8 filteredSuggestions
  end.

Definition months : list string :=
  ["jan"; "feb"; "mar"; "apr"; "may"; "jun"; "jul"; "aug"; "sep"; "oct";
   "nov"; "dec"].

Definition weekdays : list string :=
  ["monday"; "tuesday"; "wednesday"; "thursday"; "friday"; "saturday"; "sunday"].

Definition timeKeywords : list string :=
  ["am"; "pm"; ":"; "morning"; "afternoon"; "evening"; "night"].

Definition timeSuggestionBases : list (string * list string) :=
  [ ("today", ["9am"; "12pm"; "2pm"; "5pm"]);
    ("tomorrow", ["9am"; "10am"; "2pm"; "3pm"]) ].

(** The families of [relativeSuggestions]: a pattern and its phrases. *)
Definition relativeSuggestions : list (RegExp * list string) :=
  [ (mkRegExp "today|now" false (alts ["today"; "now"]),
     ["today"; "today 9am"; "today 2pm"; "today 5pm"; "end of day"]);
    (mkRegExp "tomorrow|tom" false (alts ["tomorrow"; "tom"]),
     ["tomorrow"; "tomorrow 9am"; "tomorrow 10am"; "tomorrow 2pm"]);
    (mkRegExp "next|week" false (alts ["next"; "week"]),
     ["next week"; "next monday"; "next friday"; "in 7 days"]);
    (mkRegExp "month" false (Lit "month"),
     ["next month"; "in 30 days"; "end of month"]) ].

Definition dateFormat : string := "MMM dd, yyyy".
Definition dateTimeFormat : string := "MMM dd 'at' h:mma".

Definition mentionsAmPm (suggestion : string) : bool :=
  (includes "am" suggestion || includes "pm" suggestion)%bool.

Definition quote : string := String (ascii_of_nat 34) EmptyString.

(** The separator of the label of a direct match, as the source file
    spells it (its UTF-8 bytes). *)
Definition arrow : string := "â†’".

Section WithHost.

(** [new Date(text)] and date-fns [format(date, formatString)]. *)
Variable dateParse : string -> Date.
Variable format : Z -> string -> string.

Definition formatDateForDisplay (d : Date) (formatString : string) : string :=
  match d with
  | ValidDate t => format t formatString
  | InvalidDate => EmptyString
  end.

Definition baseSuggestions (showTime : bool)
  : list (string * string * Category.t * float) :=
  ([ ("Tomorrow", "tomorrow", Category.relative, 1.0%float);
     ("Next week", "next week", Category.relative, 1.0%float);
     ("Next Monday", "next monday", Category.relative, 0.9%float) ]
   ++ (if showTime
       then [ ("Tomorrow 10am", "tomorrow 10am", Category.relative, 0.9%float);
              ("End of day", "end of day", Category.relative, 0.8%float) ]
       else []))%list.

(** The branch [if (!trimmed)]. *)
Definition initialSuggestions (now : Z) (showTime : bool)
  : list SmartSuggestion.t :=
  firstn 4
    (List.map
       (fun '(label, value, category, confidence) =>
          let parseResult := parseSmartDateString dateParse now value in
          SmartSuggestion.mk label value confidence
            (match parseResult with
             | Some r =>
                 formatDateForDisplay (DateParseResult.date r)
                   (if showTime then dateTimeFormat else dateFormat)
             | None => label
             end)
            (option_map DateParseResult.date parseResult)
            category)
       (baseSuggestions showTime)).

(** The suggestion for the input itself, when it parses with confidence
    above 0.5. *)
Definition directSuggestion (input : string) (showTime : bool)
  (currentParse : option DateParseResult.t) : list SmartSuggestion.t :=
  match currentParse with
  | Some r =>
      if PrimFloat.ltb 0.5 (DateParseResult.confidence r)
      then
        let boostedConfidence :=
          Math_min (DateParseResult.confidence r + 0.2)%float 1.0 in
        let preview :=
          formatDateForDisplay (DateParseResult.date r)
            (if showTime then dateTimeFormat else dateFormat) in
        [SmartSuggestion.mk
           (quote ++ input ++ quote ++ " " ++ arrow ++ " " ++ preview)
           input boostedConfidence preview
           (Some (DateParseResult.date r)) Category.natural]
      else []
  | None => []
  end.

(** The block under [// Time-based suggestions]. *)
Definition timeSuggestions (now : Z) (trimmed : string) (showTime : bool)
  : list SmartSuggestion.t :=
  if (showTime && existsb (fun keyword => includes keyword trimmed) timeKeywords)%bool
  then
    flat_map
      (fun '(base, times) =>
         flat_map
           (fun time =>
              let suggestion := base ++ " " ++ time in
              match parseSmartDateString dateParse now suggestion with
              | Some r =>
                  [SmartSuggestion.mk (capitalize base ++ " " ++ time)
                     suggestion 0.85%float
                     (formatDateForDisplay (DateParseResult.date r) dateTimeFormat)
                     (Some (DateParseResult.date r)) Category.time]
              | None => []
              end)
           times)
      timeSuggestionBases
  else [].

(** [currentParse.confidence < c], true when there is no current parse. *)
Definition belowOrAbsent (currentParse : option DateParseResult.t) (c : float)
  : bool :=
  match currentParse with
  | Some r => PrimFloat.ltb (DateParseResult.confidence r) c
  | None => true
  end.

(** The block under [// Month/date suggestions]. *)
Definition monthSuggestions (now : Z) (trimmed : string)
  (currentParse : option DateParseResult.t) : list SmartSuggestion.t :=
  let matchedMonths :=
    filter (fun month => (includes trimmed month || includes month trimmed)%bool)
      months in
  if belowOrAbsent currentParse 0.7
  then
    flat_map
      (fun month =>
         let monthIndex :=
           match indexOf month months with
           | Some i => Z.of_nat i
           | None => (-1)%Z
           end in
         let daysToShow :=
           filter
             (fun day =>
                match daysInMonth (getFullYear now) monthIndex with
                | Some n => (day <=? n)%Z
                | None => false
                end)
             [1%Z; 15%Z] in
         flat_map
           (fun day =>
              let suggestion := month ++ " " ++ ofZ day in
              match parseSmartDateString dateParse now suggestion with
              | Some r =>
                  if negb (String.eqb suggestion trimmed)
                  then
                    [SmartSuggestion.mk (capitalize month ++ " " ++ ofZ day)
                       suggestion 0.65%float
                       (formatDateForDisplay (DateParseResult.date r) dateFormat)
                       (Some (DateParseResult.date r)) Category.date]
                  else []
              | None => []
              end)
           daysToShow)
      (firstn 1 matchedMonths)
  else [].

Definition nonEmpty (s : string) : bool :=
  match s with EmptyString => false | String _ _ => true end.

(** The block under [// Weekday suggestions]. *)
Definition weekdaySuggestions (now : Z) (trimmed : string) (showTime : bool)
  : list SmartSuggestion.t :=
  let matchedWeekdays :=
    filter
      (fun day =>
         (includes trimmed day || includes (substring 0 3 day) trimmed)%bool)
      weekdays in
  flat_map
    (fun weekday =>
       flat_map
         (fun prefix =>
            let suggestion := prefix ++ weekday in
            let weight := if nonEmpty prefix then 0.85%float else 0.8%float in
            match parseSmartDateString dateParse now suggestion with
            | Some r =>
                (SmartSuggestion.mk
                   (if nonEmpty prefix then "Next " ++ capitalize weekday
                    else capitalize weekday)
                   suggestion weight
                   (formatDateForDisplay (DateParseResult.date r) dateFormat)
                   (Some (DateParseResult.date r)) Category.relative
                 :: (if showTime
                     then
                       flat_map
                         (fun time =>
                            let timeVariant := suggestion ++ " " ++ time in
                            match parseSmartDateString dateParse now timeVariant with
                            | Some tr =>
                                [SmartSuggestion.mk
                                   ((if nonEmpty prefix then "Next " else "")
                                    ++ capitalize weekday ++ " at " ++ time)
                                   timeVariant (weight * 0.9)%float
                                   (formatDateForDisplay (DateParseResult.date tr)
                                      dateTimeFormat)
                                   (Some (DateParseResult.date tr)) Category.time]
                            | None => []
                            end)
                         ["9am"; "2pm"; "5pm"]
                     else []))
            | None => []
            end)
         [""; "next "])
    matchedWeekdays.

(** The list [contextualSuggestions] when the three blocks have run. *)
Definition contextualSuggestions (now : Z) (trimmed : string) (showTime : bool)
  (currentParse : option DateParseResult.t) : list SmartSuggestion.t :=
  (timeSuggestions now trimmed showTime
   ++ monthSuggestions now trimmed currentParse
   ++ weekdaySuggestions now trimmed showTime)%list.

(** One phrase of a keyword family, pushed onto [suggestions] unless it
    mentions a time while times are off, does not parse, or is there
    already. *)
Definition pushPhrase (now : Z) (showTime : bool)
  (suggestions : list SmartSuggestion.t) (suggestion : string)
  : list SmartSuggestion.t :=
  if (negb showTime && mentionsAmPm suggestion)%bool then suggestions
  else
    match parseSmartDateString dateParse now suggestion with
    | Some r =>
        if existsb (fun s => String.eqb (SmartSuggestion.value s) suggestion)
             suggestions
        then suggestions
        else
          (suggestions
           ++ [SmartSuggestion.mk (capitalize suggestion) suggestion 0.8%float
                 (formatDateForDisplay (DateParseResult.date r)
                    (if (showTime && mentionsAmPm suggestion)%bool
                     then dateTimeFormat else dateFormat))
                 (Some (DateParseResult.date r))
                 (if mentionsAmPm suggestion then Category.time
                  else Category.relative)])%list
    | None => suggestions
    end.

(** The loop over [relativeSuggestions]: the first family whose pattern
    matches, its first two phrases. *)
Fixpoint pushFamily (now : Z) (trimmed : string) (showTime : bool)
  (families : list (RegExp * list string))
  (suggestions : list SmartSuggestion.t) : list SmartSuggestion.t :=
  match families with
  | [] => suggestions
  | (pattern, relSuggestions) :: families' =>
      if test pattern trimmed
      then fold_left (pushPhrase now showTime) (firstn 2 relSuggestions)
             suggestions
      else pushFamily now trimmed showTime families' suggestions
  end.

(** The array [suggestions] before the sort and filter: the pool of
    candidates of a non-empty input.  The clock is read once, for the
    call and for the parses it makes; the readings of the source differ by
    the time the call takes, and only dates and previews depend on them. *)
Definition candidates (now : Z) (input : string) (showTime : bool)
  : list SmartSuggestion.t :=
  let trimmed := toLowerCase (trim input) in
  let currentParse := parseSmartDateString dateParse now input in
  let suggestions :=
    (directSuggestion input showTime currentParse
     ++ firstn 8 (contextualSuggestions now trimmed showTime currentParse))%list in
  if belowOrAbsent currentParse 0.8
  then pushFamily now trimmed showTime relativeSuggestions suggestions
  else suggestions.

Definition generateSmartSuggestions (now : Z) (input : string) (showTime : bool)
  : list SmartSuggestion.t :=
  let trimmed := toLowerCase (trim input) in
  if String.eqb trimmed "" then initialSuggestions now showTime
  else postProcess (candidates now input showTime).

End WithHost.

End Suggestions.

(* ================================================================== *)
(** * isOverdue and getDueDateStatus *)
(* ================================================================== *)

Module DueDate.

Local Open Scope string_scope.

Inductive Status : Type :=
| overdue
| due_today
| due_soon
| not_due
| no_due_date.

Record DueDateStatus : Type := mkStatus {
  status : Status;
  text : string;
  className : string
}.

(** [!dueDate] for [number | null | undefined]: absent, or the number 0. *)
Definition falsy (dueDate : option Z) : bool :=
  match dueDate with
  | None => true
  | Some d => (d =? 0)%Z
  end.

(** [x <= d.getTime()]; a comparison with NaN is false. *)
Definition leTime (x : Z) (d : Date) : bool :=
  match d with
  | ValidDate t => (x <=? t)%Z
  | InvalidDate => false
  end.

(** [setHours(23, 59, 59, 999)] on a date. *)
Definition atEndOfDay (d : Date) : Date :=
  match d with
  | ValidDate t => endOfDay t
  | InvalidDate => InvalidDate
  end.

(** [d.setDate(d.getDate() + 1)]. *)
Definition nextDay (d : Date) : Date :=
  match d with
  | ValidDate t => addDays t 1
  | InvalidDate => InvalidDate
  end.

Definition isOverdue (now : Z) (dueDate : option Z) : bool :=
  match dueDate with
  | Some d => if falsy dueDate then false else (d <? now)%Z
  | None => false
  end.

Section WithHost.

(** date-fns [format(date, formatString)], and
    [formatDistanceToNow(date, { addSuffix: true })] read at [now]. *)
Variable format : Z -> string -> string.
Variable formatDistanceToNow : Z -> Z -> string.

Definition formatDateForDisplay (d : Date) (formatString : string) : string :=
  match d with
  | ValidDate t => format t formatString
  | InvalidDate => EmptyString
  end.

Definition formatRelativeTime (now : Z) (d : Date) : string :=
  match d with
  | ValidDate t => formatDistanceToNow now t
  | InvalidDate => EmptyString
  end.

Definition getDueDateStatus (now : Z) (dueDate : option Z) : DueDateStatus :=
  match dueDate with
  | Some d =>
      if falsy dueDate
      then mkStatus no_due_date "No due date" "text-gray-500"
      else
        let today := atEndOfDay (ValidDate now) in
        let tomorrow := atEndOfDay (nextDay today) in
        if (d <? now)%Z
        then mkStatus overdue
               ("Overdue " ++ formatRelativeTime now (timeClip d))
               "text-red-600 font-medium"
        else if leTime d today
        then mkStatus due_today "Due today" "text-orange-600 font-medium"
        else if leTime d tomorrow
        then mkStatus due_soon "Due tomorrow" "text-yellow-600"
        else mkStatus not_due
               ("Due " ++ formatDateForDisplay (timeClip d) "MMM dd")
               "text-gray-600"
  | None => mkStatus no_due_date "No due date" "text-gray-500"
  end.

End WithHost.

End DueDate.

(* ================================================================== *)
(** * formatDateForInput, formatConfidence and getConfidenceColor *)
(* ================================================================== *)

Module Display.

Local Open Scope string_scope.

(** The value of [Math.round]: an integer, NaN or an infinity.  The two
    zeros are one integer; both print as 0. *)
Inductive Rounded : Type :=
| Integral (n : Z)
| NotANumber
| Infinite (negative : bool).

(** [Math.round(x)]: the integer nearest to [x], a half rounded up.  A
    finite [x] is [n * 2 ^ e] for integers [n] and [e], and the result is
    the floor of [x + 1/2], taken exactly. *)
Definition Math_round (x : float) : Rounded :=
  match Prim2SF x with
  | S754_zero _ => Integral 0
  | S754_infinity s => Infinite s
  | S754_nan => NotANumber
  | S754_finite s m e =>
      let n := if s then Z.neg m else Z.pos m in
      Integral (if (0 <=? e)%Z then (n * 2 ^ e)%Z
                else ((2 * n + 2 ^ (- e)) / 2 ^ (1 - e))%Z)
  end.

(** [`${r}`] for a rounded number.  From 10^21 on JavaScript writes a
    number in exponent notation; that form is outside this model
    ([None]). *)
Definition numberToString (r : Rounded) : option string :=
  match r with
  | Integral n => if (Z.abs n <? 10 ^ 21)%Z then Some (ofZ n) else None
  | NotANumber => Some "NaN"
  | Infinite false => Some "Infinity"
  | Infinite true => Some "-Infinity"
  end.

Definition formatConfidence (confidence : float) : option string :=
  option_map (fun n => n ++ "%")
    (numberToString (Math_round (confidence * 100)%float)).

Definition getConfidenceColor (confidence : float) : string :=
  if PrimFloat.leb 0.8 confidence then "text-green-600"
  else if PrimFloat.leb 0.6 confidence then "text-yellow-600"
  else "text-orange-600".

Section WithHost.

(** date-fns [format(date, formatString)]. *)
Variable format : Z -> string -> string.

Definition formatDateForInput (date : Date) (includeTime : bool) : string :=
  match date with
  | InvalidDate => ""
  | ValidDate t =>
      if includeTime then format t "yyyy-MM-dd HH:mm"
      else format t "yyyy-MM-dd"
  end.

End WithHost.

End Display.

(* ================================================================== *)
(** * sortByDate and groupByDate *)
(* ================================================================== *)

(** The dates of the items are timestamps: integers, or absent ([null] or
    [undefined]). *)
Module Collections.

Import DueDate.
Local Open Scope string_scope.

(** [Array.prototype.sort] with a comparator that returns a number: a
    stable sort, [a] after [b] when the comparator is positive on
    [(a, b)]. *)
Fixpoint arrayInsert {A : Type} (cmp : A -> A -> Z) (x : A) (l : list A)
  : list A :=
  match l with
  | [] => [x]
  | y :: l' =>
      if (0 <? cmp x y)%Z then y :: arrayInsert cmp x l'
      else x :: l
  end.

Definition arraySort {A : Type} (cmp : A -> A -> Z) (l : list A) : list A :=
  fold_right (arrayInsert cmp) [] l.

Inductive Direction : Type := asc | desc.

Section WithItems.

Variable T : Type.
Variable getDate : T -> option Z.

(** The comparator of [sortByDate].  Of two timestamps only the sign of
    the difference is read, which is that of the difference of the
    integers. *)
Definition compareDates (direction : Direction) (a b : T) : Z :=
  let dateA := getDate a in
  let dateB := getDate b in
  if (falsy dateA && falsy dateB)%bool then 0%Z
  else if falsy dateA then 1%Z
  else if falsy dateB then (-1)%Z
  else
    match dateA, dateB with
    | Some x, Some y =>
        match direction with
        | asc => (x - y)%Z
        | desc => (y - x)%Z
        end
    | _, _ => 0%Z
    end.

(** [sortByDate(items, getDate, direction)]; the direction is "desc" when
    the caller gives none. *)
Definition sortByDate (items : list T) (direction : Direction) : list T :=
  arraySort (compareDates direction) items.

(** The names [Object.prototype] defines: on a fresh object [{}] the
    lookup of one of them finds a value that is no array. *)
Definition objectPrototype : list string :=
  ["constructor"; "hasOwnProperty"; "isPrototypeOf"; "propertyIsEnumerable";
   "toLocaleString"; "toString"; "valueOf"; "__proto__";
   "__defineGetter__"; "__defineSetter__"; "__lookupGetter__";
   "__lookupSetter__"].

Definition inherited (key : string) : bool :=
  existsb (String.eqb key) objectPrototype.

(** The object [groups]: its own properties, in the order they were
    created. *)
Definition Groups : Type := list (string * list T).

(** The array an own property holds. *)
Fixpoint ownProperty (key : string) (groups : Groups) : option (list T) :=
  match groups with
  | [] => None
  | (k, items) :: groups' =>
      if String.eqb k key then Some items else ownProperty key groups'
  end.

(** [groups[key].push(item)] on an own property. *)
Fixpoint pushItem (key : string) (item : T) (groups : Groups) : Groups :=
  match groups with
  | [] => []
  | (k, items) :: groups' =>
      if String.eqb k key then (k, (items ++ [item])%list) :: groups'
      else (k, items) :: pushItem key item groups'
  end.

(** [if (!groups[key]) groups[key] = []; groups[key].push(item)].  An
    array is truthy, and so is what an inherited name finds, which has no
    [push]: the call throws a TypeError ([None]). *)
Definition addItem (key : string) (item : T) (groups : Groups) : option Groups :=
  match ownProperty key groups with
  | Some _ => Some (pushItem key item groups)
  | None =>
      if inherited key then None
      else Some (groups ++ [(key, [item])])%list
  end.

Section WithHost.

(** date-fns [format(date, formatString)]. *)
Variable format : Z -> string -> string.

(** The key of an item under [formatStr]. *)
Definition keyOf (formatStr : string) (item : T) : string :=
  match getDate item with
  | Some date =>
      if falsy (Some date) then "No date"
      else formatDateForDisplay format (timeClip date) formatStr
  | None => "No date"
  end.

(** [groupByDate(items, getDate, formatStr)]; the format is "yyyy-MM-dd"
    when the caller gives none.  [None] when the loop throws. *)
Definition groupByDate (items : list T) (formatStr : string) : option Groups :=
  fold_left
    (fun groups item =>
       match groups with
       | Some g => addItem (keyOf formatStr item) item g
       | None => None
       end)
    items (Some []).

End WithHost.

End WithItems.

Arguments compareDates {T} getDate direction a b.
Arguments sortByDate {T} getDate items direction.
Arguments ownProperty {T} key groups.
Arguments pushItem {T} key item groups.
Arguments addItem {T} key item groups.
Arguments keyOf {T} getDate format formatStr item.
Arguments groupByDate {T} getDate format items formatStr.

End Collections.

(* ================================================================== *)
(** * getDatePresets *)
(* ================================================================== *)

Module Presets.

Local Open Scope string_scope.

(** [date.setDate(day)]: MakeDay on the year and the month of the date,
    with the time of the day kept. *)
Definition setDate (t day : Z) : Date :=
  timeClip (makeDate (makeDay (getFullYear t) (getMonth t) day)
              (timeWithinDay t)).

(** [date.setMonth(month)]: MakeDay on the year and the day of the month
    of the date. *)
Definition setMonth (t month : Z) : Date :=
  timeClip (makeDate (makeDay (getFullYear t) month (getDate t))
              (timeWithinDay t)).

(** The presets: a label, and the value read when the clock reads [now]
    ([new Date()] in each thunk). *)
Definition getDatePresets : list (string * (Z -> Date)) :=
  [ ("Today", fun now => ValidDate now);
    ("Tomorrow", fun now => setDate now (getDate now + 1));
    ("In 3 days", fun now => setDate now (getDate now + 3));
    ("Next week", fun now => setDate now (getDate now + 7));
    ("In 2 weeks", fun now => setDate now (getDate now + 14));
    ("Next month", fun now => setMonth now (getMonth now + 1)) ].

End Presets.

(* ================================================================== *)
(** * Vocabulary of the properties *)
(* ================================================================== *)

Module Vocabulary.

Import Parser Suggestions.
Local Open Scope string_scope.

(** The weight the Time Extractor leaves in [confidence], and the weights
    of the date resolvers. *)
Definition timeWeights : list float := [0; 0 + 0.3]%float.
Definition dateWeights : list float := [0.9; 0.8; 0.85; 0.7; 0.75; 0.5]%float.

(** No date yet: [confidence] holds the time weight alone. *)
Definition Unresolved (st : Locals) : Prop :=
  parsedDate st = None /\ In (confidence st) timeWeights.

(** A date is set: [confidence] is the time weight plus one date weight. *)
Definition Resolved (st : Locals) : Prop :=
  parsedDate st <> None
  /\ exists c w, In c timeWeights /\ In w dateWeights
                 /\ confidence st = (c + w)%float.

(** The confidences a parse can return. *)
Definition parseConfidences : list float :=
  [0.9; 0.8; 0.85; 0.7; 0.75; 0.5; 1.0]%float.

(** [every p s]: all the code units of [s] satisfy [p]. *)
Fixpoint every (p : ascii -> bool) (s : string) : bool :=
  match s with
  | EmptyString => true
  | String c s' => p c && every p s'
  end.

(** A decimal numeral: a run of digits, at least one. *)
Definition isNumeral (ds : string) : bool :=
  match ds with
  | EmptyString => false
  | String _ _ => every isDigit ds
  end.

(** The number a decimal numeral denotes. *)
Definition numeralValue (ds : string) : Z := digitsValue 0 ds.

(** [u] is an upper-case form no code unit of [s] has. *)
Definition avoids (u : ascii) (s : string) : bool :=
  every (fun c => negb (Ascii.eqb (toUpperChar c) u)) s.

(** Every text the pattern matches has a code unit whose upper-case form
    is [u] (a sufficient syntactic condition). *)
Fixpoint requires (u : ascii) (r : regex) : bool :=
  match r with
  | Lit l => negb (every (fun a => negb (Ascii.eqb (toUpperChar a) u)) l)
  | Seq r1 r2 => requires u r1 || requires u r2
  | Alt r1 r2 => requires u r1 && requires u r2
  | Group _ r1 => requires u r1
  | Class _ | Opt _ | Repeat _ _ _ | Bol | Eol | WordB => false
  end.

(** The code unit before the position reached after [s], from [pv]. *)
Fixpoint lastOr (pv : option ascii) (s : string) : option ascii :=
  match s with
  | EmptyString => pv
  | String c s' => lastOr (Some c) s'
  end.

(** The phrase "in N days", or "in N day", for the numeral [ds]. *)
Definition inDays (ds : string) (plural : bool) : string :=
  "in " ++ ds ++ (if plural then " days" else " day").
(** The pattern of the row "in N days" of [relativePatterns]. *)
Definition inDaysPattern : RegExp :=
  mkRegExp "^in (\d+) days?$" true
    (seqs [Bol; Lit "in "; Group 1 (digits 1 None); Lit " day";
           Opt (Lit "s"); Eol]).

(** Two readings of the locals that differ at most in the date that was
    resolved. *)
Definition agree (st st' : Locals) : Prop :=
  confidence st = confidence st'
  /\ (parsedDate st = None <-> parsedDate st' = None)
  /\ components st = components st'
  /\ extractedTime st = extractedTime st'
  /\ timeMatch st = timeMatch st'.

(** The confidences a suggestion can carry: a boosted parse confidence,
    or one of the fixed weights of the generator. *)
Definition suggestionConfidences : list float :=
  (List.map (fun c => Math_min (c + 0.2) 1.0) parseConfidences
   ++ [0.85; 0.65; 0.8; 0.85 * 0.9; 0.8 * 0.9])%float%list.

(** On the floats of [D]: the sign of a difference tells the order, and
    the order is transitive. *)
Definition orderChecked (D : list float) : bool :=
  forallb
    (fun x =>
       forallb
         (fun y =>
            (if PrimFloat.ltb 0 (y - x) then PrimFloat.leb x y
             else PrimFloat.leb y x)
            && forallb
                 (fun z =>
                    implb (PrimFloat.leb x y && PrimFloat.leb y z)
                      (PrimFloat.leb x z))
                 D)
         D)
    D.

(** On the floats of [D]: at least 0.9 is at least 0.85, and at least 0.7
    is at least 0.6. *)
Definition thresholdsChecked (D : list float) : bool :=
  forallb
    (fun c =>
       implb (PrimFloat.leb 0.9 c) (PrimFloat.leb 0.85 c)
       && implb (PrimFloat.leb 0.7 c) (PrimFloat.leb 0.6 c))
    D.

(** [a] may stand before [b] in a list sorted by descending confidence. *)
Definition notBelow (a b : SmartSuggestion.t) : Prop :=
  PrimFloat.leb (SmartSuggestion.confidence b) (SmartSuggestion.confidence a)
  = true.

(** The confidences do not increase from any position to a later one. *)
Definition nonIncreasing (l : list SmartSuggestion.t) : Prop :=
  StronglySorted notBelow l.

Definition values (l : list SmartSuggestion.t) : list string :=
  List.map SmartSuggestion.value l.

Definition sameValue (e s : SmartSuggestion.t) : bool :=
  String.eqb (SmartSuggestion.value s) (SmartSuggestion.value e).

Definition listed (s : SmartSuggestion.t) : Prop :=
  In (SmartSuggestion.confidence s) suggestionConfidences.

(** The confidence-tiered cap, read on a returned list. *)
Definition tierCap (l : list SmartSuggestion.t) : Prop :=
  match l with
  | [] => True
  | top :: _ =>
      if PrimFloat.leb 0.9 (SmartSuggestion.confidence top)
      then Forall (fun s => atLeast 0.85 s = true) l /\ (List.length l <= 3)%nat
      else if PrimFloat.leb 0.7 (SmartSuggestion.confidence top)
      then Forall (fun s => atLeast 0.6 s = true) l /\ (List.length l <= 5)%nat
      else (List.length l <= 6)%nat
  end.

(** The test [dedupByValue] filters by. *)
Definition dedupTest (self : list SmartSuggestion.t) (index : nat)
  (suggestion : SmartSuggestion.t) : bool :=
  match findIndex
          (fun s => String.eqb (SmartSuggestion.value s)
                      (SmartSuggestion.value suggestion)) self with
  | Some i => Nat.eqb index i
  | None => false
  end.

(** The value of a suggestion parses when the clock reads [now]. *)
Definition parseable (dateParse : string -> Date) (now : Z)
  (s : SmartSuggestion.t) : Prop :=
  parseSmartDateString dateParse now (SmartSuggestion.value s) <> None.

(** What holds of every candidate: its value parses, at any reading of
    the clock, and its confidence is one of [suggestionConfidences]. *)
Definition sound (dateParse : string -> Date) (now : Z)
  (s : SmartSuggestion.t) : Prop :=
  parseable dateParse now s /\ listed s.

(** The array [filteredSuggestions]: without duplicates and invalid
    confidences, sorted. *)
Definition ranked (suggestions : list SmartSuggestion.t)
  : list SmartSuggestion.t :=
  sort byConfidence (filter validConfidence (dedupByValue suggestions)).

Definition confidences (l : list SmartSuggestion.t) : list float :=
  List.map SmartSuggestion.confidence l.

(** The second of [monthPatterns], day first. *)
Definition dayFirstPattern : RegExp :=
  nth 1 monthPatterns (mkRegExp "" false Bol).

(** The text starts with an ASCII letter. *)
Definition startsWithLetter (s : string) : bool :=
  match s with
  | String c _ => isAsciiLetter c
  | EmptyString => false
  end.

(** A reading of the clock for the examples: Wednesday 1 January 2025,
    09:30:00.000. *)
Definition newYear2025 : Z := 1735723800000%Z.

(** Year, month (1..12), day, hour and minute of a date. *)
Definition fields (d : Date) : option (Z * Z * Z * Z * Z) :=
  match d with
  | ValidDate t =>
      Some (getFullYear t, (getMonth t + 1)%Z, getDate t, getHours t,
            getMinutes t)
  | InvalidDate => None
  end.

(** The item has a date: a timestamp other than 0. *)
Definition isDated {T : Type} (getDate : T -> option Z) (a : T) : bool :=
  negb (DueDate.falsy (getDate a)).

Definition isUndated {T : Type} (getDate : T -> option Z) (a : T) : bool :=
  DueDate.falsy (getDate a).

(** The timestamp of the item is [d]. *)
Definition hasDate {T : Type} (getDate : T -> option Z) (d : Z) (a : T) : bool :=
  match getDate a with
  | Some x => (x =? d)%Z
  | None => false
  end.

(** [a] may stand before [b] in an array sorted by date: an item without
    a date after every item with one, and the dates in the order of the
    direction. *)
Definition inOrder {T : Type} (getDate : T -> option Z)
  (direction : Collections.Direction) (a b : T) : Prop :=
  if isUndated getDate b then True
  else if isUndated getDate a then False
  else
    match getDate a, getDate b with
    | Some x, Some y =>
        match direction with
        | Collections.asc => (x <= y)%Z
        | Collections.desc => (y <= x)%Z
        end
    | _, _ => True
    end.

(** The items whose key is [key], in the order of [items]. *)
Definition withKey {T : Type} (getDate : T -> option Z)
  (format : Z -> string -> string) (formatStr key : string) (items : list T)
  : list T :=
  filter
    (fun item => String.eqb (Collections.keyOf getDate format formatStr item) key)
    items.

(** A property holds an array that is not empty, or is missing. *)
Definition unlessEmpty {T : Type} (l : list T) : option (list T) :=
  match l with
  | [] => None
  | _ :: _ => Some l
  end.

(** All the items of the groups, group after group. *)
Definition members {T : Type} (groups : list (string * list T)) : list T :=
  List.concat (List.map snd groups).

(** What holds of the object [groups] when the loop of [groupByDate] has
    read the items [seen]. *)
Definition grouped {T : Type} (getDate : T -> option Z)
  (format : Z -> string -> string) (formatStr : string) (seen : list T)
  (g : list (string * list T)) : Prop :=
  (forall k, Collections.ownProperty k g
             = unlessEmpty (withKey getDate format formatStr k seen))
  /\ NoDup (List.map fst g)
  /\ Permutation (members g) seen.

(** The loop of [groupByDate], from the groups [start]. *)
Definition groupLoop {T : Type} (getDate : T -> option Z)
  (format : Z -> string -> string) (formatStr : string) (items : list T)
  (start : option (list (string * list T)))
  : option (list (string * list T)) :=
  fold_left
    (fun groups item =>
       match groups with
       | Some g =>
           Collections.addItem
             (Collections.keyOf getDate format formatStr item) item g
       | None => None
       end)
    items start.

(** The normal form the resolvers of the library read. *)
Definition normalForm (input : string) : string := toLowerCase (trim input).

(** The locals when the Time Extractor and the three resolvers of the
    library have run on the normal form, before the fallback. *)
Definition chain (now : Z) (trimmed : string) : Locals :=
  let st := extractTime trimmed initial in
  let text := inputWithoutTime trimmed st in
  resolveMonthDay now text
    (resolveWeekday now text (resolveRelative now text st)).

(** The share of the confidence that a time component stands for. *)
Definition timeShare (c : ParsedComponents.t) : float :=
  match ParsedComponents.time c with
  | Some _ => (0 + 0.3)%float
  | None => 0%float
  end.

Definition isSome {A : Type} (o : option A) : bool :=
  match o with Some _ => true | None => false end.

(** Which of the components relative, weekday and date are present. *)
Definition dateComponents (c : ParsedComponents.t) : bool * bool * bool :=
  (isSome (ParsedComponents.relative c), isSome (ParsedComponents.weekday c),
   isSome (ParsedComponents.date c)).

(** The weights of the four resolvers, by the components they set: the
    table of relative phrases, the weekday block, the month/day block and
    the fallback, which sets none. *)
Definition resolverWeights : list ((bool * bool * bool) * list float) :=
  [ ((true, false, false), [0.9; 0.8; 0.85; 0.7]%float);
    ((false, true, false), [0.85; 0.8]%float);
    ((false, false, true), [0.75]%float);
    ((false, false, false), [0.5]%float) ].

(** What the locals keep from the Time Extractor on: the time that was
    extracted is a time of the day and stands in the components, no
    modifier is set, and the confidence is the share of the time alone
    while no date is resolved, and that share plus the weight of the one
    resolver that set its component afterwards. *)
Definition Traced (st : Locals) : Prop :=
  match extractedTime st with
  | Some (h, mi) =>
      (0 <= h <= 23)%Z /\ (0 <= mi <= 59)%Z
      /\ ParsedComponents.time (components st) <> None
  | None => ParsedComponents.time (components st) = None
  end
  /\ ParsedComponents.modifiers (components st) = None
  /\ match parsedDate st with
     | None =>
         confidence st = timeShare (components st)
         /\ dateComponents (components st) = (false, false, false)
     | Some _ =>
         exists ws w,
           In (dateComponents (components st), ws) resolverWeights
           /\ In w ws
           /\ confidence st = (timeShare (components st) + w)%float
     end.

(** The fields of a result other than the original input. *)
Definition outcome (r : DateParseResult.t)
  : Date * float * ParsedComponents.t :=
  (DateParseResult.date r, DateParseResult.confidence r,
   DateParseResult.parsedComponents r).

(** What the indicator of a confidence shows: the class of its colour and
    its label. *)
Definition indicator (confidence : float) : string * option string :=
  (Display.getConfidenceColor confidence, Display.formatConfidence confidence).

Definition sameIndicator (a b : string * option string) : bool :=
  (String.eqb (fst a) (fst b)
   && match snd a, snd b with
      | Some x, Some y => String.eqb x y
      | None, None => true
      | _, _ => false
      end)%bool.

(** The indicators of the results of the parser. *)
Definition parseIndicators : list (string * option string) :=
  [ ("text-green-600", Some "100%"); ("text-green-600", Some "90%");
    ("text-green-600", Some "85%"); ("text-green-600", Some "80%");
    ("text-yellow-600", Some "75%"); ("text-yellow-600", Some "70%");
    ("text-orange-600", Some "50%") ].

(** On every sum of a share of the time and a weight of a resolver: the
    indicator of the capped sum is one of [parseIndicators]; it is green
    when the time has its share; and it is orange for the fallback
    without a time, and only then. *)
Definition indicatorsChecked : bool :=
  forallb
    (fun timed : bool =>
       forallb
         (fun row : (bool * bool * bool) * list float =>
            forallb
              (fun w =>
                 let c :=
                   Math_min ((if timed then 0 + 0.3 else 0) + w) 1.0 in
                 (existsb (sameIndicator (indicator c)) parseIndicators
                  && implb timed
                       (String.eqb (fst (indicator c)) "text-green-600")
                  && Bool.eqb
                       (String.eqb (fst (indicator c)) "text-orange-600")
                       (negb timed
                        && match fst row with
                           | (false, false, false) => true
                           | _ => false
                           end))%bool)
              (snd row))
         resolverWeights)
    [false; true].

(** The weights the generator gives the suggestions it builds from its own
    phrases. *)
Definition generatorWeights : list float :=
  [0.85; 0.65; 0.8; 0.85 * 0.9; 0.8 * 0.9]%float.

(** The confidences of the suggestions of an empty input. *)
Definition initialWeights : list float := [1.0; 0.9; 0.8]%float.

(** What a suggestion shows when the clock reads [now]: its value parses,
    its date is the date of that parse, its preview is that date in the
    format of dates or, with times on, in the format of dates with a time;
    and its category is time only with times on. *)
Definition Shown (dateParse : string -> Date) (format : Z -> string -> string)
  (now : Z) (showTime : bool) (s : SmartSuggestion.t) : Prop :=
  exists r,
    parseSmartDateString dateParse now (SmartSuggestion.value s) = Some r
    /\ SmartSuggestion.parsedDate s = Some (DateParseResult.date r)
    /\ (SmartSuggestion.preview s
        = Suggestions.formatDateForDisplay format (DateParseResult.date r)
            dateFormat
        \/ showTime = true
           /\ SmartSuggestion.preview s
              = Suggestions.formatDateForDisplay format
                  (DateParseResult.date r) dateTimeFormat)
    /\ (SmartSuggestion.category s = Category.time -> showTime = true).

(** A suggestion built from a phrase of the generator: not of category
    natural, and with one of the weights of the generator. *)
Definition Generated (s : SmartSuggestion.t) : Prop :=
  SmartSuggestion.category s <> Category.natural
  /\ In (SmartSuggestion.confidence s) generatorWeights.

(** On the confidences of a parse above 0.5: the boosted confidence is a
    number above 0, at least 0.85, no weight of the generator is above it,
    and it is at least 0.9 exactly when the confidence of the parse is at
    least 0.75. *)
Definition boostChecked : bool :=
  forallb
    (fun c =>
       implb (PrimFloat.ltb 0.5 c)
         (let b := Math_min (c + 0.2) 1.0 in
          negb (PrimFloat.is_nan b) && PrimFloat.ltb 0 b
          && PrimFloat.leb 0.85 b && PrimFloat.leb 0.6 b
          && forallb (fun w => negb (PrimFloat.ltb 0 (w - b))) generatorWeights
          && Bool.eqb (PrimFloat.leb 0.9 b) (PrimFloat.leb 0.75 c)))
    parseConfidences.

(** The indicators of the suggestions. *)
Definition suggestionIndicators : list (string * option string) :=
  [ ("text-green-600", Some "100%"); ("text-green-600", Some "95%");
    ("text-green-600", Some "90%"); ("text-green-600", Some "85%");
    ("text-green-600", Some "80%"); ("text-yellow-600", Some "77%");
    ("text-yellow-600", Some "72%"); ("text-yellow-600", Some "70%");
    ("text-yellow-600", Some "65%") ].

Definition suggestionIndicatorsChecked : bool :=
  forallb
    (fun c => existsb (sameIndicator (indicator c)) suggestionIndicators)
    (suggestionConfidences ++ initialWeights)%list.

(** The suggestion for the input itself. *)
Definition direct (format : Z -> string -> string) (input : string)
  (showTime : bool) (r : DateParseResult.t) : SmartSuggestion.t :=
  let preview :=
    Suggestions.formatDateForDisplay format (DateParseResult.date r)
      (if showTime then dateTimeFormat else dateFormat) in
  SmartSuggestion.mk
    (quote ++ input ++ quote ++ " " ++ arrow ++ " " ++ preview)
    input (Math_min (DateParseResult.confidence r + 0.2) 1.0) preview
    (Some (DateParseResult.date r)) Category.natural.

(** No time pattern matches the text. *)
Definition noTime (s : string) : bool :=
  match firstMatch timePatterns s with None => true | Some _ => false end.

(** No row of [relativePatterns] matches the text. *)
Definition noRelative (s : string) : bool :=
  match firstRelative relativePatterns s with None => true | Some _ => false end.

(** The weekday pattern does not match the text. *)
Definition noWeekday (s : string) : bool :=
  match exec weekdayPattern s with None => true | Some _ => false end.

(** The index of the first row whose pattern matches, with its match. *)
Fixpoint relativeIndex (rows : list RelativePattern) (s : string)
  : option (nat * MatchResult) :=
  match rows with
  | [] => None
  | row :: rows' =>
      match exec (rpPattern row) s with
      | Some m => Some (O, m)
      | None =>
          match relativeIndex rows' s with
          | Some (k, m) => Some (S k, m)
          | None => None
          end
      end
  end.

(** The date a row gives. *)
Definition relativeDate (now : Z) (row : RelativePattern) (m : MatchResult)
  : option Date :=
  match rpHandler row with
  | Some handler => Some (handler now m)
  | None => option_map (addDays now) (rpDays row)
  end.

(** The index of the row that matches the whole text. *)
Definition relativeOf (s : string) : option nat :=
  match relativeIndex relativePatterns s with
  | Some (k, m) => if String.eqb (m0 m) s then Some k else None
  | None => None
  end.

(** Whether "next" was written and the index of the weekday, when the
    weekday pattern matches the whole text. *)
Definition weekdayOf (s : string) : option (bool * nat) :=
  match exec weekdayPattern s with
  | Some m =>
      if String.eqb (m0 m) s
      then
        match option_map toLowerCase (group 2 m) with
        | Some name =>
            option_map (fun i => (truthy (group 1 m), i))
              (indexOf name Parser.weekdays)
        | None => None
        end
      else None
  | None => None
  end.

(** The month (0-based) and the day the month/day block accepts, when the
    first month pattern that matches, matches the whole text. *)
Definition monthDayOf (s : string) : option (Z * Z) :=
  match firstMatch monthPatterns s with
  | Some (pat, m) =>
      if String.eqb (m0 m) s
      then
        match monthAndDay pat m with
        | (Some month, Some day) =>
            if monthDayInRange (Some month) (Some day)
            then Some (month, day) else None
        | _ => None
        end
      else None
  | None => None
  end.

(** The phrase of a weekday, with or without "next". *)
Definition weekdayPhrase (next : bool) (name : string) : string :=
  (if next then "next " else "") ++ name.

Definition sameOption {A : Type} (eqb : A -> A -> bool) (a b : option A)
  : bool :=
  match a, b with
  | Some x, Some y => eqb x y
  | None, None => true
  | _, _ => false
  end.

(** The month an array index of [monthNames] stands for, as the source
    computes it: the names from "jun" on stand one month early. *)
Definition monthNameTable : list (string * Z) :=
  [ ("jan", 0); ("january", 0); ("feb", 1); ("february", 1); ("mar", 2);
    ("march", 2); ("apr", 3); ("april", 3); ("may", 4); ("jun", 4);
    ("june", 4); ("jul", 5); ("july", 5); ("aug", 6); ("august", 6);
    ("sep", 7); ("september", 7); ("oct", 8); ("october", 8); ("nov", 9);
    ("november", 9); ("dec", 10); ("december", 10) ]%Z.

(** The days of the month a text can name. *)
Definition daysOfMonth : list Z := List.map Z.of_nat (seq 1 31).

Definition sameMonthDay (a b : Z * Z) : bool :=
  ((fst a =? fst b)%Z && (snd a =? snd b)%Z)%bool.

(** The text of a month name and a day reaches the month/day block alone. *)
Definition onlyMonthDay (s : string) (month day : Z) : bool :=
  (noTime s && noRelative s && noWeekday s
   && sameOption sameMonthDay (monthDayOf s) (Some (month, day)))%bool.

(** The numbers of the months. *)
Definition monthNumbers : list Z := List.map Z.of_nat (seq 1 12).

(** The fixed phrases of [relativePatterns]: the row, the date and the
    weight of each. *)
Definition relativePhrases : list (string * nat * (Z -> Date) * float) :=
  [ ("today", 0%nat, fun now => addDays now 0, 0.9%float);
    ("now", 0%nat, fun now => addDays now 0, 0.9%float);
    ("tomorrow", 1%nat, fun now => addDays now 1, 0.9%float);
    ("yesterday", 2%nat, fun now => addDays now (-1), 0.9%float);
    ("next week", 3%nat, fun now => addDays now 7, 0.8%float);
    ("in a week", 3%nat, fun now => addDays now 7, 0.8%float);
    ("last week", 4%nat, fun now => addDays now (-7), 0.8%float);
    ("a week ago", 4%nat, fun now => addDays now (-7), 0.8%float);
    ("next month", 5%nat, fun now => addMonths now 1, 0.8%float);
    ("in a month", 5%nat, fun now => addMonths now 1, 0.8%float);
    ("last month", 6%nat, fun now => addMonths now (-1), 0.8%float);
    ("a month ago", 6%nat, fun now => addMonths now (-1), 0.8%float);
    ("end of day", 9%nat, fun now => endOfDay now, 0.7%float);
    ("eod", 9%nat, fun now => endOfDay now, 0.7%float);
    ("start of day", 10%nat, fun now => startOfDay now, 0.7%float);
    ("beginning of day", 10%nat, fun now => startOfDay now, 0.7%float) ].

(** [p] on the [n] integers from [start] on. *)
Definition allFrom (start : Z) (n : N) (p : Z -> bool) : bool :=
  snd (N.iter n
         (fun zb : Z * bool => ((fst zb + 1)%Z, (snd zb && p (fst zb))%bool))
         (start, true)).

(** The days from the first of March of the year 0 to the first of March
    of the year [n]. *)
Definition marchDays (n : Z) : Z := (365 * n + n / 4 - n / 100 + n / 400)%Z.

(** The year of the era that [civilFromDays] reads off a day of the era. *)
Definition yearOfEra (doe : Z) : Z :=
  ((doe - doe / 1460 + doe / 36524 - doe / 146096) / 365)%Z.

(** On the [k]-th year of an era: [yearOfEra] is [k] on its first day and
    on its last. *)
Definition yearChecked (k : Z) : bool :=
  ((yearOfEra (marchDays k) =? k)
   && (yearOfEra (marchDays (k + 1) - 1) =? k))%Z%bool.

(** The number of days of the month after the month of [now]. *)
Definition nextMonthLength (now : Z) : Z :=
  (makeDay (getFullYear now) (getMonth now + 2) 1
   - makeDay (getFullYear now) (getMonth now + 1) 1)%Z.

(** The presets that move by days, with the days. *)
Definition dayPresets : list (string * Z) :=
  [ ("Today", 0%Z); ("Tomorrow", 1%Z); ("In 3 days", 3%Z);
    ("Next week", 7%Z); ("In 2 weeks", 14%Z) ].

(** The month (0 for January) that the parser reads in the [i]-th name of
    [months]: the names from "jun" on stand one month early. *)
Definition monthRead (i : nat) : Z :=
  if (i <=? 4)%nat then Z.of_nat i else (Z.of_nat i - 1)%Z.

(** The 31st of January 2025, 09:30. *)
Definition endOfJanuary2025 : Z := 1738315800000%Z.

End Vocabulary.

(* ================================================================== *)
(** * Properties *)
(* ================================================================== *)

Import Parser Suggestions DueDate Vocabulary.
Local Open Scope string_scope.
Local Open Scope Z_scope.

(** ** Due dates *)

Section DueDateProperties.

Variable format : Z -> string -> string.
Variable formatDistanceToNow : Z -> Z -> string.

Lemma falsy_nonzero : forall d, d <> 0 -> falsy (Some d) = false.
Proof.
  intros d Hd. unfold falsy. now apply Z.eqb_neq.
Qed.

Lemma status_listed : forall now dueDate,
  In (status (getDueDateStatus format formatDistanceToNow now dueDate))
     [overdue; due_today; due_soon; not_due; no_due_date].
Proof.
  intros now dueDate. unfold getDueDateStatus.
  destruct dueDate as [d|]; [|simpl; tauto].
  destruct (falsy (Some d)); [simpl; tauto|].
  destruct (d <? now); [simpl; tauto|].
  destruct (leTime d _); [simpl; tauto|].
  destruct (leTime d _); simpl; tauto.
Qed.

(** C9, as amended: a missing due date has status no-due-date; every
    due-date timestamp other than 0 that is strictly before now has status
    overdue; and the status is always one of the five. *)
Theorem C9_due_date_status : forall now d,
  d <> 0 -> d < now ->
  status (getDueDateStatus format formatDistanceToNow now (Some d)) = overdue
  /\ status (getDueDateStatus format formatDistanceToNow now None) = no_due_date
  /\ (forall dueDate,
        In (status (getDueDateStatus format formatDistanceToNow now dueDate))
           [overdue; due_today; due_soon; not_due; no_due_date]).
Proof.
  intros now d Hd Hlt. repeat split.
  - unfold getDueDateStatus. rewrite (falsy_nonzero d Hd).
    apply Z.ltb_lt in Hlt. now rewrite Hlt.
  - apply status_listed.
Qed.

(** C10: the timestamp 0 is taken for an absent due date by both helpers:
    [getDueDateStatus] answers no-due-date and [isOverdue] answers false,
    whatever the clock reads. *)
Theorem C10_epoch_is_absent : forall now,
  status (getDueDateStatus format formatDistanceToNow now (Some 0)) = no_due_date
  /\ isOverdue now (Some 0) = false.
Proof.
  intros now. split; reflexivity.
Qed.

End DueDateProperties.

(** One millisecond before the clock reading is overdue. *)
Lemma C9_witness :
  1735723799999 <> 0 /\ 1735723799999 < 1735723800000
  /\ status (getDueDateStatus (fun _ f => f) (fun _ _ => "")
              1735723800000 (Some 1735723799999))
     = overdue.
Proof.
  assert (H0 : 1735723799999 <> 0) by discriminate.
  assert (H1 : 1735723799999 < 1735723800000) by reflexivity.
  split; [exact H0|]. split; [exact H1|].
  exact (proj1 (C9_due_date_status (fun _ f => f) (fun _ _ => "")
                  1735723800000 1735723799999 H0 H1)).
Defined.

(** The claim of C9 as written fails at the timestamp 0: it is strictly
    before the clock reading, and the status is no-due-date. *)
Lemma C9_counterexample :
  0 < 1735723800000
  /\ status (getDueDateStatus (fun _ f => f) (fun _ _ => "")
              1735723800000 (Some 0))
     = no_due_date
  /\ status (getDueDateStatus (fun _ f => f) (fun _ _ => "")
              1735723800000 (Some 0))
     <> overdue.
Proof.
  repeat split; discriminate.
Qed.

(** ** Dates *)

Lemma timeClip_valid : forall t,
  - maxTime <= t <= maxTime -> timeClip t = ValidDate t.
Proof.
  intros t Ht. unfold timeClip.
  destruct (Z.abs t <=? maxTime) eqn:E; [reflexivity|].
  apply Z.leb_gt in E. lia.
Qed.

Lemma getDay_range : forall t, 0 <= getDay t <= 6.
Proof.
  intros t. unfold getDay.
  pose proof (Z.mod_pos_bound (dayOf t + 4) 7). lia.
Qed.

Lemma daysUntilTarget_next_bounds : forall now i,
  (i <= 6)%nat -> 1 <= daysUntilTarget now true i <= 13.
Proof.
  intros now i Hi. unfold daysUntilTarget.
  pose proof (getDay_range now) as Hd.
  cbn [orb].
  destruct (getDay now =? 0) eqn:E.
  - lia.
  - apply Z.eqb_neq in E. lia.
Qed.

Lemma setMinutes_bounds : forall t mi,
  0 <= mi <= 59 ->
  let t' := makeDate (dayOf t)
              (getHours t * msPerHour + mi * msPerMinute + t mod msPerMinute) in
  t - msPerHour < t' < t + msPerHour /\ getHours t' = getHours t.
Proof.
  intros t mi Hmi. unfold makeDate, dayOf, getHours, msPerHour, msPerMinute, msPerDay.
  cbv zeta. Z.div_mod_to_equations. lia.
Qed.

Lemma setHours_bounds : forall t h,
  0 <= h <= 23 ->
  let t' := makeDate (dayOf t) (h * msPerHour + t mod msPerHour) in
  t - msPerDay < t' < t + msPerDay /\ getHours t' = h.
Proof.
  intros t h Hh. unfold makeDate, dayOf, getHours, msPerHour, msPerDay.
  cbv zeta. Z.div_mod_to_equations. lia.
Qed.

(** Applying an extracted time to a valid date that is at least a day and
    an hour inside the range of time values gives a valid date at that
    hour. *)
Lemma applied_time_hours : forall t h mi,
  0 <= h <= 23 -> 0 <= mi <= 59 ->
  - maxTime + msPerDay + msPerHour <= t <= maxTime - msPerDay - msPerHour ->
  exists t', setHours (setMinutes (ValidDate t) mi) h = ValidDate t'
             /\ getHours t' = h.
Proof.
  intros t h mi Hh Hmi Ht.
  destruct (setMinutes_bounds t mi Hmi) as [Hb1 _].
  unfold setMinutes.
  rewrite timeClip_valid by (unfold msPerDay, msPerHour, maxTime in *; lia).
  set (t1 := makeDate _ _) in *.
  destruct (setHours_bounds t1 h Hh) as [Hb2 Hh2].
  unfold setHours.
  rewrite timeClip_valid by (unfold msPerDay, msPerHour, maxTime in *; lia).
  eexists. split; [reflexivity|exact Hh2].
Qed.

(** ** The parser on given inputs *)

Section ParserExamples.

Variable dateParse : string -> Date.

Lemma next_friday_resolve : forall now,
  resolve dateParse now "next friday 2pm" =
  mkLocals (0 + 0.3 + 0.85)%float
    (Some (addDays now (daysUntilTarget now true 4)))
    (ParsedComponents.mk None (Some "2pm") (Some "next friday") None None)
    (Some (14, 0))
    (Some (mkMatch "2pm" [(3%nat, "pm"); (1%nat, "2")])).
Proof.
  intros now. unfold resolve.
  replace (toLowerCase (trim "next friday 2pm")) with "next friday 2pm"
    by (vm_compute; reflexivity).
  replace (extractTime "next friday 2pm" initial) with
    (mkLocals (0 + 0.3)%float None
       (ParsedComponents.mk None (Some "2pm") None None None)
       (Some (14, 0)) (Some (mkMatch "2pm" [(3%nat, "pm"); (1%nat, "2")])))
    by (vm_compute; reflexivity).
  replace (inputWithoutTime "next friday 2pm" _) with "next friday"
    by (vm_compute; reflexivity).
  unfold resolveRelative.
  replace (firstRelative relativePatterns "next friday") with
    (@None (RelativePattern * MatchResult)) by (vm_compute; reflexivity).
  unfold resolveWeekday. cbn [parsedDate].
  replace (exec weekdayPattern "next friday") with
    (Some (mkMatch "next friday" [(2%nat, "friday"); (1%nat, "next ")]))
    by (vm_compute; reflexivity).
  reflexivity.
Qed.

(** C7: "next friday 2pm" parses with both the weekday and the time
    component set, the confidence is min(0.3 + 0.85, 1.0) = 1.0, and the
    resolved date is at hour 14, the extracted time replacing that of the
    clock. *)
Theorem C7_next_friday_2pm : forall now,
  - maxTime + msPerDay + msPerHour <= now <= maxTime - 15 * msPerDay ->
  exists r t,
    parseSmartDateString dateParse now "next friday 2pm" = Some r
    /\ ParsedComponents.weekday (DateParseResult.parsedComponents r)
       = Some "next friday"
    /\ ParsedComponents.time (DateParseResult.parsedComponents r) = Some "2pm"
    /\ DateParseResult.confidence r = Math_min (0.3 + 0.85)%float 1.0
    /\ DateParseResult.confidence r = 1.0%float
    /\ DateParseResult.date r = ValidDate t
    /\ getHours t = 14.
Proof.
  intros now Hnow.
  pose proof (daysUntilTarget_next_bounds now 4 ltac:(lia)) as Hk.
  set (k := daysUntilTarget now true 4) in *.
  assert (Hadd : addDays now k = ValidDate (now + k * msPerDay)).
  { unfold addDays. apply timeClip_valid.
    unfold msPerDay, msPerHour, maxTime in *. lia. }
  destruct (applied_time_hours (now + k * msPerDay) 14 0) as [t [Ht Hh]];
    [lia | lia | unfold msPerDay, msPerHour, maxTime in *; lia |].
  eexists. exists t.
  unfold parseSmartDateString.
  replace (String.eqb (trim "next friday 2pm") "") with false
    by (vm_compute; reflexivity).
  rewrite next_friday_resolve. fold k.
  unfold finish. cbn [parsedDate confidence].
  replace (PrimFloat.ltb (0 + 0.3 + 0.85) 0.3) with false
    by (vm_compute; reflexivity).
  split; [reflexivity|].
  cbn [DateParseResult.parsedComponents DateParseResult.confidence
       DateParseResult.date components ParsedComponents.weekday
       ParsedComponents.time].
  split; [reflexivity|]. split; [reflexivity|].
  split; [vm_compute; reflexivity|]. split; [vm_compute; reflexivity|].
  split; [|exact Hh].
  unfold applyTime. cbn [extractedTime]. rewrite Hadd. exact Ht.
Qed.

Lemma fifteen_oct_resolve : forall now,
  resolveMonthDay now "15 oct"
    (resolveWeekday now "15 oct"
       (resolveRelative now "15 oct" (extractTime "15 oct" initial)))
  = initial.
Proof.
  intros now.
  replace (extractTime "15 oct" initial) with initial by (vm_compute; reflexivity).
  unfold resolveRelative.
  replace (firstRelative relativePatterns "15 oct") with
    (@None (RelativePattern * MatchResult)) by (vm_compute; reflexivity).
  unfold resolveWeekday. cbn [parsedDate initial].
  replace (exec weekdayPattern "15 oct") with (@None MatchResult)
    by (vm_compute; reflexivity).
  unfold resolveMonthDay. cbn [parsedDate initial].
  replace (firstMatch monthPatterns "15 oct") with
    (Some (nth 1 monthPatterns (mkRegExp "" false Bol),
           mkMatch "15 oct" [(2%nat, "oct"); (1%nat, "15")]))
    by (vm_compute; reflexivity).
  replace (monthAndDay _ _) with (Some (-1), @None Z) by (vm_compute; reflexivity).
  reflexivity.
Qed.

(** On the input "15 oct" the day-first pattern is the one that matches,
    with the day in group 1 and the month name in group 2; the loop body
    takes the month-name-first branch, so that the month is -1 and the day
    NaN.  The result is whatever the fallback makes of the input, at
    confidence 0.5 and with no [date] component. *)
Lemma fifteen_oct_parse : forall now,
  firstMatch monthPatterns "15 oct"
  = Some (nth 1 monthPatterns (mkRegExp "" false Bol),
          mkMatch "15 oct" [(2%nat, "oct"); (1%nat, "15")])
  /\ includes "jan|january" (toString (nth 1 monthPatterns (mkRegExp "" false Bol)))
     = true
  /\ monthAndDay (nth 1 monthPatterns (mkRegExp "" false Bol))
       (mkMatch "15 oct" [(2%nat, "oct"); (1%nat, "15")])
     = (Some (-1), None)
  /\ resolveMonthDay now "15 oct" initial = initial
  /\ parseSmartDateString dateParse now "15 oct"
     = if isValid (dateParse "15 oct")
       then Some (DateParseResult.mk (dateParse "15 oct") 0.5 "15 oct"
                    ParsedComponents.empty)
       else None.
Proof.
  intros now.
  split; [vm_compute; reflexivity|].
  split; [vm_compute; reflexivity|].
  split; [vm_compute; reflexivity|].
  split.
  - pose proof (fifteen_oct_resolve now) as H.
    replace (extractTime "15 oct" initial) with initial in H
      by (vm_compute; reflexivity).
    unfold resolveRelative in H.
    replace (firstRelative relativePatterns "15 oct") with
      (@None (RelativePattern * MatchResult)) in H by (vm_compute; reflexivity).
    unfold resolveWeekday in H. cbn [parsedDate initial] in H.
    replace (exec weekdayPattern "15 oct") with (@None MatchResult) in H
      by (vm_compute; reflexivity).
    exact H.
  - unfold parseSmartDateString.
    replace (String.eqb (trim "15 oct") "") with false by (vm_compute; reflexivity).
    unfold resolve.
    replace (toLowerCase (trim "15 oct")) with "15 oct" by (vm_compute; reflexivity).
    replace (inputWithoutTime "15 oct" (extractTime "15 oct" initial)) with "15 oct"
      by (vm_compute; reflexivity).
    rewrite fifteen_oct_resolve.
    unfold resolveFallback, finish. cbn [parsedDate initial].
    destruct (isValid (dateParse "15 oct")); [|reflexivity].
    cbn [parsedDate confidence components extractedTime applyTime].
    replace (PrimFloat.ltb (0 + 0.5) 0.3) with false by (vm_compute; reflexivity).
    unfold applyTime. cbn [extractedTime].
    replace (Math_min (0 + 0.5) 1.0) with 0.5%float by (vm_compute; reflexivity).
    reflexivity.
Qed.

End ParserExamples.

(** "next friday 2pm" read at 1 January 2025, 09:30 (a Wednesday): Friday
    10 January at 14:00. *)
Lemma C7_witness :
  exists r t,
    parseSmartDateString (fun _ => InvalidDate) 1735723800000 "next friday 2pm"
    = Some r
    /\ ParsedComponents.weekday (DateParseResult.parsedComponents r)
       = Some "next friday"
    /\ ParsedComponents.time (DateParseResult.parsedComponents r) = Some "2pm"
    /\ DateParseResult.confidence r = Math_min (0.3 + 0.85)%float 1.0
    /\ DateParseResult.confidence r = 1.0%float
    /\ DateParseResult.date r = ValidDate t
    /\ getHours t = 14.
Proof.
  apply (C7_next_friday_2pm (fun _ => InvalidDate) 1735723800000).
  vm_compute. split; discriminate.
Defined.


(** ** The resolver chain *)

Lemma firstMatch_In : forall ps s p m,
  firstMatch ps s = Some (p, m) -> In p ps /\ exec p s = Some m.
Proof.
  induction ps as [|q ps IH]; intros s p m H; simpl in H; [discriminate|].
  destruct (exec q s) as [m'|] eqn:E.
  - inversion H; subst. split; [now left|exact E].
  - destruct (IH _ _ _ H) as [Hin He]. split; [now right|exact He].
Qed.

Lemma firstRelative_In : forall rows s row m,
  firstRelative rows s = Some (row, m) ->
  In row rows /\ exec (rpPattern row) s = Some m.
Proof.
  induction rows as [|q rows IH]; intros s row m H; simpl in H; [discriminate|].
  destruct (exec (rpPattern q) s) as [m'|] eqn:E.
  - inversion H; subst. split; [now left|exact E].
  - destruct (IH _ _ _ H) as [Hin He]. split; [now right|exact He].
Qed.

Lemma relativePatterns_rows : forall row,
  In row relativePatterns ->
  (rpHandler row <> None \/ rpDays row <> None)
  /\ In (rpConfidence row) dateWeights.
Proof.
  intros row H. unfold relativePatterns in H. simpl in H.
  repeat (destruct H as [H|H];
          [subst row; split;
           [simpl; first [left; discriminate | right; discriminate]
           |simpl; tauto]|]).
  contradiction.
Qed.

Lemma extractTime_initial : forall trimmed,
  Unresolved (extractTime trimmed initial).
Proof.
  intros trimmed. unfold Unresolved, extractTime, timeWeights.
  destruct (firstMatch timePatterns trimmed) as [[p m]|]; [|simpl; tauto].
  destruct (timeHours m) as [h|]; [|simpl; tauto].
  destruct (timeMinutes m) as [mi|]; [|simpl; tauto].
  destruct (timeInRange (Some h) (Some mi)); simpl; tauto.
Qed.

Lemma resolveRelative_accounted : forall now text st,
  Unresolved st ->
  Unresolved (resolveRelative now text st) \/ Resolved (resolveRelative now text st).
Proof.
  intros now text st [Hp Hc]. unfold resolveRelative.
  destruct (firstRelative relativePatterns text) as [[row m]|] eqn:E;
    [|left; split; assumption].
  right. apply firstRelative_In in E. destruct E as [Hin _].
  destruct (relativePatterns_rows row Hin) as [Hset Hw].
  split.
  - cbn [parsedDate].
    destruct (rpHandler row); [discriminate|].
    destruct (rpDays row); [discriminate|].
    destruct Hset as [Hset|Hset]; now elim Hset.
  - exists (confidence st), (rpConfidence row). cbn [confidence]. tauto.
Qed.

Lemma resolveWeekday_accounted : forall now text st,
  Unresolved st \/ Resolved st ->
  Unresolved (resolveWeekday now text st) \/ Resolved (resolveWeekday now text st).
Proof.
  intros now text st H. unfold resolveWeekday.
  destruct (parsedDate st) eqn:Hp; [exact H|].
  destruct H as [[_ Hc]|[Hn _]]; [|now elim Hn].
  destruct (exec weekdayPattern text) as [m|]; [|left; split; assumption].
  destruct (option_map toLowerCase (group 2 m)) as [name|];
    [|left; split; assumption].
  destruct (indexOf name Parser.weekdays) as [i|]; [|left; split; assumption].
  right. split; [discriminate|].
  exists (confidence st). cbn [confidence].
  destruct (truthy (group 1 m)); eexists; (split; [exact Hc|]);
    (split; [|reflexivity]); unfold dateWeights; simpl; tauto.
Qed.

Lemma resolveMonthDay_accounted : forall now text st,
  Unresolved st \/ Resolved st ->
  Unresolved (resolveMonthDay now text st) \/ Resolved (resolveMonthDay now text st).
Proof.
  intros now text st H. unfold resolveMonthDay.
  destruct (parsedDate st) eqn:Hp; [exact H|].
  destruct H as [[_ Hc]|[Hn _]]; [|now elim Hn].
  destruct (firstMatch monthPatterns text) as [[pat m]|];
    [|left; split; assumption].
  destruct (monthAndDay pat m) as [[month|] [day|]];
    try (left; split; assumption).
  destruct (monthDayInRange (Some month) (Some day));
    [|left; split; assumption].
  right. split; [discriminate|].
  exists (confidence st), 0.75%float. cbn [confidence].
  split; [exact Hc|]. split; [|reflexivity]. unfold dateWeights; simpl; tauto.
Qed.

Section ResolverChain.

Variable dateParse : string -> Date.

Lemma resolveFallback_accounted : forall input st,
  Unresolved st \/ Resolved st ->
  Unresolved (resolveFallback dateParse input st)
  \/ Resolved (resolveFallback dateParse input st).
Proof.
  intros input st H. unfold resolveFallback.
  destruct (parsedDate st) eqn:Hp; [exact H|].
  destruct H as [[_ Hc]|[Hn _]]; [|now elim Hn].
  destruct (isValid (dateParse input)); [|left; split; assumption].
  right. split; [discriminate|].
  exists (confidence st), 0.5%float. cbn [confidence].
  split; [exact Hc|]. split; [|reflexivity]. unfold dateWeights; simpl; tauto.
Qed.

Lemma resolve_accounted : forall now input,
  Unresolved (resolve dateParse now input) \/ Resolved (resolve dateParse now input).
Proof.
  intros now input. unfold resolve.
  apply resolveFallback_accounted, resolveMonthDay_accounted,
    resolveWeekday_accounted, resolveRelative_accounted, extractTime_initial.
Qed.

Lemma capped_weights : forall c w,
  In c timeWeights -> In w dateWeights ->
  PrimFloat.ltb (c + w) 0.3 = false
  /\ In (Math_min (c + w) 1.0) parseConfidences.
Proof.
  intros c w Hc Hw.
  destruct Hc as [Hc|[Hc|[]]]; subst c.
  - destruct Hw as [Hw|[Hw|[Hw|[Hw|[Hw|[Hw|[]]]]]]]; subst w;
      (split; [vm_compute; reflexivity|]).
    + left; vm_compute; reflexivity.
    + right; left; vm_compute; reflexivity.
    + do 2 right; left; vm_compute; reflexivity.
    + do 3 right; left; vm_compute; reflexivity.
    + do 4 right; left; vm_compute; reflexivity.
    + do 5 right; left; vm_compute; reflexivity.
  - destruct Hw as [Hw|[Hw|[Hw|[Hw|[Hw|[Hw|[]]]]]]]; subst w;
      (split; [vm_compute; reflexivity|]).
    + do 6 right; left; vm_compute; reflexivity.
    + do 6 right; left; vm_compute; reflexivity.
    + do 6 right; left; vm_compute; reflexivity.
    + do 6 right; left; vm_compute; reflexivity.
    + do 6 right; left; vm_compute; reflexivity.
    + right; left; vm_compute; reflexivity.
Qed.

Lemma finish_confidence_listed : forall input st r,
  Unresolved st \/ Resolved st ->
  finish input st = Some r ->
  In (DateParseResult.confidence r) parseConfidences.
Proof.
  intros input st r Hst H. unfold finish in H.
  destruct Hst as [[Hp _]|[Hp [c [w [Hc [Hw He]]]]]].
  - rewrite Hp in H. discriminate.
  - destruct (parsedDate st) as [d|]; [|discriminate].
    rewrite He in H. destruct (capped_weights c w Hc Hw) as [Hlt Hin].
    rewrite Hlt in H. inversion H; subst r. exact Hin.
Qed.

Lemma finish_low_confidence : forall input st,
  PrimFloat.ltb (confidence st) 0.3 = true -> finish input st = None.
Proof.
  intros input st Hlow. unfold finish.
  destruct (parsedDate st); [|reflexivity]. now rewrite Hlow.
Qed.

Lemma parse_unfold : forall now input,
  parseSmartDateString dateParse now input
  = if String.eqb (trim input) "" then None
    else finish input (resolve dateParse now input).
Proof. reflexivity. Qed.

Lemma parse_confidence_listed : forall now input r,
  parseSmartDateString dateParse now input = Some r ->
  In (DateParseResult.confidence r) parseConfidences.
Proof.
  intros now input r H. rewrite parse_unfold in H.
  destruct (String.eqb (trim input) ""); [discriminate|].
  exact (finish_confidence_listed input _ r (resolve_accounted now input) H).
Qed.

(** C3: a result has a confidence between 0.3 and 1.0, and when the
    accumulated confidence is below 0.3 there is no result. *)
Theorem C3_confidence_bounds : forall now input,
  match parseSmartDateString dateParse now input with
  | Some r =>
      PrimFloat.leb 0.3 (DateParseResult.confidence r) = true
      /\ PrimFloat.leb (DateParseResult.confidence r) 1.0 = true
  | None => True
  end
  /\ (PrimFloat.ltb (confidence (resolve dateParse now input)) 0.3 = true ->
      parseSmartDateString dateParse now input = None).
Proof.
  intros now input. split.
  - destruct (parseSmartDateString dateParse now input) as [r|] eqn:E; [|exact I].
    apply parse_confidence_listed in E.
    destruct E as [E|[E|[E|[E|[E|[E|[E|[]]]]]]]]; rewrite <- E;
      split; vm_compute; reflexivity.
  - intros Hlow. rewrite parse_unfold.
    destruct (String.eqb (trim input) ""); [reflexivity|].
    now apply finish_low_confidence.
Qed.

End ResolverChain.


(** ** The Time Extractor *)

Lemma resolveRelative_time : forall now text st,
  ParsedComponents.time (components (resolveRelative now text st))
  = ParsedComponents.time (components st).
Proof.
  intros now text st. unfold resolveRelative.
  destruct (firstRelative relativePatterns text) as [[row m]|]; reflexivity.
Qed.

Lemma resolveWeekday_time : forall now text st,
  ParsedComponents.time (components (resolveWeekday now text st))
  = ParsedComponents.time (components st).
Proof.
  intros now text st. unfold resolveWeekday.
  destruct (parsedDate st); [reflexivity|].
  destruct (exec weekdayPattern text) as [m|]; [|reflexivity].
  destruct (option_map toLowerCase (group 2 m)); [|reflexivity].
  destruct (indexOf _ _); reflexivity.
Qed.

Lemma resolveMonthDay_time : forall now text st,
  ParsedComponents.time (components (resolveMonthDay now text st))
  = ParsedComponents.time (components st).
Proof.
  intros now text st. unfold resolveMonthDay.
  destruct (parsedDate st); [reflexivity|].
  destruct (firstMatch monthPatterns text) as [[pat m]|]; [|reflexivity].
  destruct (monthAndDay pat m) as [[month|] [day|]]; try reflexivity.
  destruct (monthDayInRange _ _); reflexivity.
Qed.

Lemma extractTime_rejected : forall trimmed st p m,
  firstMatch timePatterns trimmed = Some (p, m) ->
  timeInRange (timeHours m) (timeMinutes m) = false ->
  extractTime trimmed st
  = mkLocals (confidence st) (parsedDate st) (components st)
      (extractedTime st) (Some m).
Proof.
  intros trimmed st p m Hm Hr. unfold extractTime. rewrite Hm.
  destruct (timeHours m) as [h|]; [|reflexivity].
  destruct (timeMinutes m) as [mi|]; [|reflexivity].
  now rewrite Hr.
Qed.

Section TimeExtractor.

Variable dateParse : string -> Date.

Lemma resolveFallback_time : forall input st,
  ParsedComponents.time (components (resolveFallback dateParse input st))
  = ParsedComponents.time (components st).
Proof.
  intros input st. unfold resolveFallback.
  destruct (parsedDate st); [reflexivity|].
  destruct (isValid (dateParse input)); reflexivity.
Qed.

Lemma finish_components : forall input st r,
  finish input st = Some r ->
  DateParseResult.parsedComponents r = components st.
Proof.
  intros input st r H. unfold finish in H.
  destruct (parsedDate st); [|discriminate].
  destruct (PrimFloat.ltb (confidence st) 0.3); [discriminate|].
  now inversion H.
Qed.

Lemma resolve_time : forall now input,
  ParsedComponents.time (components (resolve dateParse now input))
  = ParsedComponents.time
      (components (extractTime (toLowerCase (trim input)) initial)).
Proof.
  intros now input. unfold resolve.
  now rewrite resolveFallback_time, resolveMonthDay_time, resolveWeekday_time,
    resolveRelative_time.
Qed.

(** C2, as amended: when a time pattern matches and the hour or the
    minute is out of range, the Time Extractor adds no 0.3, sets no [time]
    component (neither in the locals nor in a returned result) and keeps no
    extracted time; the matched substring is removed all the same from the
    text handed to the date resolvers. *)
Theorem C2_rejected_time_is_still_removed : forall now input p m,
  firstMatch timePatterns (toLowerCase (trim input)) = Some (p, m) ->
  timeInRange (timeHours m) (timeMinutes m) = false ->
  confidence (extractTime (toLowerCase (trim input)) initial) = 0%float
  /\ ParsedComponents.time
       (components (extractTime (toLowerCase (trim input)) initial)) = None
  /\ extractedTime (extractTime (toLowerCase (trim input)) initial) = None
  /\ inputWithoutTime (toLowerCase (trim input))
       (extractTime (toLowerCase (trim input)) initial)
     = trim (replaceFirst (m0 m) "" (toLowerCase (trim input)))
  /\ (forall r, parseSmartDateString dateParse now input = Some r ->
        ParsedComponents.time (DateParseResult.parsedComponents r) = None).
Proof.
  intros now input p m Hm Hr.
  pose proof (extractTime_rejected _ initial p m Hm Hr) as He.
  split; [rewrite He; reflexivity|].
  split; [rewrite He; reflexivity|].
  split; [rewrite He; reflexivity|].
  split; [rewrite He; reflexivity|].
  intros r H. unfold parseSmartDateString in H.
  destruct (String.eqb (trim input) ""); [discriminate|].
  apply finish_components in H. rewrite H, resolve_time, He. reflexivity.
Qed.

End TimeExtractor.

Lemma C2_witness :
  firstMatch timePatterns (toLowerCase (trim "Tomorrow 25:00"))
  = Some (nth 1 timePatterns (mkRegExp "" false Bol),
          mkMatch "25:00" [(2%nat, "00"); (1%nat, "25")])
  /\ inputWithoutTime (toLowerCase (trim "Tomorrow 25:00"))
       (extractTime (toLowerCase (trim "Tomorrow 25:00")) initial)
     = trim (replaceFirst "25:00" "" (toLowerCase (trim "Tomorrow 25:00"))).
Proof.
  assert (Hm : firstMatch timePatterns (toLowerCase (trim "Tomorrow 25:00"))
               = Some (nth 1 timePatterns (mkRegExp "" false Bol),
                       mkMatch "25:00" [(2%nat, "00"); (1%nat, "25")]))
    by (vm_compute; reflexivity).
  assert (Hr : timeInRange
                 (timeHours (mkMatch "25:00" [(2%nat, "00"); (1%nat, "25")]))
                 (timeMinutes (mkMatch "25:00" [(2%nat, "00"); (1%nat, "25")]))
               = false)
    by (vm_compute; reflexivity).
  split; [exact Hm|].
  exact (proj1 (proj2 (proj2 (proj2
    (C2_rejected_time_is_still_removed (fun _ => InvalidDate) 1735723800000
       "Tomorrow 25:00" _ _ Hm Hr))))).
Defined.

(** The claim of C2 as written fails on "tomorrow 25:00": the second time
    pattern matches "25:00", hour 25 is out of range, and the text handed
    to the date resolvers is "tomorrow", not the original text; the parse
    succeeds on it with the weight 0.9 of "tomorrow" and no time
    component. *)
Lemma C2_counterexample :
  firstMatch timePatterns (toLowerCase (trim "tomorrow 25:00"))
  = Some (nth 1 timePatterns (mkRegExp "" false Bol),
          mkMatch "25:00" [(2%nat, "00"); (1%nat, "25")])
  /\ timeHours (mkMatch "25:00" [(2%nat, "00"); (1%nat, "25")]) = Some 25
  /\ timeInRange (Some 25) (Some 0) = false
  /\ inputWithoutTime (toLowerCase (trim "tomorrow 25:00"))
       (extractTime (toLowerCase (trim "tomorrow 25:00")) initial)
     = "tomorrow"
  /\ "tomorrow" <> toLowerCase (trim "tomorrow 25:00")
  /\ parseSmartDateString (fun _ => InvalidDate) 1735723800000
       "tomorrow 25:00"
     = Some (DateParseResult.mk (ValidDate 1735810200000) 0.9 "tomorrow 25:00"
               (ParsedComponents.mk (Some "tomorrow") None None None None)).
Proof.
  split; [vm_compute; reflexivity|].
  split; [vm_compute; reflexivity|].
  split; [vm_compute; reflexivity|].
  split; [vm_compute; reflexivity|].
  split; [vm_compute; discriminate|].
  vm_compute; reflexivity.
Qed.


(** ** Strings *)

Lemma append_assoc : forall a b c : string, (a ++ b) ++ c = a ++ (b ++ c).
Proof.
  induction a as [|x a IH]; intros b c; simpl; [reflexivity|now rewrite IH].
Qed.

Lemma append_nil_r : forall a : string, a ++ "" = a.
Proof.
  induction a as [|x a IH]; simpl; [reflexivity|now rewrite IH].
Qed.

Lemma every_append : forall p a b,
  every p (a ++ b) = (every p a && every p b)%bool.
Proof.
  induction a as [|x a IH]; intros b; simpl; [reflexivity|].
  now rewrite IH, andb_assoc.
Qed.

Lemma isDigit_code : forall c,
  isDigit c = true -> (48 <= code c <= 57)%nat.
Proof.
  intros c H. unfold isDigit in H. apply andb_true_iff in H.
  destruct H as [H1 H2]. apply Nat.leb_le in H1, H2. lia.
Qed.

Lemma digit_not_space : forall c, isDigit c = true -> isWhiteSpace c = false.
Proof.
  intros c H. apply isDigit_code in H. unfold isWhiteSpace.
  repeat rewrite orb_false_iff. repeat split.
  - apply andb_false_iff. right. apply Nat.leb_gt. lia.
  - apply Nat.eqb_neq. lia.
  - apply Nat.eqb_neq. lia.
Qed.

Lemma digit_not_upper : forall c, isDigit c = true -> isUpper c = false.
Proof.
  intros c H. apply isDigit_code in H. unfold isUpper.
  apply orb_false_iff. split.
  - apply andb_false_iff. left. apply Nat.leb_gt. lia.
  - apply andb_false_iff. left. apply andb_false_iff. left.
    apply Nat.leb_gt. lia.
Qed.

Lemma digit_not_lower : forall c, isDigit c = true -> isLower c = false.
Proof.
  intros c H. apply isDigit_code in H. unfold isLower.
  apply orb_false_iff. split.
  - apply andb_false_iff. left. apply Nat.leb_gt. lia.
  - apply andb_false_iff. left. apply andb_false_iff. left.
    apply Nat.leb_gt. lia.
Qed.

Lemma digit_neq : forall c u,
  isDigit c = true -> isDigit u = false -> Ascii.eqb c u = false.
Proof.
  intros c u Hc Hu. apply Ascii.eqb_neq. intros ->. congruence.
Qed.

Lemma toLowerCase_digits : forall ds,
  every isDigit ds = true -> toLowerCase ds = ds.
Proof.
  induction ds as [|c ds IH]; intros H; [reflexivity|].
  cbn [every] in H. apply andb_true_iff in H. destruct H as [Hc Hds].
  change (toLowerCase (String c ds))
    with (String (toLowerChar c) (toLowerCase ds)).
  unfold toLowerChar. rewrite (digit_not_upper c Hc).
  now rewrite IH.
Qed.

Lemma toLowerCase_append : forall a b,
  toLowerCase (a ++ b) = toLowerCase a ++ toLowerCase b.
Proof.
  induction a as [|x a IH]; intros b; [reflexivity|].
  change (toLowerCase (String x a ++ b))
    with (String (toLowerChar x) (toLowerCase (a ++ b))).
  now rewrite IH.
Qed.

Lemma avoids_digits : forall u ds,
  isDigit u = false -> every isDigit ds = true -> avoids u ds = true.
Proof.
  intros u ds Hu. unfold avoids.
  induction ds as [|c ds IH]; intros H; [reflexivity|].
  cbn [every] in *. apply andb_true_iff in H. destruct H as [Hc Hds].
  unfold toUpperChar at 1. rewrite (digit_not_lower c Hc).
  rewrite (digit_neq c u Hc Hu). cbn [negb andb]. now apply IH.
Qed.

Lemma trimEnd_keeps : forall s c,
  isWhiteSpace c = false ->
  trimEnd (s ++ String c "") = s ++ String c "".
Proof.
  induction s as [|x s IH]; intros c Hc; simpl.
  - now rewrite Hc.
  - rewrite IH by assumption. destruct s; reflexivity.
Qed.

Lemma numeral_cons : forall ds,
  isNumeral ds = true ->
  exists c ds', ds = String c ds' /\ isDigit c = true /\ every isDigit ds' = true.
Proof.
  intros [|c ds'] H; [discriminate|].
  simpl in H. apply andb_true_iff in H. destruct H as [Hc Hd].
  now exists c, ds'.
Qed.

Lemma parseInt_numeral : forall ds,
  isNumeral ds = true -> parseInt ds = Some (numeralValue ds).
Proof.
  intros ds H. destruct (numeral_cons ds H) as [c [ds' [-> [Hc Hd]]]].
  unfold parseInt. cbn [trimStart]. rewrite (digit_not_space c Hc).
  destruct c as [b0 b1 b2 b3 b4 b5 b6 b7].
  destruct b0, b1, b2, b3, b4, b5, b6, b7;
    try (exfalso; vm_compute in Hc; discriminate Hc);
    cbn match; rewrite Hc; reflexivity.
Qed.

(** ** Regular expressions *)

Lemma charEq_upper : forall ic a b,
  charEq ic a b = true -> toUpperChar b = toUpperChar a.
Proof.
  intros [|] a b H; unfold charEq in H; apply Ascii.eqb_eq in H; congruence.
Qed.

Lemma charEq_refl : forall ic a, charEq ic a a = true.
Proof.
  intros [|] a; unfold charEq; apply Ascii.eqb_refl.
Qed.

Lemma flat_map_nil : forall (A B : Type) (f : A -> list B) (l : list A),
  (forall x, In x l -> f x = []) -> flat_map f l = [].
Proof.
  intros A B f. induction l as [|x l IH]; intros H; simpl; [reflexivity|].
  rewrite (H x (or_introl eq_refl)). simpl. apply IH.
  intros y Hy. apply H. now right.
Qed.

Section Avoiding.

Variable u : ascii.

Lemma runLit_avoids : forall ic l pv m s cs st',
  In st' (runLit ic l pv m s cs) ->
  avoids u s = true -> avoids u (rest st') = true.
Proof.
  intros ic. induction l as [|a l IH]; intros pv m s cs st' Hin Hs.
  - simpl in Hin. destruct Hin as [<-|[]]. exact Hs.
  - cbn [runLit] in Hin. destruct s as [|b s]; [contradiction|].
    destruct (charEq ic a b); [|contradiction].
    apply IH in Hin; [exact Hin|].
    unfold avoids in *. cbn [every] in Hs. apply andb_true_iff in Hs. tauto.
Qed.

Lemma runRepeat_avoids : forall p s lo hi pv m cs st',
  In st' (runRepeat p lo hi pv m s cs) ->
  avoids u s = true -> avoids u (rest st') = true.
Proof.
  intros p. induction s as [|c s IH]; intros lo hi pv m cs st' Hin Hs.
  - cbn [runRepeat app] in Hin. destruct (Nat.eqb lo 0); [|contradiction].
    destruct Hin as [<-|[]]. exact Hs.
  - cbn [runRepeat] in Hin. apply in_app_or in Hin. destruct Hin as [Hin|Hin].
    + destruct (p c && hasRoom hi)%bool; [|contradiction].
      apply IH in Hin; [exact Hin|].
      unfold avoids in *. cbn [every] in Hs. apply andb_true_iff in Hs. tauto.
    + destruct (Nat.eqb lo 0); [|contradiction].
      destruct Hin as [<-|[]]. exact Hs.
Qed.

Lemma run_avoids : forall ic r st st',
  In st' (run ic r st) ->
  avoids u (rest st) = true -> avoids u (rest st') = true.
Proof.
  intros ic. induction r as [l|p|r1 IH1 r2 IH2|r1 IH1 r2 IH2|n r1 IH1|r1 IH1
                            |p lo hi| | |];
    intros st st' Hin Hs; cbn [run] in Hin.
  - now apply runLit_avoids in Hin.
  - destruct (rest st) as [|c s] eqn:E; [contradiction|].
    destruct (p c); [|contradiction]. destruct Hin as [<-|[]]. cbn [rest].
    unfold avoids in *. cbn [every] in Hs. apply andb_true_iff in Hs. tauto.
  - apply in_flat_map in Hin. destruct Hin as [st1 [H1 H2]].
    eapply IH2; [exact H2|]. eapply IH1; [exact H1|exact Hs].
  - apply in_app_or in Hin. destruct Hin as [Hin|Hin]; eauto.
  - apply in_map_iff in Hin. destruct Hin as [st1 [<- H1]]. cbn [rest].
    eapply IH1; [exact H1|exact Hs].
  - apply in_app_or in Hin. destruct Hin as [Hin|[<-|[]]]; eauto.
  - now apply runRepeat_avoids in Hin.
  - destruct (prev st); [contradiction|]. destruct Hin as [<-|[]]. exact Hs.
  - destruct (rest st) eqn:E; [|contradiction]. destruct Hin as [<-|[]].
    now rewrite E.
  - destruct (xorb _ _); [|contradiction]. destruct Hin as [<-|[]]. exact Hs.
Qed.

Lemma runLit_requires : forall ic l pv m s cs,
  every (fun a => negb (Ascii.eqb (toUpperChar a) u)) l = false ->
  avoids u s = true ->
  runLit ic l pv m s cs = [].
Proof.
  intros ic. induction l as [|a l IH]; intros pv m s cs Hl Hs.
  - discriminate.
  - cbn [runLit]. destruct s as [|b s]; [reflexivity|].
    destruct (charEq ic a b) eqn:E; [|reflexivity].
    unfold avoids in Hs. cbn [every] in Hs, Hl.
    apply andb_true_iff in Hs. destruct Hs as [Hb Hs].
    apply charEq_upper in E. rewrite E in Hb. rewrite Hb in Hl.
    cbn [andb] in Hl. now apply IH.
Qed.

Lemma run_requires : forall ic r st,
  requires u r = true -> avoids u (rest st) = true -> run ic r st = [].
Proof.
  intros ic. induction r as [l|p|r1 IH1 r2 IH2|r1 IH1 r2 IH2|n r1 IH1|r1 IH1
                            |p lo hi| | |];
    intros st Hr Hs; cbn [requires] in Hr; try discriminate; cbn [run].
  - apply runLit_requires; [|exact Hs]. now apply negb_true_iff in Hr.
  - apply orb_true_iff in Hr. destruct Hr as [Hr|Hr].
    + now rewrite IH1.
    + apply flat_map_nil. intros st1 H1. apply IH2; [exact Hr|].
      eapply run_avoids; [exact H1|exact Hs].
  - apply andb_true_iff in Hr. destruct Hr as [Hr1 Hr2].
    now rewrite IH1, IH2.
  - now rewrite IH1.
Qed.

Lemma searchFrom_requires : forall ic r s pv,
  requires u r = true -> avoids u s = true -> searchFrom ic r pv s = None.
Proof.
  intros ic r. induction s as [|c s IH]; intros pv Hr Hs; cbn [searchFrom].
  - now rewrite run_requires.
  - rewrite run_requires by assumption. apply IH; [exact Hr|].
    unfold avoids in *. cbn [every] in Hs. apply andb_true_iff in Hs. tauto.
Qed.

Lemma exec_requires : forall re s,
  requires u (pattern re) = true -> avoids u s = true -> exec re s = None.
Proof.
  intros re s Hr Hs. unfold exec. now apply searchFrom_requires.
Qed.

End Avoiding.

Lemma run_seq_head : forall ic r1 r2 st h h2,
  hd_error (run ic r1 st) = Some h ->
  hd_error (run ic r2 h) = Some h2 ->
  hd_error (run ic (Seq r1 r2) st) = Some h2.
Proof.
  intros ic r1 r2 st h h2 H1 H2. cbn [run].
  destruct (run ic r1 st) as [|x l]; [discriminate|].
  inversion H1; subst x. cbn [flat_map].
  destruct (run ic r2 h) as [|y l2]; [discriminate|]. exact H2.
Qed.

Lemma runLit_prefix : forall ic l pv m s cs,
  runLit ic l pv m (l ++ s) cs = [MState (lastOr pv l) (m ++ l) s cs].
Proof.
  intros ic. induction l as [|a l IH]; intros pv m s cs.
  - cbn. now rewrite append_nil_r.
  - cbn [runLit append]. rewrite charEq_refl, IH. cbn [lastOr].
    now rewrite append_assoc.
Qed.

(** A greedy quantifier over a class takes the whole run of code units
    of the class first. *)
Lemma runRepeat_greedy_head : forall p ds lo pv m tail cs,
  every p ds = true ->
  (lo <= String.length ds)%nat ->
  match tail with String c _ => p c = false | EmptyString => True end ->
  hd_error (runRepeat p lo None pv m (ds ++ tail) cs)
  = Some (MState (lastOr pv ds) (m ++ ds) tail cs).
Proof.
  intros p. induction ds as [|c ds IH]; intros lo pv m tail cs Hds Hlo Htail.
  - cbn [String.length] in Hlo. assert (lo = 0%nat) by lia. subst lo.
    cbn [append lastOr]. rewrite append_nil_r.
    destruct tail as [|c tail]; cbn [runRepeat].
    + reflexivity.
    + rewrite Htail. reflexivity.
  - cbn [every] in Hds. apply andb_true_iff in Hds. destruct Hds as [Hc Hds].
    cbn [append runRepeat hasRoom option_map]. rewrite Hc. cbn [andb].
    cbn [String.length] in Hlo.
    specialize (IH (pred lo) (Some c) (m ++ String c "") tail cs Hds
                  ltac:(lia) Htail).
    destruct (runRepeat p (pred lo) None (Some c) (m ++ String c "")
                (ds ++ tail) cs) as [|x l]; [discriminate|].
    cbn [app hd_error] in *. rewrite IH. cbn [lastOr].
    now rewrite append_assoc.
Qed.

Lemma searchFrom_head : forall ic r pv s st,
  hd_error (run ic r (MState pv "" s [])) = Some st ->
  searchFrom ic r pv s = Some (mkMatch (matched st) (caps st)).
Proof.
  intros ic r pv s st H.
  destruct s as [|c s]; cbn [searchFrom];
    destruct (run ic r _) as [|x l]; try discriminate;
    inversion H; reflexivity.
Qed.

Lemma hd_error_map : forall (A B : Type) (f : A -> B) (l : list A),
  hd_error (List.map f l) = option_map f (hd_error l).
Proof.
  intros A B f [|x l]; reflexivity.
Qed.

(** ** The phrase "in N days" *)

Lemma inDays_trim : forall ds plural,
  isNumeral ds = true -> trim (inDays ds plural) = inDays ds plural.
Proof.
  intros ds plural _. unfold trim, inDays. cbn [append trimStart].
  replace (isWhiteSpace "i") with false by reflexivity.
  destruct plural.
  - change (String "i" (String "n" (String " " (ds ++ " days"))))
      with ("in " ++ (ds ++ (" day" ++ "s"))).
    rewrite <- !append_assoc. now apply trimEnd_keeps.
  - change (String "i" (String "n" (String " " (ds ++ " day"))))
      with ("in " ++ (ds ++ (" da" ++ "y"))).
    rewrite <- !append_assoc. now apply trimEnd_keeps.
Qed.

Lemma inDays_lower : forall ds plural,
  isNumeral ds = true -> toLowerCase (inDays ds plural) = inDays ds plural.
Proof.
  intros ds plural H. destruct (numeral_cons ds H) as [c [ds' [-> [Hc Hd]]]].
  unfold inDays. rewrite !toLowerCase_append.
  rewrite (toLowerCase_digits (String c ds'))
    by (cbn [every]; now rewrite Hc, Hd).
  destruct plural; reflexivity.
Qed.

Lemma inDays_avoids : forall u ds plural,
  isNumeral ds = true ->
  isDigit u = false -> avoids u "in  days" = true ->
  avoids u (inDays ds plural) = true.
Proof.
  intros u ds plural H Hu Hfix.
  destruct (numeral_cons ds H) as [c [ds' [-> [Hc Hd]]]].
  assert (Hds : avoids u (String c ds') = true)
    by (apply avoids_digits; [exact Hu|cbn [every]; now rewrite Hc, Hd]).
  unfold avoids, inDays in *. rewrite !every_append, Hds.
  cbn [every] in Hfix. repeat (apply andb_true_iff in Hfix;
                               destruct Hfix as [? Hfix]).
  destruct plural; cbn [every andb]; repeat (apply andb_true_iff; split);
    assumption || reflexivity.
Qed.

Lemma inDays_no_time : forall ds plural,
  isNumeral ds = true -> firstMatch timePatterns (inDays ds plural) = None.
Proof.
  intros ds plural H. unfold timePatterns. cbn [firstMatch].
  rewrite (exec_requires "M"%char) by
    (reflexivity || (apply inDays_avoids; [exact H|reflexivity|reflexivity])).
  rewrite (exec_requires ":"%char) by
    (reflexivity || (apply inDays_avoids; [exact H|reflexivity|reflexivity])).
  rewrite (exec_requires "M"%char) by
    (reflexivity || (apply inDays_avoids; [exact H|reflexivity|reflexivity])).
  reflexivity.
Qed.

Lemma run_lit_head : forall ic l pv m s cs,
  hd_error (run ic (Lit l) (MState pv m (l ++ s) cs))
  = Some (MState (lastOr pv l) (m ++ l) s cs).
Proof.
  intros. cbn [run prev matched rest caps]. now rewrite runLit_prefix.
Qed.

Lemma run_opt_head : forall ic r st h,
  hd_error (run ic r st) = Some h -> hd_error (run ic (Opt r) st) = Some h.
Proof.
  intros ic r st h H. cbn [run].
  destruct (run ic r st); [discriminate|exact H].
Qed.

Lemma run_opt_skip : forall ic r st,
  run ic r st = [] -> hd_error (run ic (Opt r) st) = Some st.
Proof.
  intros ic r st H. cbn [run]. now rewrite H.
Qed.

Lemma run_end : forall ic pv m cs,
  hd_error (run ic (seqs [Eol]) (MState pv m "" cs)) = Some (MState pv m "" cs).
Proof.
  reflexivity.
Qed.

(** The rest of the pattern after the digits, on the rest of the phrase. *)
Lemma inDays_tail : forall (plural : bool) pv m cs,
  hd_error
    (run true (seqs [Lit " day"; Opt (Lit "s"); Eol])
       (MState pv m (if plural then " days" else " day") cs))
  = Some (MState (Some (if plural then "s" else "y")%char)
            (m ++ (if plural then " days" else " day")) "" cs).
Proof.
  intros plural pv m cs.
  change (seqs [Lit " day"; Opt (Lit "s"); Eol])
    with (Seq (Lit " day") (Seq (Opt (Lit "s")) (seqs [Eol]))).
  destruct plural.
  - eapply run_seq_head; [exact (run_lit_head true " day" pv m "s" cs)|].
    eapply run_seq_head.
    + apply run_opt_head.
      exact (run_lit_head true "s" _ _ "" cs).
    + rewrite append_assoc. apply run_end.
  - eapply run_seq_head; [exact (run_lit_head true " day" pv m "" cs)|].
    eapply run_seq_head.
    + apply run_opt_skip. reflexivity.
    + apply run_end.
Qed.

Lemma inDays_exec : forall ds plural,
  isNumeral ds = true ->
  exec inDaysPattern (inDays ds plural)
  = Some (mkMatch (inDays ds plural) [(1%nat, ds)]).
Proof.
  intros ds plural H. destruct (numeral_cons ds H) as [c [ds' [E [Hc Hd]]]].
  assert (Hall : every isDigit ds = true)
    by (subst ds; cbn [every]; now rewrite Hc, Hd).
  assert (Hlen : (1 <= String.length ds)%nat)
    by (subst ds; cbn [String.length]; lia).
  clear E Hc Hd c ds'.
  assert (Hh : hd_error
                 (run true (pattern inDaysPattern)
                    (MState None "" (inDays ds plural) []))
               = Some (MState (Some (if plural then "s" else "y")%char)
                         (inDays ds plural) "" [(1%nat, ds)])).
  { change (pattern inDaysPattern)
      with (Seq Bol (Seq (Lit "in ") (Seq (Group 1 (digits 1 None))
              (seqs [Lit " day"; Opt (Lit "s"); Eol])))).
    eapply run_seq_head; [reflexivity|].
    eapply run_seq_head; [apply run_lit_head|].
    eapply run_seq_head.
    { cbn [run prev matched rest caps digits]. rewrite hd_error_map.
      rewrite runRepeat_greedy_head; [reflexivity|exact Hall|exact Hlen|].
      destruct plural; reflexivity. }
    cbn [append prev matched rest caps]. rewrite inDays_tail. unfold inDays.
    cbn [append]. reflexivity. }
  unfold exec. cbn [ignoreCase inDaysPattern].
  now rewrite (searchFrom_head _ _ _ _ _ Hh).
Qed.

Ltac absent_by u H :=
  rewrite (exec_requires u) by
    (reflexivity || (apply inDays_avoids; [exact H|reflexivity|reflexivity])).

Lemma inDays_relative : forall ds plural,
  isNumeral ds = true ->
  firstRelative relativePatterns (inDays ds plural)
  = Some (byHandler inDaysPattern (addParsedDays 1) 0.85,
          mkMatch (inDays ds plural) [(1%nat, ds)]).
Proof.
  intros ds plural H. unfold relativePatterns.
  cbn [firstRelative rpPattern byDays byHandler].
  absent_by "O"%char H. absent_by "O"%char H. absent_by "E"%char H.
  absent_by "E"%char H. absent_by "E"%char H. absent_by "O"%char H.
  absent_by "O"%char H.
  change (mkRegExp "^in (\d+) days?$" true
            (seqs [Bol; Lit "in "; Group 1 (digits 1 None); Lit " day";
                   Opt (Lit "s"); Eol]))
    with inDaysPattern.
  now rewrite inDays_exec.
Qed.

Section InDays.

Variable dateParse : string -> Date.

Lemma inDays_resolve : forall now ds plural,
  isNumeral ds = true ->
  resolve dateParse now (inDays ds plural)
  = mkLocals (0 + 0.85)%float (Some (addDays now (numeralValue ds)))
      (ParsedComponents.mk (Some (inDays ds plural)) None None None None)
      None None.
Proof.
  intros now ds plural H. unfold resolve.
  rewrite (inDays_trim ds plural H), (inDays_lower ds plural H).
  unfold extractTime. rewrite (inDays_no_time ds plural H).
  unfold inputWithoutTime. cbn [timeMatch initial].
  unfold resolveRelative. rewrite (inDays_relative ds plural H).
  cbn [rpHandler byHandler rpConfidence confidence initial parsedDate
       components extractedTime timeMatch m0].
  unfold addParsedDays, parseGroup. cbn [group groups find fst snd Nat.eqb option_map].
  rewrite (parseInt_numeral ds H), Z.mul_1_l.
  reflexivity.
Qed.

(** Whatever the numeral, the phrase parses, with the date date-fns
    [addDays] gives. *)
Lemma inDays_parses : forall now ds plural,
  isNumeral ds = true ->
  parseSmartDateString dateParse now (inDays ds plural)
  = Some (DateParseResult.mk (addDays now (numeralValue ds)) 0.85
            (inDays ds plural)
            (ParsedComponents.mk (Some (inDays ds plural)) None None None None)).
Proof.
  intros now ds plural H. unfold parseSmartDateString.
  rewrite (inDays_trim ds plural H).
  replace (String.eqb (inDays ds plural) "") with false by reflexivity.
  rewrite (inDays_resolve now ds plural H).
  unfold finish. cbn [parsedDate confidence components].
  replace (PrimFloat.ltb (0 + 0.85) 0.3) with false by (vm_compute; reflexivity).
  unfold applyTime. cbn [extractedTime].
  now replace (Math_min (0 + 0.85) 1.0) with 0.85%float by (vm_compute; reflexivity).
Qed.

(** C8, as amended: for every decimal numeral N, "in N days" and
    "in N day" parse to the date [addDays(now, N)] with confidence 0.85
    and the whole phrase as the [relative] component; that date is now
    plus N days when this lies in the range of time values, and an
    invalid date when it does not. *)
Theorem C8_in_N_days : forall now ds plural,
  isNumeral ds = true ->
  parseSmartDateString dateParse now (inDays ds plural)
  = Some (DateParseResult.mk (addDays now (numeralValue ds)) 0.85
            (inDays ds plural)
            (ParsedComponents.mk (Some (inDays ds plural)) None None None None))
  /\ (- maxTime <= now + numeralValue ds * msPerDay <= maxTime ->
      addDays now (numeralValue ds)
      = ValidDate (now + numeralValue ds * msPerDay))
  /\ (~ - maxTime <= now + numeralValue ds * msPerDay <= maxTime ->
      addDays now (numeralValue ds) = InvalidDate).
Proof.
  intros now ds plural H. split; [exact (inDays_parses now ds plural H)|].
  unfold addDays, timeClip. split; intros Hrange.
  - destruct (Z.abs _ <=? maxTime) eqn:E; [reflexivity|].
    apply Z.leb_gt in E. lia.
  - destruct (Z.abs _ <=? maxTime) eqn:E; [|reflexivity].
    apply Z.leb_le in E. exfalso. apply Hrange. lia.
Qed.

End InDays.

(** "in 3 days" read at 1 January 2025, 09:30. *)
Lemma C8_witness :
  isNumeral "3" = true
  /\ parseSmartDateString (fun _ => InvalidDate) 1735723800000 "in 3 days"
     = Some (DateParseResult.mk (addDays 1735723800000 3) 0.85 "in 3 days"
               (ParsedComponents.mk (Some "in 3 days") None None None None))
  /\ addDays 1735723800000 3 = ValidDate (1735723800000 + 3 * msPerDay).
Proof.
  assert (H : isNumeral "3" = true) by reflexivity.
  destruct (C8_in_N_days (fun _ => InvalidDate) 1735723800000 "3" true H)
    as (Hp & Hv & _).
  split; [exact H|]. split; [exact Hp|].
  apply Hv. vm_compute. split; discriminate.
Defined.

(** The claim of C8 as written fails for N = 1000000000: now plus N days
    is past the last time value, and the result carries an invalid date. *)
Lemma C8_counterexample :
  isNumeral "1000000000" = true
  /\ numeralValue "1000000000" = 1000000000
  /\ parseSmartDateString (fun _ => InvalidDate) 1735723800000
       "in 1000000000 days"
     = Some (DateParseResult.mk InvalidDate 0.85 "in 1000000000 days"
               (ParsedComponents.mk (Some "in 1000000000 days")
                  None None None None)).
Proof.
  split; [reflexivity|]. split; [reflexivity|]. vm_compute. reflexivity.
Qed.


(** ** The clock does not decide whether a text parses *)

Lemma agree_refl : forall st, agree st st.
Proof.
  intros st. unfold agree. tauto.
Qed.

Lemma resolveRelative_agree : forall now now' text st st',
  agree st st' ->
  agree (resolveRelative now text st) (resolveRelative now' text st').
Proof.
  intros now now' text st st' (Hc & Hp & Hk & He & Ht). unfold resolveRelative.
  destruct (firstRelative relativePatterns text) as [[row m]|];
    [|unfold agree; tauto].
  unfold agree. cbn [confidence parsedDate components extractedTime timeMatch].
  rewrite Hc, Hk, He, Ht. repeat split; try reflexivity;
    destruct (rpHandler row); try discriminate;
    destruct (rpDays row); try discriminate; tauto.
Qed.

Lemma resolveWeekday_agree : forall now now' text st st',
  agree st st' ->
  agree (resolveWeekday now text st) (resolveWeekday now' text st').
Proof.
  intros now now' text st st' H. pose proof H as (Hc & Hp & Hk & He & Ht).
  unfold resolveWeekday.
  destruct (parsedDate st) eqn:E, (parsedDate st') eqn:E'; try exact H;
    try (exfalso; destruct Hp as [Hp1 Hp2];
         first [specialize (Hp1 eq_refl) | specialize (Hp2 eq_refl)];
         discriminate).
  destruct (exec weekdayPattern text) as [m|]; [|exact H].
  destruct (option_map toLowerCase (group 2 m)); [|exact H].
  destruct (indexOf _ _); [|exact H].
  unfold agree. cbn [confidence parsedDate components extractedTime timeMatch].
  rewrite Hc, Hk, He, Ht. repeat split; try reflexivity; discriminate.
Qed.

Lemma resolveMonthDay_agree : forall now now' text st st',
  agree st st' ->
  agree (resolveMonthDay now text st) (resolveMonthDay now' text st').
Proof.
  intros now now' text st st' H. pose proof H as (Hc & Hp & Hk & He & Ht).
  unfold resolveMonthDay.
  destruct (parsedDate st) eqn:E, (parsedDate st') eqn:E'; try exact H;
    try (exfalso; destruct Hp as [Hp1 Hp2];
         first [specialize (Hp1 eq_refl) | specialize (Hp2 eq_refl)];
         discriminate).
  destruct (firstMatch monthPatterns text) as [[pat m]|]; [|exact H].
  destruct (monthAndDay pat m) as [[month|] [day|]]; try exact H.
  destruct (monthDayInRange _ _); [|exact H].
  unfold agree. cbn [confidence parsedDate components extractedTime timeMatch].
  rewrite Hc, Hk, He, Ht. repeat split; try reflexivity; discriminate.
Qed.

Section AnyClock.

Variable dateParse : string -> Date.

Lemma resolveFallback_agree : forall input st st',
  agree st st' ->
  agree (resolveFallback dateParse input st) (resolveFallback dateParse input st').
Proof.
  intros input st st' H. pose proof H as (Hc & Hp & Hk & He & Ht).
  unfold resolveFallback.
  destruct (parsedDate st) eqn:E, (parsedDate st') eqn:E'; try exact H;
    try (exfalso; destruct Hp as [Hp1 Hp2];
         first [specialize (Hp1 eq_refl) | specialize (Hp2 eq_refl)];
         discriminate).
  destruct (isValid (dateParse input)); [|exact H].
  unfold agree. cbn [confidence parsedDate components extractedTime timeMatch].
  rewrite Hc, Hk, He, Ht. repeat split; try reflexivity; discriminate.
Qed.

Lemma resolve_agree : forall now now' input,
  agree (resolve dateParse now input) (resolve dateParse now' input).
Proof.
  intros now now' input. unfold resolve.
  apply resolveFallback_agree, resolveMonthDay_agree, resolveWeekday_agree,
    resolveRelative_agree, agree_refl.
Qed.

Lemma finish_agree : forall input st st',
  agree st st' -> finish input st <> None -> finish input st' <> None.
Proof.
  intros input st st' (Hc & Hp & _) H. unfold finish in *.
  destruct (parsedDate st) eqn:E; [|now elim H].
  destruct (parsedDate st') eqn:E'.
  - rewrite <- Hc. destruct (PrimFloat.ltb (confidence st) 0.3);
      [now elim H|discriminate].
  - destruct Hp as [_ Hp]. specialize (Hp eq_refl). discriminate.
Qed.

(** Whether a text parses does not depend on the reading of the clock. *)
Lemma parses_at_any_time : forall now now' input,
  parseSmartDateString dateParse now input <> None ->
  parseSmartDateString dateParse now' input <> None.
Proof.
  intros now now' input H. rewrite parse_unfold in *.
  destruct (String.eqb (trim input) ""); [exact H|].
  exact (finish_agree input _ _ (resolve_agree now now' input) H).
Qed.

End AnyClock.


(** ** Order of the confidences *)

Lemma suggestionConfidences_order : orderChecked suggestionConfidences = true.
Proof. vm_compute. reflexivity. Qed.

Lemma suggestionConfidences_thresholds :
  thresholdsChecked suggestionConfidences = true.
Proof. vm_compute. reflexivity. Qed.

Lemma order_pair : forall x y,
  In x suggestionConfidences -> In y suggestionConfidences ->
  (if PrimFloat.ltb 0 (y - x) then PrimFloat.leb x y else PrimFloat.leb y x)
  = true.
Proof.
  intros x y Hx Hy. pose proof suggestionConfidences_order as H.
  unfold orderChecked in H. rewrite forallb_forall in H.
  specialize (H x Hx). rewrite forallb_forall in H. specialize (H y Hy).
  apply andb_true_iff in H. tauto.
Qed.

Lemma order_trans : forall x y z,
  In x suggestionConfidences -> In y suggestionConfidences ->
  In z suggestionConfidences ->
  PrimFloat.leb x y = true -> PrimFloat.leb y z = true ->
  PrimFloat.leb x z = true.
Proof.
  intros x y z Hx Hy Hz Hxy Hyz. pose proof suggestionConfidences_order as H.
  unfold orderChecked in H. rewrite forallb_forall in H.
  specialize (H x Hx). rewrite forallb_forall in H. specialize (H y Hy).
  apply andb_true_iff in H. destruct H as [_ H].
  rewrite forallb_forall in H. specialize (H z Hz).
  now rewrite Hxy, Hyz in H.
Qed.

Lemma threshold_high : forall c,
  In c suggestionConfidences ->
  PrimFloat.leb 0.9 c = true -> PrimFloat.leb 0.85 c = true.
Proof.
  intros c Hc H9. pose proof suggestionConfidences_thresholds as H.
  unfold thresholdsChecked in H. rewrite forallb_forall in H.
  specialize (H c Hc). apply andb_true_iff in H. destruct H as [H _].
  now rewrite H9 in H.
Qed.

Lemma threshold_good : forall c,
  In c suggestionConfidences ->
  PrimFloat.leb 0.7 c = true -> PrimFloat.leb 0.6 c = true.
Proof.
  intros c Hc H7. pose proof suggestionConfidences_thresholds as H.
  unfold thresholdsChecked in H. rewrite forallb_forall in H.
  specialize (H c Hc). apply andb_true_iff in H. destruct H as [_ H].
  now rewrite H7 in H.
Qed.

(** ** Sorting *)

Lemma insertSorted_perm : forall (A : Type) (cmp : A -> A -> float) x l,
  Permutation (insertSorted cmp x l) (x :: l).
Proof.
  intros A cmp x. induction l as [|y l IH]; cbn [insertSorted].
  - apply Permutation_refl.
  - destruct (PrimFloat.ltb 0 (cmp x y)).
    + eapply Permutation_trans; [apply perm_skip, IH|apply perm_swap].
    + apply Permutation_refl.
Qed.

Lemma sort_perm : forall (A : Type) (cmp : A -> A -> float) l,
  Permutation (sort cmp l) l.
Proof.
  intros A cmp. induction l as [|x l IH]; cbn [sort fold_right].
  - apply perm_nil.
  - eapply Permutation_trans; [apply insertSorted_perm|].
    apply perm_skip, IH.
Qed.

Lemma insertSorted_nonIncreasing : forall x l,
  listed x -> Forall listed l ->
  nonIncreasing l -> nonIncreasing (insertSorted byConfidence x l).
Proof.
  intros x l Hx. induction l as [|y l IH]; intros Hl Hs; cbn [insertSorted].
  - repeat constructor.
  - inversion Hl as [|? ? Hy Hl']; subst. inversion Hs as [|? ? Hs' Hall]; subst.
    pose proof (order_pair _ _ Hx Hy) as Hxy. fold (byConfidence x y) in Hxy.
    destruct (PrimFloat.ltb 0 (byConfidence x y)).
    + constructor; [now apply IH|].
      apply Forall_forall. intros z Hz.
      apply (Permutation_in _ (insertSorted_perm _ byConfidence x l)) in Hz.
      destruct Hz as [<-|Hz]; [exact Hxy|].
      rewrite Forall_forall in Hall. now apply Hall.
    + constructor; [exact Hs|]. constructor; [exact Hxy|].
      apply Forall_forall. intros z Hz.
      rewrite Forall_forall in Hall, Hl'. unfold notBelow.
      apply (order_trans _ (SmartSuggestion.confidence y));
        [now apply Hl'|exact Hy|exact Hx|now apply Hall|exact Hxy].
Qed.

Lemma sort_nonIncreasing : forall l,
  Forall listed l -> nonIncreasing (sort byConfidence l).
Proof.
  induction l as [|x l IH]; intros Hl; cbn [sort fold_right].
  - constructor.
  - inversion Hl; subst. apply insertSorted_nonIncreasing; [assumption| |].
    + apply Forall_forall. intros z Hz.
      apply (Permutation_in _ (sort_perm _ byConfidence l)) in Hz.
      rewrite Forall_forall in H2. now apply H2.
    + now apply IH.
Qed.

Lemma filter_nonIncreasing : forall p l,
  nonIncreasing l -> nonIncreasing (filter p l).
Proof.
  intros p. induction l as [|x l IH]; intros Hs; cbn [filter]; [constructor|].
  inversion Hs as [|? ? Hs' Hall]; subst.
  destruct (p x); [|now apply IH].
  constructor; [now apply IH|].
  apply Forall_forall. intros z Hz. apply filter_In in Hz.
  rewrite Forall_forall in Hall. now apply Hall.
Qed.

Lemma firstn_incl : forall (A : Type) n (l : list A) x,
  In x (firstn n l) -> In x l.
Proof.
  intros A. induction n as [|n IH]; intros [|y l] x H; cbn [firstn] in H;
    try contradiction.
  destruct H as [<-|H]; [now left|right; now apply IH].
Qed.

Lemma firstn_nonIncreasing : forall n l,
  nonIncreasing l -> nonIncreasing (firstn n l).
Proof.
  induction n as [|n IH]; intros [|x l] Hs; cbn [firstn]; try constructor.
  - inversion Hs; subst. now apply IH.
  - inversion Hs as [|? ? Hs' Hall]; subst.
    apply Forall_forall. intros z Hz. apply firstn_incl in Hz.
    rewrite Forall_forall in Hall. now apply Hall.
Qed.

Lemma NoDup_map_filter : forall (A B : Type) (f : A -> B) p (l : list A),
  NoDup (List.map f l) -> NoDup (List.map f (filter p l)).
Proof.
  intros A B f p. induction l as [|x l IH]; intros H; cbn [filter List.map] in *;
    [constructor|].
  inversion H as [|? ? Hn Hd]; subst.
  destruct (p x); [|now apply IH].
  cbn [List.map]. constructor; [|now apply IH].
  intros Hin. apply Hn. apply in_map_iff in Hin. destruct Hin as [y [Hy Hin]].
  apply filter_In in Hin. apply in_map_iff. exists y. tauto.
Qed.

Lemma NoDup_map_firstn : forall (A B : Type) (f : A -> B) n (l : list A),
  NoDup (List.map f l) -> NoDup (List.map f (firstn n l)).
Proof.
  intros A B f. induction n as [|n IH]; intros [|x l] H;
    cbn [firstn List.map] in *; try constructor.
  - inversion H as [|? ? Hn Hd]; subst.
    intros Hin. apply Hn. apply in_map_iff in Hin. destruct Hin as [y [Hy Hin]].
    apply firstn_incl in Hin. apply in_map_iff. exists y. tauto.
  - inversion H; subst. now apply IH.
Qed.


(** ** Removing duplicates *)

Lemma findIndex_none : forall (A : Type) (p : A -> bool) l,
  findIndex p l = None <-> forall x, In x l -> p x = false.
Proof.
  intros A p. induction l as [|y l IH]; cbn [findIndex].
  - split; [intros _ x []|reflexivity].
  - destruct (p y) eqn:E.
    + split; [discriminate|]. intros H.
      specialize (H y (or_introl eq_refl)). congruence.
    + destruct (findIndex p l) as [i|] eqn:Ei; cbn [option_map].
      * split; [discriminate|]. intros H. exfalso.
        assert (Hl : forall x, In x l -> p x = false)
          by (intros x Hx; apply H; now right).
        apply IH in Hl. discriminate.
      * split; [|reflexivity]. intros _ x [<-|Hx]; [exact E|].
        exact (proj1 IH eq_refl x Hx).
Qed.

Lemma findIndex_bound : forall (A : Type) (p : A -> bool) l i,
  findIndex p l = Some i -> (i < List.length l)%nat.
Proof.
  intros A p. induction l as [|y l IH]; intros i H; cbn [findIndex] in H.
  - discriminate.
  - cbn [List.length]. destruct (p y); [inversion H; lia|].
    destruct (findIndex p l) as [j|]; [|discriminate].
    inversion H. specialize (IH j eq_refl). lia.
Qed.

Lemma findIndex_app : forall (A : Type) (p : A -> bool) pre l,
  findIndex p (pre ++ l)%list
  = match findIndex p pre with
    | Some i => Some i
    | None => option_map (Nat.add (List.length pre)) (findIndex p l)
    end.
Proof.
  intros A p. induction pre as [|y pre IH]; intros l; cbn [app findIndex].
  - cbn [List.length]. destruct (findIndex p l); reflexivity.
  - destruct (p y); [reflexivity|]. rewrite IH.
    destruct (findIndex p pre); [reflexivity|].
    destruct (findIndex p l); reflexivity.
Qed.

Lemma find_app_skip : forall (A : Type) (p : A -> bool) pre l,
  (forall x, In x pre -> p x = false) ->
  find p (pre ++ l)%list = find p l.
Proof.
  intros A p. induction pre as [|y pre IH]; intros l H; cbn [app find].
  - reflexivity.
  - rewrite (H y (or_introl eq_refl)). apply IH. intros x Hx. apply H. now right.
Qed.

(** The test of [dedupByValue] at an entry of the list: it holds when no
    earlier entry has the value. *)
Lemma first_of_value : forall pre x rest,
  match findIndex (fun s => String.eqb (SmartSuggestion.value s)
                              (SmartSuggestion.value x))
          (pre ++ x :: rest)%list with
  | Some i => Nat.eqb (List.length pre) i
  | None => false
  end
  = negb (existsb (sameValue x) pre).
Proof.
  intros pre x rest. rewrite findIndex_app.
  destruct (findIndex _ pre) as [i|] eqn:E.
  - pose proof (findIndex_bound _ _ _ _ E) as Hi.
    replace (Nat.eqb (List.length pre) i) with false
      by (symmetry; apply Nat.eqb_neq; lia).
    symmetry. apply negb_false_iff.
    destruct (existsb (sameValue x) pre) eqn:Ex; [reflexivity|].
    assert (Hn : findIndex
                   (fun s => String.eqb (SmartSuggestion.value s)
                               (SmartSuggestion.value x)) pre = None).
    { apply findIndex_none. intros y Hy.
      destruct (String.eqb _ _) eqn:Ey; [|reflexivity].
      assert (Hex : existsb (sameValue x) pre = true)
        by (apply existsb_exists; exists y; split; [exact Hy|exact Ey]).
      congruence. }
    congruence.
  - cbn [findIndex]. rewrite String.eqb_refl. cbn [option_map].
    rewrite Nat.add_0_r, Nat.eqb_refl. symmetry. apply negb_true_iff.
    destruct (existsb (sameValue x) pre) eqn:Ex; [|reflexivity].
    apply existsb_exists in Ex. destruct Ex as [y [Hy Ey]].
    pose proof (proj1 (findIndex_none _ _ _) E y Hy) as Hf.
    unfold sameValue in Ey. cbn beta in Hf. congruence.
Qed.

Lemma dedup_from : forall xs pre,
  NoDup (values (filterIndexed (dedupTest (pre ++ xs)) (List.length pre) xs))
  /\ forall e,
       In e (filterIndexed (dedupTest (pre ++ xs)) (List.length pre) xs) ->
       In e xs
       /\ ~ In (SmartSuggestion.value e) (values pre)
       /\ find (sameValue e) (pre ++ xs)%list = Some e.
Proof.
  induction xs as [|x xs IH]; intros pre.
  - cbn [filterIndexed values List.map]. split; [constructor|intros e []].
  - specialize (IH (pre ++ [x])%list).
    rewrite <- app_assoc in IH. cbn [app] in IH.
    rewrite length_app in IH. cbn [List.length] in IH.
    rewrite Nat.add_1_r in IH. destruct IH as [IHd IHe].
    cbn [filterIndexed].
    assert (Htest : dedupTest (pre ++ x :: xs) (List.length pre) x
                    = negb (existsb (sameValue x) pre))
      by apply first_of_value.
    rewrite Htest. clear Htest.
    assert (Hlater : forall e,
              In e (filterIndexed (dedupTest (pre ++ x :: xs))
                      (S (List.length pre)) xs) ->
              In e xs /\ ~ In (SmartSuggestion.value e) (values pre)
              /\ SmartSuggestion.value e <> SmartSuggestion.value x
              /\ find (sameValue e) (pre ++ x :: xs)%list = Some e).
    { intros e He. destruct (IHe e He) as (H1 & H2 & H3).
      unfold values in H2. rewrite map_app, in_app_iff in H2. cbn in H2.
      repeat split; try tauto.
      - intros Heq. apply H2. right. now left. }
    destruct (existsb (sameValue x) pre) eqn:Ex; cbn [negb].
    + split; [exact IHd|]. intros e He.
      destruct (Hlater e He) as (H1 & H2 & _ & H4).
      split; [now right|tauto].
    + split.
      * cbn [values List.map]. constructor; [|exact IHd].
        intros Hin. apply in_map_iff in Hin. destruct Hin as [e [Hv He]].
        destruct (Hlater e He) as (_ & _ & Hne & _). congruence.
      * intros e [<-|He].
        -- split; [now left|]. split.
           ++ intros Hin. apply in_map_iff in Hin. destruct Hin as [y [Hv Hy]].
              assert (Hex : existsb (sameValue x) pre = true).
              { apply existsb_exists. exists y. split; [exact Hy|].
                unfold sameValue. rewrite Hv. apply String.eqb_refl. }
              congruence.
           ++ rewrite find_app_skip.
              ** cbn [find]. unfold sameValue. now rewrite String.eqb_refl.
              ** intros y Hy. destruct (sameValue x y) eqn:Ey; [|reflexivity].
                 assert (Hex : existsb (sameValue x) pre = true)
                   by (apply existsb_exists; exists y; tauto).
                 congruence.
        -- destruct (Hlater e He) as (H1 & H2 & _ & H4).
           split; [now right|tauto].
Qed.

Lemma dedup_distinct : forall l, NoDup (values (dedupByValue l)).
Proof.
  intros l. exact (proj1 (dedup_from l [])).
Qed.

Lemma dedup_first : forall l e,
  In e (dedupByValue l) -> In e l /\ find (sameValue e) l = Some e.
Proof.
  intros l e He. destruct (proj2 (dedup_from l []) e He) as (H1 & _ & H3).
  split; assumption.
Qed.


(** ** The pool of candidates *)

Lemma listed_weight : forall c,
  In c [0.85; 0.65; 0.8; 0.85 * 0.9; 0.8 * 0.9]%float ->
  In c suggestionConfidences.
Proof.
  intros c H. unfold suggestionConfidences. apply in_or_app. now right.
Qed.

Lemma listed_boost : forall c,
  In c parseConfidences ->
  In (Math_min (c + 0.2) 1.0) suggestionConfidences.
Proof.
  intros c H. unfold suggestionConfidences. apply in_or_app. left.
  now apply (in_map (fun c => Math_min (c + 0.2) 1.0)).
Qed.

Section Pool.

Variable dateParse : string -> Date.
Variable format : Z -> string -> string.

Lemma sound_intro : forall now now' l v c p d k r,
  parseSmartDateString dateParse now v = Some r ->
  In c suggestionConfidences ->
  sound dateParse now' (SmartSuggestion.mk l v c p d k).
Proof.
  intros now now' l v c p d k r Hr Hc. split; [|exact Hc].
  unfold parseable. cbn [SmartSuggestion.value].
  apply (parses_at_any_time dateParse now now'). rewrite Hr. discriminate.
Qed.

Lemma directSuggestion_sound : forall now now' input showTime,
  Forall (sound dateParse now')
    (directSuggestion format input showTime
       (parseSmartDateString dateParse now input)).
Proof.
  intros now now' input showTime. unfold directSuggestion.
  destruct (parseSmartDateString dateParse now input) as [r|] eqn:E;
    [|constructor].
  destruct (PrimFloat.ltb 0.5 (DateParseResult.confidence r)); [|constructor].
  constructor; [|constructor].
  apply (sound_intro now now' _ _ _ _ _ _ r E).
  apply listed_boost. exact (parse_confidence_listed dateParse now input r E).
Qed.

Lemma timeSuggestions_sound : forall now now' trimmed showTime,
  Forall (sound dateParse now') (timeSuggestions dateParse format now trimmed showTime).
Proof.
  intros now now' trimmed showTime. unfold timeSuggestions.
  destruct (showTime && _)%bool; [|constructor].
  apply Forall_flat_map, Forall_forall. intros [base times] _.
  apply Forall_flat_map, Forall_forall. intros time _.
  destruct (parseSmartDateString dateParse now (base ++ " " ++ time))
    as [r|] eqn:E; [|constructor].
  constructor; [|constructor].
  apply (sound_intro now now' _ _ _ _ _ _ r E).
  apply listed_weight. now left.
Qed.

Lemma monthSuggestions_sound : forall now now' trimmed currentParse,
  Forall (sound dateParse now') (monthSuggestions dateParse format now trimmed currentParse).
Proof.
  intros now now' trimmed currentParse. unfold monthSuggestions.
  destruct (belowOrAbsent currentParse 0.7); [|constructor].
  apply Forall_flat_map, Forall_forall. intros month _.
  apply Forall_flat_map, Forall_forall. intros day _.
  destruct (parseSmartDateString dateParse now (month ++ " " ++ ofZ day))
    as [r|] eqn:E; [|constructor].
  destruct (negb _); [|constructor].
  constructor; [|constructor].
  apply (sound_intro now now' _ _ _ _ _ _ r E).
  apply listed_weight. right. now left.
Qed.

Lemma weekdaySuggestions_sound : forall now now' trimmed showTime,
  Forall (sound dateParse now') (weekdaySuggestions dateParse format now trimmed showTime).
Proof.
  intros now now' trimmed showTime. unfold weekdaySuggestions.
  apply Forall_flat_map, Forall_forall. intros weekday _.
  apply Forall_flat_map, Forall_forall. intros prefix _.
  destruct (parseSmartDateString dateParse now (prefix ++ weekday))
    as [r|] eqn:E; [|constructor].
  constructor.
  - apply (sound_intro now now' _ _ _ _ _ _ r E).
    apply listed_weight. destruct (nonEmpty prefix); simpl; tauto.
  - destruct showTime; [|constructor].
    apply Forall_flat_map, Forall_forall. intros time _.
    destruct (parseSmartDateString dateParse now
                ((prefix ++ weekday) ++ " " ++ time)) as [tr|] eqn:Et;
      [|constructor].
    constructor; [|constructor].
    apply (sound_intro now now' _ _ _ _ _ _ tr Et).
    apply listed_weight. destruct (nonEmpty prefix); simpl; tauto.
Qed.

Lemma Forall_firstn : forall (A : Type) (P : A -> Prop) n l,
  Forall P l -> Forall P (firstn n l).
Proof.
  intros A P n l H. apply Forall_forall. intros x Hx.
  apply firstn_incl in Hx. rewrite Forall_forall in H. now apply H.
Qed.

Lemma pushPhrase_sound : forall now now' showTime suggestions suggestion,
  Forall (sound dateParse now') suggestions ->
  Forall (sound dateParse now') (pushPhrase dateParse format now showTime suggestions suggestion).
Proof.
  intros now now' showTime suggestions suggestion H. unfold pushPhrase.
  destruct (negb showTime && mentionsAmPm suggestion)%bool; [exact H|].
  destruct (parseSmartDateString dateParse now suggestion) as [r|] eqn:E;
    [|exact H].
  destruct (existsb _ suggestions); [exact H|].
  apply Forall_app. split; [exact H|].
  constructor; [|constructor].
  apply (sound_intro now now' _ _ _ _ _ _ r E).
  apply listed_weight. simpl; tauto.
Qed.

Lemma pushPhrases_sound : forall now now' showTime phrases suggestions,
  Forall (sound dateParse now') suggestions ->
  Forall (sound dateParse now')
    (fold_left (pushPhrase dateParse format now showTime) phrases suggestions).
Proof.
  intros now now' showTime. induction phrases as [|p phrases IH];
    intros suggestions H; cbn [fold_left]; [exact H|].
  apply IH. now apply pushPhrase_sound.
Qed.

Lemma pushFamily_sound : forall now now' trimmed showTime families suggestions,
  Forall (sound dateParse now') suggestions ->
  Forall (sound dateParse now')
    (pushFamily dateParse format now trimmed showTime families suggestions).
Proof.
  intros now now' trimmed showTime.
  induction families as [|[pattern phrases] families IH];
    intros suggestions H; cbn [pushFamily]; [exact H|].
  destruct (test pattern trimmed); [|now apply IH].
  now apply pushPhrases_sound.
Qed.

Lemma candidates_sound : forall now now' input showTime,
  Forall (sound dateParse now') (candidates dateParse format now input showTime).
Proof.
  intros now now' input showTime. unfold candidates.
  assert (H : Forall (sound dateParse now')
                (directSuggestion format input showTime
                   (parseSmartDateString dateParse now input)
                 ++ firstn 8
                      (contextualSuggestions dateParse format now
                         (toLowerCase (trim input)) showTime
                         (parseSmartDateString dateParse now input)))%list).
  { apply Forall_app. split; [apply directSuggestion_sound|].
    apply Forall_firstn. unfold contextualSuggestions.
    apply Forall_app. split; [apply timeSuggestions_sound|].
    apply Forall_app. split;
      [apply monthSuggestions_sound|apply weekdaySuggestions_sound]. }
  destruct (belowOrAbsent _ 0.8); [|exact H].
  now apply pushFamily_sound.
Qed.

Lemma candidates_parseable : forall now now' input showTime,
  Forall (parseable dateParse now') (candidates dateParse format now input showTime).
Proof.
  intros. eapply Forall_impl; [|apply candidates_sound]. intros s [H _]. exact H.
Qed.

Lemma candidates_listed : forall now input showTime,
  Forall listed (candidates dateParse format now input showTime).
Proof.
  intros. eapply Forall_impl; [|apply (candidates_sound now now)].
  intros s [_ H]. exact H.
Qed.

End Pool.


(** ** Post-processing *)

Lemma ranked_incl : forall l e, In e (ranked l) -> In e (dedupByValue l).
Proof.
  intros l e H. unfold ranked in H.
  apply (Permutation_in _ (sort_perm _ byConfidence _)) in H.
  apply filter_In in H. tauto.
Qed.

Lemma ranked_listed : forall l, Forall listed l -> Forall listed (ranked l).
Proof.
  intros l H. apply Forall_forall. intros e He.
  apply ranked_incl, dedup_first in He. rewrite Forall_forall in H.
  now apply H.
Qed.

Lemma ranked_distinct : forall l, NoDup (values (ranked l)).
Proof.
  intros l. unfold ranked, values.
  eapply Permutation_NoDup.
  - apply Permutation_map, Permutation_sym, sort_perm.
  - apply NoDup_map_filter, dedup_distinct.
Qed.

Lemma ranked_nonIncreasing : forall l,
  Forall listed l -> nonIncreasing (ranked l).
Proof.
  intros l H. unfold ranked. apply sort_nonIncreasing.
  apply Forall_forall. intros e He. apply filter_In in He.
  destruct He as [He _]. apply dedup_first in He.
  rewrite Forall_forall in H. now apply H.
Qed.

Lemma postProcess_ranked : forall l,
  postProcess l
  = match ranked l with
    | top :: _ =>
        if PrimFloat.leb 0.9 (SmartSuggestion.confidence top)
        then firstn 3 (filter (atLeast 0.85) (ranked l))
        else if PrimFloat.leb 0.7 (SmartSuggestion.confidence top)
        then firstn 5 (filter (atLeast 0.6) (ranked l))
        else firstn 6 (ranked l)
    | [] => firstn 8 (ranked l)
    end.
Proof. reflexivity. Qed.

Lemma postProcess_incl : forall l e, In e (postProcess l) -> In e (ranked l).
Proof.
  intros l e H. rewrite postProcess_ranked in H.
  destruct (ranked l) as [|top rest] eqn:E; [now apply firstn_incl in H|].
  rewrite <- E in *.
  destruct (PrimFloat.leb 0.9 _);
    [apply firstn_incl, filter_In in H; tauto|].
  destruct (PrimFloat.leb 0.7 _);
    [apply firstn_incl, filter_In in H; tauto|].
  now apply firstn_incl in H.
Qed.

Lemma postProcess_distinct : forall l, NoDup (values (postProcess l)).
Proof.
  intros l. rewrite postProcess_ranked. pose proof (ranked_distinct l) as H.
  unfold values in *.
  destruct (ranked l) as [|top rest] eqn:E; [constructor|].
  rewrite <- E in *.
  destruct (PrimFloat.leb 0.9 _);
    [now apply NoDup_map_firstn, NoDup_map_filter|].
  destruct (PrimFloat.leb 0.7 _);
    [now apply NoDup_map_firstn, NoDup_map_filter|].
  now apply NoDup_map_firstn.
Qed.

Lemma postProcess_nonIncreasing : forall l,
  Forall listed l -> nonIncreasing (postProcess l).
Proof.
  intros l Hl. rewrite postProcess_ranked.
  pose proof (ranked_nonIncreasing l Hl) as H.
  destruct (ranked l) as [|top rest] eqn:E; [constructor|].
  rewrite <- E in *.
  destruct (PrimFloat.leb 0.9 _);
    [now apply firstn_nonIncreasing, filter_nonIncreasing|].
  destruct (PrimFloat.leb 0.7 _);
    [now apply firstn_nonIncreasing, filter_nonIncreasing|].
  now apply firstn_nonIncreasing.
Qed.

Lemma postProcess_first : forall l e,
  In e (postProcess l) -> find (sameValue e) l = Some e.
Proof.
  intros l e H. now apply postProcess_incl, ranked_incl, dedup_first in H.
Qed.

Lemma Forall_filter : forall (A : Type) (p : A -> bool) l,
  Forall (fun x => p x = true) (filter p l).
Proof.
  intros A p l. apply Forall_forall. intros x Hx. apply filter_In in Hx. tauto.
Qed.

Lemma postProcess_tierCap : forall l,
  Forall listed l -> tierCap (postProcess l).
Proof.
  intros l Hl. rewrite postProcess_ranked.
  pose proof (ranked_listed l Hl) as Hr.
  destruct (ranked l) as [|top rest] eqn:E; [exact I|].
  inversion Hr as [|? ? Htop _]; subst. unfold listed in Htop.
  destruct (PrimFloat.leb 0.9 (SmartSuggestion.confidence top)) eqn:E9.
  - pose proof (threshold_high _ Htop E9) as H85.
    cbn [filter]. unfold atLeast at 1. rewrite H85, firstn_cons. cbn [tierCap].
    rewrite E9. split.
    + constructor; [exact H85|]. apply Forall_firstn, Forall_filter.
    + cbn [List.length]. pose proof (firstn_le_length 2 (filter (atLeast 0.85) rest)).
      lia.
  - destruct (PrimFloat.leb 0.7 (SmartSuggestion.confidence top)) eqn:E7.
    + pose proof (threshold_good _ Htop E7) as H6.
      cbn [filter]. unfold atLeast at 1. rewrite H6, firstn_cons. cbn [tierCap].
      rewrite E9, E7. split.
      * constructor; [exact H6|]. apply Forall_firstn, Forall_filter.
      * cbn [List.length].
        pose proof (firstn_le_length 4 (filter (atLeast 0.6) rest)). lia.
    + rewrite firstn_cons. cbn [tierCap]. rewrite E9, E7. cbn [List.length].
      pose proof (firstn_le_length 5 rest). lia.
Qed.

Lemma postProcess_empty : forall l, ranked l = [] -> postProcess l = [].
Proof.
  intros l H. rewrite postProcess_ranked, H. reflexivity.
Qed.

(** ** The suggestions of an empty input *)

Section Initial.

Variable dateParse : string -> Date.
Variable format : Z -> string -> string.

Lemma initial_values : forall now showTime,
  values (initialSuggestions dateParse format now showTime)
  = firstn 4 (List.map (fun b => snd (fst (fst b))) (baseSuggestions showTime)).
Proof.
  intros now showTime. unfold values, initialSuggestions.
  rewrite <- firstn_map, map_map. f_equal.
  apply map_ext. intros [[[l v] k] c]. reflexivity.
Qed.

Lemma initial_confidences : forall now showTime,
  confidences (initialSuggestions dateParse format now showTime)
  = firstn 4 (List.map snd (baseSuggestions showTime)).
Proof.
  intros now showTime. unfold confidences, initialSuggestions.
  rewrite <- firstn_map, map_map. f_equal.
  apply map_ext. intros [[[l v] k] c]. reflexivity.
Qed.

Lemma nonIncreasing_confidences : forall l,
  StronglySorted (fun a b => PrimFloat.leb b a = true) (confidences l) ->
  nonIncreasing l.
Proof.
  induction l as [|x l IH]; intros H; [constructor|].
  cbn [confidences List.map] in H. inversion H as [|? ? Hs Hall]; subst.
  constructor; [now apply IH|].
  apply Forall_forall. intros y Hy. rewrite Forall_forall in Hall.
  apply Hall. now apply in_map.
Qed.

Lemma initial_distinct : forall now showTime,
  NoDup (values (initialSuggestions dateParse format now showTime)).
Proof.
  intros now showTime. rewrite initial_values.
  destruct showTime; cbn;
    repeat (constructor; [cbn; intuition discriminate|]); constructor.
Qed.

Lemma initial_nonIncreasing : forall now showTime,
  nonIncreasing (initialSuggestions dateParse format now showTime).
Proof.
  intros now showTime. apply nonIncreasing_confidences.
  rewrite initial_confidences.
  destruct showTime; cbn [baseSuggestions app List.map snd firstn];
    repeat (constructor; [|repeat (constructor; [vm_compute; reflexivity|]);
                           constructor]);
    constructor.
Qed.

Lemma initial_parseable : forall now now' showTime,
  Forall (parseable dateParse now')
    (initialSuggestions dateParse format now showTime).
Proof.
  intros now now' showTime. apply Forall_forall. intros s Hs.
  assert (Hv : In (SmartSuggestion.value s)
                 ["tomorrow"; "next week"; "next monday"; "tomorrow 10am";
                  "end of day"]).
  { apply (in_map SmartSuggestion.value) in Hs.
    fold (values (initialSuggestions dateParse format now showTime)) in Hs.
    rewrite initial_values in Hs. apply firstn_incl in Hs.
    destruct showTime; cbn in Hs; cbn; tauto. }
  unfold parseable. apply (parses_at_any_time dateParse 0 now').
  cbn [In] in Hv.
  destruct Hv as [<-|[<-|[<-|[<-|[<-|[]]]]]]; vm_compute; discriminate.
Qed.

Lemma initial_length : forall now showTime,
  (List.length (initialSuggestions dateParse format now showTime) <= 4)%nat.
Proof.
  intros now showTime. unfold initialSuggestions. apply firstn_le_length.
Qed.

End Initial.


(** ** The suggestion list *)

Section SuggestionList.

Variable dateParse : string -> Date.
Variable format : Z -> string -> string.

Lemma generate_unfold : forall now input showTime,
  generateSmartSuggestions dateParse format now input showTime
  = if String.eqb (toLowerCase (trim input)) ""
    then initialSuggestions dateParse format now showTime
    else postProcess (candidates dateParse format now input showTime).
Proof. reflexivity. Qed.

(** C4: the value of every suggestion parses, whenever it is parsed; the
    curated suggestions of an empty input included. *)
Theorem C4_suggestions_parse : forall now now' input showTime,
  Forall (parseable dateParse now')
    (generateSmartSuggestions dateParse format now input showTime).
Proof.
  intros now now' input showTime. rewrite generate_unfold.
  destruct (String.eqb (toLowerCase (trim input)) "").
  - apply initial_parseable.
  - apply Forall_forall. intros s Hs.
    apply postProcess_incl, ranked_incl, dedup_first in Hs.
    pose proof (candidates_parseable dateParse format now now' input showTime) as H.
    rewrite Forall_forall in H. apply H. tauto.
Qed.

(** C5: no two suggestions have the same value, the confidences do not
    increase along the list, and a suggestion of a non-empty input is the
    first candidate of its value. *)
Theorem C5_distinct_values_descending_confidence : forall now input showTime,
  NoDup (values (generateSmartSuggestions dateParse format now input showTime))
  /\ nonIncreasing (generateSmartSuggestions dateParse format now input showTime)
  /\ (toLowerCase (trim input) <> "" ->
      forall e,
        In e (generateSmartSuggestions dateParse format now input showTime) ->
        find (sameValue e) (candidates dateParse format now input showTime)
        = Some e).
Proof.
  intros now input showTime. rewrite generate_unfold.
  destruct (String.eqb (toLowerCase (trim input)) "") eqn:E.
  - split; [apply initial_distinct|]. split; [apply initial_nonIncreasing|].
    intros Hne. apply String.eqb_eq in E. contradiction.
  - split; [apply postProcess_distinct|].
    split; [apply postProcess_nonIncreasing, candidates_listed|].
    intros _ e He. now apply postProcess_first.
Qed.

(** C6, as amended: for an input that is not blank the returned list
    obeys the confidence-tiered cap, and it is empty when nothing is left
    to rank; for a blank input the curated list comes back without this
    step, cut at 4 entries. *)
Theorem C6_tiered_cap : forall now input showTime,
  toLowerCase (trim input) <> "" ->
  tierCap (generateSmartSuggestions dateParse format now input showTime)
  /\ (ranked (candidates dateParse format now input showTime) = [] ->
      (List.length (generateSmartSuggestions dateParse format now input showTime)
       <= 8)%nat)
  /\ (forall blank,
        toLowerCase (trim blank) = "" ->
        generateSmartSuggestions dateParse format now blank showTime
        = initialSuggestions dateParse format now showTime
        /\ (List.length
              (generateSmartSuggestions dateParse format now blank showTime)
            <= 4)%nat).
Proof.
  intros now input showTime Hne. split; [|split].
  - rewrite generate_unfold. apply String.eqb_neq in Hne. rewrite Hne.
    apply postProcess_tierCap, candidates_listed.
  - intros Hr. rewrite generate_unfold. apply String.eqb_neq in Hne.
    rewrite Hne, (postProcess_empty _ Hr). cbn [List.length]. lia.
  - intros blank Hb. rewrite generate_unfold. apply String.eqb_eq in Hb.
    rewrite Hb. split; [reflexivity|apply initial_length].
Qed.

End SuggestionList.

(** The suggestions for "tom", with times, obey the cap. *)
Lemma C6_witness :
  toLowerCase (trim "tom") <> ""
  /\ tierCap
       (generateSmartSuggestions (fun _ => InvalidDate) (fun _ f => f)
          1735723800000 "tom" true).
Proof.
  assert (H : toLowerCase (trim "tom") <> "") by (vm_compute; discriminate).
  split; [exact H|].
  exact (proj1 (C6_tiered_cap (fun _ => InvalidDate) (fun _ f => f)
                  1735723800000 "tom" true H)).
Defined.

(** The claim of C6 as written fails on the empty input with times
    enabled: the top confidence is 1.0, and four suggestions come back. *)
Lemma C6_counterexample :
  confidences
    (generateSmartSuggestions (fun _ => InvalidDate) (fun _ f => f)
       1735723800000 "" true)
  = [1.0; 1.0; 0.9; 0.9]%float
  /\ PrimFloat.leb 0.9 1.0 = true
  /\ List.length
       (generateSmartSuggestions (fun _ => InvalidDate) (fun _ f => f)
          1735723800000 "" true)
     = 4%nat
  /\ ~ tierCap
         (generateSmartSuggestions (fun _ => InvalidDate) (fun _ f => f)
            1735723800000 "" true).
Proof.
  split; [vm_compute; reflexivity|].
  split; [vm_compute; reflexivity|].
  split; [vm_compute; reflexivity|].
  intros H.
  assert (E : generateSmartSuggestions (fun _ => InvalidDate) (fun _ f => f)
                1735723800000 "" true
              = initialSuggestions (fun _ => InvalidDate) (fun _ f => f)
                  1735723800000 true) by reflexivity.
  rewrite E in H. unfold initialSuggestions in H.
  cbn [baseSuggestions app List.map firstn tierCap SmartSuggestion.confidence] in H.
  replace (PrimFloat.leb 0.9 1.0) with true in H by (vm_compute; reflexivity).
  destruct H as [_ H]. cbn [List.length] in H. lia.
Qed.


(** ** What a month name captures *)

Lemma searchFrom_some : forall ic r s pv m,
  searchFrom ic r pv s = Some m ->
  exists pv' s' st,
    In st (run ic r (MState pv' "" s' [])) /\ m = mkMatch (matched st) (caps st).
Proof.
  intros ic r. induction s as [|c s IH]; intros pv m H; cbn [searchFrom] in H.
  - destruct (run ic r (MState pv "" "" [])) as [|st l] eqn:E; [discriminate|].
    inversion H. exists pv, "", st. rewrite E. split; [now left|reflexivity].
  - destruct (run ic r (MState pv "" (String c s) [])) as [|st l] eqn:E.
    + now apply IH in H.
    + inversion H. exists pv, (String c s), st. rewrite E.
      split; [now left|reflexivity].
Qed.

Lemma upper_of_letter : forall a c,
  isAsciiLetter a = true -> toUpperChar c = toUpperChar a ->
  isAsciiLetter c = true.
Proof.
  intros a c Ha H.
  assert (Hu : (65 <= code (toUpperChar a) <= 90)%nat).
  { clear H c. destruct a as [b0 b1 b2 b3 b4 b5 b6 b7].
    destruct b0, b1, b2, b3, b4, b5, b6, b7;
      try (exfalso; vm_compute in Ha; discriminate Ha);
      vm_compute; split; repeat constructor. }
  rewrite <- H in Hu. clear H Ha a.
  destruct c as [b0 b1 b2 b3 b4 b5 b6 b7].
  destruct b0, b1, b2, b3, b4, b5, b6, b7;
    try reflexivity; exfalso; vm_compute in Hu; lia.
Qed.

Lemma letter_is_not_a_number : forall s,
  startsWithLetter s = true -> parseInt s = None.
Proof.
  intros [|c w] H; [discriminate|]. cbn [startsWithLetter] in H.
  destruct c as [b0 b1 b2 b3 b4 b5 b6 b7].
  destruct b0, b1, b2, b3, b4, b5, b6, b7;
    try (exfalso; vm_compute in H; discriminate H); reflexivity.
Qed.

Lemma runLit_extends : forall ic l pv m s cs st,
  In st (runLit ic l pv m s cs) ->
  (exists w, matched st = m ++ w) /\ caps st = cs.
Proof.
  intros ic. induction l as [|a l IH]; intros pv m s cs st Hin;
    cbn [runLit] in Hin.
  - destruct Hin as [<-|[]]. split; [|reflexivity].
    exists "". cbn [matched]. now rewrite append_nil_r.
  - destruct s as [|c s]; [contradiction|].
    destruct (charEq ic a c); [|contradiction].
    apply IH in Hin. destruct Hin as [[w Hw] Hc]. split; [|exact Hc].
    exists (String c w). now rewrite Hw, append_assoc.
Qed.

Lemma runLit_first : forall ic l pv s cs st,
  startsWithLetter l = true ->
  In st (runLit ic l pv "" s cs) ->
  startsWithLetter (matched st) = true /\ caps st = cs.
Proof.
  intros ic [|a l] pv s cs st Hl Hin; [discriminate|].
  cbn [runLit] in Hin. destruct s as [|c s]; [contradiction|].
  destruct (charEq ic a c) eqn:E; [|contradiction].
  cbn [append] in Hin. cbn [startsWithLetter] in Hl.
  apply charEq_upper in E. pose proof (upper_of_letter a c Hl E) as Hc.
  apply runLit_extends in Hin. destruct Hin as [[w Hw] Hcs].
  split; [|exact Hcs]. rewrite Hw. exact Hc.
Qed.

(** An alternation of words that start with a letter matches a text that
    starts with a letter, and captures nothing. *)
Lemma alts_first : forall ic ls pv s cs st,
  forallb startsWithLetter ls = true ->
  In st (run ic (alts ls) (MState pv "" s cs)) ->
  startsWithLetter (matched st) = true /\ caps st = cs.
Proof.
  intros ic. induction ls as [|l ls IH]; intros pv s cs st Hls Hin.
  - cbn in Hin. destruct s; contradiction.
  - cbn [forallb] in Hls. apply andb_true_iff in Hls. destruct Hls as [Hl Hls].
    destruct ls as [|l' ls'].
    + cbn [alts run prev matched rest caps] in Hin.
      now apply runLit_first in Hin.
    + change (alts (l :: l' :: ls')) with (Alt (Lit l) (alts (l' :: ls'))) in Hin.
      cbn [run] in Hin. apply in_app_or in Hin. destruct Hin as [Hin|Hin].
      * cbn [prev matched rest caps] in Hin. now apply runLit_first in Hin.
      * now apply IH in Hin.
Qed.

(** In every match of the day-first pattern, group 2 is the month name:
    read as a number it is NaN. *)
Lemma dayFirst_group2 : forall text m,
  exec dayFirstPattern text = Some m -> parseGroup 2 m = None.
Proof.
  intros text m H. unfold exec in H. apply searchFrom_some in H.
  destruct H as (pv & s & st & Hin & ->).
  change (pattern dayFirstPattern)
    with (Seq WordB (Seq (Group 1 (digits 1 (Some 2%nat)))
            (Seq (spaces 1)
               (Seq (Group 2 (alts monthAlternatives)) (Lit ""))))) in Hin.
  cbn [run] in Hin.
  apply in_flat_map in Hin. destruct Hin as (st1 & _ & Hin).
  apply in_flat_map in Hin. destruct Hin as (st2 & _ & Hin).
  apply in_flat_map in Hin. destruct Hin as (st3 & _ & Hin).
  apply in_flat_map in Hin. destruct Hin as (st4 & H4 & Hin).
  cbn [runLit] in Hin. destruct Hin as [<-|[]].
  apply in_map_iff in H4. destruct H4 as (sA & <- & HA).
  apply alts_first in HA; [|reflexivity]. destruct HA as [Hletter _].
  unfold parseGroup, group. cbn [groups caps find fst snd Nat.eqb option_map].
  now apply letter_is_not_a_number.
Qed.

Lemma resolveMonthDay_dayFirst : forall now text st m,
  firstMatch monthPatterns text = Some (dayFirstPattern, m) ->
  resolveMonthDay now text st = st.
Proof.
  intros now text st m H. unfold resolveMonthDay.
  destruct (parsedDate st); [reflexivity|]. rewrite H.
  pose proof (proj2 (firstMatch_In _ _ _ _ H)) as He.
  apply dayFirst_group2 in He.
  unfold monthAndDay.
  replace (includes "jan|january" (toString dayFirstPattern)) with true
    by (vm_compute; reflexivity).
  rewrite He. destruct (option_map _ (group 1 m)); reflexivity.
Qed.

Lemma extractTime_date : forall trimmed,
  ParsedComponents.date (components (extractTime trimmed initial)) = None.
Proof.
  intros trimmed. unfold extractTime.
  destruct (firstMatch timePatterns trimmed) as [[p m]|]; [|reflexivity].
  destruct (timeHours m) as [h|]; [|reflexivity].
  destruct (timeMinutes m) as [mi|]; [|reflexivity].
  destruct (timeInRange (Some h) (Some mi)); reflexivity.
Qed.

Section DayFirst.

Variable dateParse : string -> Date.

(** C1, as the code has it: when the day-first pattern is the month
    pattern that matches the time-stripped text, and no earlier resolver
    matched, the Month/Day Resolver does not accept.  The loop body takes
    the month-name-first branch on this pattern too, reads the month name
    from the digits and the day from the month name, and the range check
    fails.  A result, if there is one, comes from the fallback: it has no
    [date] component, and its confidence is the time weight plus 0.5. *)
Theorem C1_day_first_is_not_accepted : forall now input m,
  firstRelative relativePatterns
    (inputWithoutTime (toLowerCase (trim input))
       (extractTime (toLowerCase (trim input)) initial)) = None ->
  exec weekdayPattern
    (inputWithoutTime (toLowerCase (trim input))
       (extractTime (toLowerCase (trim input)) initial)) = None ->
  firstMatch monthPatterns
    (inputWithoutTime (toLowerCase (trim input))
       (extractTime (toLowerCase (trim input)) initial))
  = Some (dayFirstPattern, m) ->
  includes "jan|january" (toString dayFirstPattern) = true
  /\ snd (monthAndDay dayFirstPattern m) = None
  /\ resolveMonthDay now
       (inputWithoutTime (toLowerCase (trim input))
          (extractTime (toLowerCase (trim input)) initial))
       (extractTime (toLowerCase (trim input)) initial)
     = extractTime (toLowerCase (trim input)) initial
  /\ (forall r,
        parseSmartDateString dateParse now input = Some r ->
        ParsedComponents.date (DateParseResult.parsedComponents r) = None
        /\ DateParseResult.confidence r
           = Math_min
               (confidence (extractTime (toLowerCase (trim input)) initial)
                + 0.5) 1.0
        /\ isValid (dateParse input) = true).
Proof.
  intros now input m Hrel Hweek Hmonth.
  set (trimmed := toLowerCase (trim input)) in *.
  set (st := extractTime trimmed initial) in *.
  set (text := inputWithoutTime trimmed st) in *.
  assert (Hinc : includes "jan|january" (toString dayFirstPattern) = true)
    by (vm_compute; reflexivity).
  assert (Hp : parsedDate st = None)
    by exact (proj1 (extractTime_initial trimmed)).
  assert (Hd : ParsedComponents.date (components st) = None)
    by exact (extractTime_date trimmed).
  assert (Hday : snd (monthAndDay dayFirstPattern m) = None).
  { unfold monthAndDay. rewrite Hinc. cbn [snd].
    exact (dayFirst_group2 text m (proj2 (firstMatch_In _ _ _ _ Hmonth))). }
  split; [exact Hinc|]. split; [exact Hday|].
  split; [exact (resolveMonthDay_dayFirst now text st m Hmonth)|].
  intros r Hr. rewrite parse_unfold in Hr.
  destruct (String.eqb (trim input) ""); [discriminate|].
  assert (Hres : resolve dateParse now input = resolveFallback dateParse input st).
  { unfold resolve. fold trimmed. fold st. fold text.
    unfold resolveRelative. rewrite Hrel.
    unfold resolveWeekday. rewrite Hp, Hweek.
    now rewrite (resolveMonthDay_dayFirst now text st m Hmonth). }
  rewrite Hres in Hr. unfold resolveFallback in Hr. rewrite Hp in Hr.
  destruct (isValid (dateParse input)).
  - unfold finish in Hr. cbn [parsedDate confidence components] in Hr.
    destruct (PrimFloat.ltb _ 0.3); [discriminate|].
    inversion Hr.
    cbn [DateParseResult.parsedComponents DateParseResult.confidence].
    split; [exact Hd|]. split; reflexivity.
  - unfold finish in Hr. rewrite Hp in Hr. discriminate.
Qed.

End DayFirst.

(** The day-first pattern is the one that matches "15 oct", and the
    Month/Day Resolver leaves the locals as they are. *)
Lemma C1_witness :
  firstMatch monthPatterns "15 oct"
  = Some (dayFirstPattern, mkMatch "15 oct" [(2%nat, "oct"); (1%nat, "15")])
  /\ snd (monthAndDay dayFirstPattern
            (mkMatch "15 oct" [(2%nat, "oct"); (1%nat, "15")])) = None
  /\ resolveMonthDay 1735723800000
       (inputWithoutTime (toLowerCase (trim "15 oct"))
          (extractTime (toLowerCase (trim "15 oct")) initial))
       (extractTime (toLowerCase (trim "15 oct")) initial)
     = extractTime (toLowerCase (trim "15 oct")) initial.
Proof.
  assert (H1 : firstRelative relativePatterns
                 (inputWithoutTime (toLowerCase (trim "15 oct"))
                    (extractTime (toLowerCase (trim "15 oct")) initial))
               = None) by (vm_compute; reflexivity).
  assert (H2 : exec weekdayPattern
                 (inputWithoutTime (toLowerCase (trim "15 oct"))
                    (extractTime (toLowerCase (trim "15 oct")) initial))
               = None) by (vm_compute; reflexivity).
  assert (H3 : firstMatch monthPatterns
                 (inputWithoutTime (toLowerCase (trim "15 oct"))
                    (extractTime (toLowerCase (trim "15 oct")) initial))
               = Some (dayFirstPattern,
                       mkMatch "15 oct" [(2%nat, "oct"); (1%nat, "15")]))
    by (vm_compute; reflexivity).
  destruct (C1_day_first_is_not_accepted (fun _ => InvalidDate)
              1735723800000 "15 oct" _ H1 H2 H3) as (_ & Hd & Hr & _).
  split; [vm_compute; reflexivity|]. split; [exact Hd|exact Hr].
Defined.


(** ** Every nonnegative integer has a numeral *)

Lemma string_of_uint_digits : forall d,
  every isDigit (NilEmpty.string_of_uint d) = true.
Proof.
  induction d; cbn [NilEmpty.string_of_uint every]; try reflexivity;
    rewrite IHd; reflexivity.
Qed.

Lemma digitsValue_acc : forall d acc,
  digitsValue (Zpos acc) (NilEmpty.string_of_uint d)
  = Zpos (Pos.of_uint_acc d acc).
Proof.
  induction d; intros acc; cbn [NilEmpty.string_of_uint digitsValue Pos.of_uint_acc];
    try reflexivity;
    match goal with
    | |- context [isDigit ?c] => replace (isDigit c) with true by reflexivity
    end;
    match goal with
    | |- context [Z.of_nat ?n] =>
        let v := eval vm_compute in (Z.of_nat n) in
        change (Z.of_nat n) with v
    end;
    match goal with
    | |- digitsValue ?a _ = Zpos (Pos.of_uint_acc _ ?b) =>
        replace a with (Zpos b) by lia
    end;
    apply IHd.
Qed.

Lemma digitsValue_uint : forall d,
  digitsValue 0 (NilEmpty.string_of_uint d) = Z.of_N (Pos.of_uint d).
Proof.
  induction d; cbn [NilEmpty.string_of_uint digitsValue Pos.of_uint];
    try reflexivity;
    match goal with
    | |- context [isDigit ?c] => replace (isDigit c) with true by reflexivity
    end.
  - exact IHd.
  - exact (digitsValue_acc d 1).
  - exact (digitsValue_acc d 2).
  - exact (digitsValue_acc d 3).
  - exact (digitsValue_acc d 4).
  - exact (digitsValue_acc d 5).
  - exact (digitsValue_acc d 6).
  - exact (digitsValue_acc d 7).
  - exact (digitsValue_acc d 8).
  - exact (digitsValue_acc d 9).
Qed.

(** [String(n)] of a nonnegative integer is a numeral, and denotes it. *)
Lemma ofZ_numeral : forall n,
  0 <= n -> isNumeral (ofZ n) = true /\ numeralValue (ofZ n) = n.
Proof.
  intros [|p|p] Hn; [split; reflexivity| |lia].
  unfold ofZ, numeralValue. cbn [Z.to_int NilEmpty.string_of_int].
  split.
  - unfold isNumeral. pose proof (Unsigned.to_uint_nonnil p) as Hnn.
    pose proof (string_of_uint_digits (Pos.to_uint p)) as Hd.
    destruct (Pos.to_uint p); [now elim Hnn| | | | | | | | | |];
      cbn [NilEmpty.string_of_uint] in *; exact Hd.
  - rewrite digitsValue_uint, Unsigned.of_to. reflexivity.
Qed.

(** "in N days" for the integer N as [String(N)] prints it. *)
Lemma in_integer_days : forall dateParse now n plural,
  0 <= n ->
  - maxTime <= now + n * msPerDay <= maxTime ->
  parseSmartDateString dateParse now (inDays (ofZ n) plural)
  = Some (DateParseResult.mk (ValidDate (now + n * msPerDay)) 0.85
            (inDays (ofZ n) plural)
            (ParsedComponents.mk (Some (inDays (ofZ n) plural))
               None None None None)).
Proof.
  intros dateParse now n plural Hn Hrange.
  destruct (ofZ_numeral n Hn) as [Hnum Hval].
  rewrite (inDays_parses dateParse now (ofZ n) plural Hnum), Hval.
  unfold addDays. now rewrite (timeClip_valid _ Hrange).
Qed.


(** ** Examples *)

Example clock_fields :
  fields (ValidDate newYear2025) = Some (2025, 1, 1, 9, 30)
  /\ getDay newYear2025 = 3.
Proof. split; reflexivity. Qed.

Example parse_blank :
  parseSmartDateString (fun _ => InvalidDate) newYear2025 "" = None
  /\ parseSmartDateString (fun _ => InvalidDate) newYear2025 "   " = None.
Proof. split; reflexivity. Qed.

Example parse_tomorrow :
  parseSmartDateString (fun _ => InvalidDate) newYear2025 "tomorrow"
  = Some (DateParseResult.mk (ValidDate (newYear2025 + msPerDay)) 0.9
            "tomorrow"
            (ParsedComponents.mk (Some "tomorrow") None None None None)).
Proof. vm_compute. reflexivity. Qed.

Example parse_tomorrow_7am :
  option_map
    (fun r => (fields (DateParseResult.date r), DateParseResult.confidence r,
               DateParseResult.parsedComponents r))
    (parseSmartDateString (fun _ => InvalidDate) newYear2025 "Tomorrow 7am")
  = Some (Some (2025, 1, 2, 7, 0), 1.0%float,
          ParsedComponents.mk (Some "tomorrow") (Some "7am") None None None).
Proof. vm_compute. reflexivity. Qed.

(** The numeric form reads the month first. *)
Example parse_12_25 :
  option_map
    (fun r => (fields (DateParseResult.date r), DateParseResult.confidence r,
               DateParseResult.parsedComponents r))
    (parseSmartDateString (fun _ => InvalidDate) newYear2025 "12/25")
  = Some (Some (2025, 12, 25, 0, 0), 0.75%float,
          ParsedComponents.mk None None None (Some "12/25") None).
Proof. vm_compute. reflexivity. Qed.

(** A month name resolves through [monthNames], where "may" stands once:
    the names up to May fall on their month, the later ones one month
    early. *)
Example parse_month_names :
  List.map
    (fun text =>
       option_map (fun r => fields (DateParseResult.date r))
         (parseSmartDateString (fun _ => InvalidDate) newYear2025 text))
    ["mar 15"; "may 15"; "oct 15"]
  = [Some (Some (2025, 3, 15, 0, 0)); Some (Some (2025, 5, 15, 0, 0));
     Some (Some (2025, 9, 15, 0, 0))].
Proof. vm_compute. reflexivity. Qed.

Example suggestions_tom :
  List.map
    (fun s => (SmartSuggestion.value s, SmartSuggestion.confidence s))
    (generateSmartSuggestions (fun _ => InvalidDate) (fun _ f => f)
       newYear2025 "tom" true)
  = [("tomorrow", 0.8%float); ("tomorrow 9am", 0.8%float)].
Proof. vm_compute. reflexivity. Qed.

Example suggestions_mon :
  List.map
    (fun s => (SmartSuggestion.value s, SmartSuggestion.confidence s))
    (generateSmartSuggestions (fun _ => InvalidDate) (fun _ f => f)
       newYear2025 "mon" true)
  = [("next monday", 0.85%float); ("monday", 0.8%float);
     ("next monday 9am", (0.85 * 0.9)%float);
     ("next monday 2pm", (0.85 * 0.9)%float);
     ("next monday 5pm", (0.85 * 0.9)%float)].
Proof. vm_compute. reflexivity. Qed.

Example due_dates :
  List.map
    (fun d => status (getDueDateStatus (fun _ f => f) (fun _ _ => "")
                        newYear2025 d))
    [None; Some 0; Some (newYear2025 - 1); Some newYear2025;
     Some (newYear2025 + msPerDay); Some (newYear2025 + 2 * msPerDay)]
  = [no_due_date; no_due_date; overdue; due_today; due_soon; not_due].
Proof. vm_compute. reflexivity. Qed.


(* ================================================================== *)
(** * Further properties *)
(* ================================================================== *)

Import Display Collections.

(** ** The status of a due date, by calendar day *)

Section DueDateDays.

Variable format : Z -> string -> string.
Variable formatDistanceToNow : Z -> Z -> string.

Lemma endOfDay_value : forall t,
  - maxTime <= t -> t + msPerDay <= maxTime ->
  endOfDay t = ValidDate (dayOf t * msPerDay + msPerDay - 1).
Proof.
  intros t Hlo Hhi. unfold endOfDay, makeDate.
  rewrite timeClip_valid; [f_equal; lia|].
  unfold dayOf, msPerDay, maxTime in *. Z.div_mod_to_equations. lia.
Qed.

(** X1: while the clock is at least two days inside the range of time
    values, the status of a due date other than 0 is read off the calendar
    days: overdue when it is before now; otherwise due-today when it falls
    on the calendar day of now, due-soon on the day after, and not-due on
    any later day. *)
Theorem X1_status_by_calendar_day : forall now d,
  - maxTime <= now -> now + 2 * msPerDay <= maxTime ->
  d <> 0 ->
  status (getDueDateStatus format formatDistanceToNow now (Some d))
  = if d <? now then overdue
    else if dayOf d =? dayOf now then due_today
    else if dayOf d =? dayOf now + 1 then due_soon
    else not_due.
Proof.
  intros now d Hlo Hhi Hd.
  unfold getDueDateStatus. rewrite (falsy_nonzero d Hd).
  destruct (d <? now) eqn:E1; [reflexivity|].
  apply Z.ltb_ge in E1.
  change (atEndOfDay (ValidDate now)) with (endOfDay now).
  rewrite endOfDay_value by (unfold msPerDay in *; lia).
  cbn [nextDay]. unfold addDays.
  assert (Hd1 : dayOf now * msPerDay <= now < dayOf now * msPerDay + msPerDay).
  { unfold dayOf, msPerDay. Z.div_mod_to_equations. lia. }
  rewrite timeClip_valid by (unfold msPerDay, maxTime in *; lia).
  cbn [atEndOfDay]. unfold endOfDay, makeDate.
  replace (dayOf (dayOf now * msPerDay + msPerDay - 1 + 1 * msPerDay))
    with (dayOf now + 1)
    by (unfold dayOf, msPerDay; Z.div_mod_to_equations; lia).
  rewrite timeClip_valid by (unfold msPerDay, maxTime in *; lia).
  cbn [leTime].
  assert (Hdd : dayOf d * msPerDay <= d < dayOf d * msPerDay + msPerDay).
  { unfold dayOf, msPerDay. Z.div_mod_to_equations. lia. }
  assert (Hmono : dayOf now <= dayOf d).
  { unfold dayOf, msPerDay. apply Z.div_le_mono; lia. }
  destruct (dayOf d =? dayOf now) eqn:E2.
  - apply Z.eqb_eq in E2.
    destruct (d <=? dayOf now * msPerDay + msPerDay - 1) eqn:E3; [reflexivity|].
    apply Z.leb_gt in E3. rewrite E2 in Hdd. lia.
  - apply Z.eqb_neq in E2.
    destruct (d <=? dayOf now * msPerDay + msPerDay - 1) eqn:E3.
    + apply Z.leb_le in E3. unfold msPerDay in *. nia.
    + destruct (dayOf d =? dayOf now + 1) eqn:E4.
      * apply Z.eqb_eq in E4.
        destruct (d <=? (dayOf now + 1) * msPerDay + (msPerDay - 1)) eqn:E5;
          [reflexivity|].
        apply Z.leb_gt in E5. rewrite E4 in Hdd. lia.
      * apply Z.eqb_neq in E4.
        destruct (d <=? (dayOf now + 1) * msPerDay + (msPerDay - 1)) eqn:E5;
          [|reflexivity].
        apply Z.leb_le in E5. unfold msPerDay in *. nia.
Qed.

(** X2: [isOverdue] and [getDueDateStatus] agree on every due date and at
    every reading of the clock: the one answers true exactly when the
    other answers overdue. *)
Theorem X2_overdue_agrees : forall now dueDate,
  isOverdue now dueDate = true
  <-> status (getDueDateStatus format formatDistanceToNow now dueDate) = overdue.
Proof.
  intros now dueDate. unfold isOverdue, getDueDateStatus.
  destruct dueDate as [d|]; [|split; discriminate].
  destruct (falsy (Some d)); [split; discriminate|].
  destruct (d <? now); [split; reflexivity|].
  split; [discriminate|].
  destruct (leTime d _); [discriminate|].
  destruct (leTime d _); discriminate.
Qed.

End DueDateDays.

(** The clock of the examples, and a due date on the next day. *)
Lemma X1_witness :
  - maxTime <= newYear2025 /\ newYear2025 + 2 * msPerDay <= maxTime
  /\ newYear2025 + msPerDay <> 0
  /\ status (getDueDateStatus (fun _ f => f) (fun _ _ => "") newYear2025
               (Some (newYear2025 + msPerDay)))
     = due_soon.
Proof.
  assert (H1 : - maxTime <= newYear2025) by (vm_compute; discriminate).
  assert (H2 : newYear2025 + 2 * msPerDay <= maxTime)
    by (vm_compute; discriminate).
  assert (H3 : newYear2025 + msPerDay <> 0) by (vm_compute; discriminate).
  split; [exact H1|]. split; [exact H2|]. split; [exact H3|].
  exact (X1_status_by_calendar_day (fun _ f => f) (fun _ _ => "")
           newYear2025 (newYear2025 + msPerDay) H1 H2 H3).
Defined.


(** ** sortByDate *)

Section Sorting.

Variable A : Type.
Variable cmp : A -> A -> Z.

Lemma arrayInsert_perm : forall x l,
  Permutation (x :: l) (arrayInsert cmp x l).
Proof.
  intros x l. induction l as [|y l IH]; simpl; [apply Permutation_refl|].
  destruct (0 <? cmp x y); [|apply Permutation_refl].
  eapply perm_trans; [apply perm_swap|]. now apply perm_skip.
Qed.

Lemma arraySort_perm : forall l, Permutation l (arraySort cmp l).
Proof.
  induction l as [|x l IH]; simpl; [constructor|].
  eapply perm_trans; [|apply arrayInsert_perm]. now apply perm_skip.
Qed.

Variable R : A -> A -> Prop.
Hypothesis R_trans : forall a b c, R a b -> R b c -> R a c.
Hypothesis R_pos : forall a b, 0 < cmp a b -> R b a.
Hypothesis R_nonpos : forall a b, cmp a b <= 0 -> R a b.

Lemma arrayInsert_sorted : forall x l,
  StronglySorted R l -> StronglySorted R (arrayInsert cmp x l).
Proof.
  intros x l Hs. induction Hs as [|y l Hs IH Hall]; simpl.
  - constructor; constructor.
  - destruct (0 <? cmp x y) eqn:E.
    + apply Z.ltb_lt in E. constructor; [exact IH|].
      apply Forall_forall. intros z Hz.
      apply (Permutation_in _ (Permutation_sym (arrayInsert_perm x l))) in Hz.
      destruct Hz as [<-|Hz]; [now apply R_pos|].
      rewrite Forall_forall in Hall. now apply Hall.
    + apply Z.ltb_ge in E. constructor; [now constructor|].
      constructor; [now apply R_nonpos|].
      eapply Forall_impl; [|exact Hall].
      intros z Hz. eapply R_trans; [apply R_nonpos; exact E|exact Hz].
Qed.

Lemma arraySort_sorted : forall l, StronglySorted R (arraySort cmp l).
Proof.
  induction l as [|x l IH]; simpl; [constructor|].
  now apply arrayInsert_sorted.
Qed.

Lemma arrayInsert_head : forall x l,
  match l with [] => True | y :: _ => cmp x y <= 0 end ->
  arrayInsert cmp x l = x :: l.
Proof.
  intros x [|y l] H; simpl; [reflexivity|].
  destruct (0 <? cmp x y) eqn:E; [|reflexivity].
  apply Z.ltb_lt in E. lia.
Qed.

(** An insertion behind a prefix all of whose members the new item
    follows. *)
Lemma arrayInsert_app : forall x l1 l2,
  match l2 with [] => True | y :: _ => cmp x y <= 0 end ->
  arrayInsert cmp x (l1 ++ l2)%list = (arrayInsert cmp x l1 ++ l2)%list.
Proof.
  intros x l1 l2 H. induction l1 as [|y l1 IH]; simpl.
  - now apply arrayInsert_head.
  - destruct (0 <? cmp x y); [now rewrite IH|reflexivity].
Qed.

Lemma arrayInsert_behind : forall x l,
  Forall (fun y => 0 < cmp x y) l -> arrayInsert cmp x l = (l ++ [x])%list.
Proof.
  intros x l H. induction H as [|y l Hy _ IH]; simpl; [reflexivity|].
  apply Z.ltb_lt in Hy. now rewrite Hy, IH.
Qed.

(** The members of a class keep their order when no member follows
    another member. *)
Lemma arrayInsert_filter : forall (p : A -> bool) x l,
  (forall y, In y l -> p x = true -> p y = true -> cmp x y <= 0) ->
  filter p (arrayInsert cmp x l) = filter p (x :: l).
Proof.
  intros p x l. induction l as [|y l IH]; intros H; [reflexivity|].
  cbn [arrayInsert].
  destruct (0 <? cmp x y) eqn:E; [|reflexivity].
  apply Z.ltb_lt in E.
  cbn [filter]. rewrite IH by (intros z Hz; apply H; now right).
  cbn [filter].
  destruct (p x) eqn:Ex; [|reflexivity].
  destruct (p y) eqn:Ey; [|reflexivity].
  specialize (H y (or_introl eq_refl) eq_refl Ey). lia.
Qed.

Lemma arraySort_filter : forall (p : A -> bool) l,
  (forall x y, p x = true -> p y = true -> cmp x y <= 0) ->
  filter p (arraySort cmp l) = filter p l.
Proof.
  intros p l H. induction l as [|x l IH]; [reflexivity|].
  cbn [arraySort fold_right].
  change (fold_right (arrayInsert cmp) [] l) with (arraySort cmp l).
  rewrite arrayInsert_filter by (intros y _; apply H).
  cbn [filter]. now rewrite IH.
Qed.

Lemma arraySort_fixed : forall l,
  StronglySorted (fun a b => cmp a b <= 0) l -> arraySort cmp l = l.
Proof.
  intros l Hs. induction Hs as [|x l Hs IH Hall]; [reflexivity|].
  cbn [arraySort fold_right].
  change (fold_right (arrayInsert cmp) [] l) with (arraySort cmp l).
  rewrite IH. apply arrayInsert_head.
  destruct l as [|y l]; [exact I|]. now inversion Hall.
Qed.

End Sorting.

Section SortByDate.

Variable T : Type.
Variable getDate : T -> option Z.

Lemma compareDates_undated_left : forall direction a b,
  isUndated getDate a = true ->
  compareDates getDate direction a b
  = if isUndated getDate b then 0 else 1.
Proof.
  intros direction a b Ha. unfold compareDates, isUndated in *.
  rewrite Ha. cbn [andb]. now destruct (falsy (getDate b)).
Qed.

Lemma compareDates_undated_right : forall direction a b,
  isUndated getDate a = false -> isUndated getDate b = true ->
  compareDates getDate direction a b = -1.
Proof.
  intros direction a b Ha Hb. unfold compareDates, isUndated in *.
  now rewrite Ha, Hb.
Qed.

Lemma compareDates_dated : forall direction a b,
  isUndated getDate a = false -> isUndated getDate b = false ->
  exists x y, getDate a = Some x /\ getDate b = Some y
              /\ compareDates getDate direction a b
                 = match direction with asc => x - y | desc => y - x end.
Proof.
  intros direction a b Ha Hb. unfold compareDates, isUndated in *.
  rewrite Ha, Hb. cbn [andb].
  destruct (getDate a) as [x|]; [|discriminate].
  destruct (getDate b) as [y|]; [|discriminate].
  now exists x, y.
Qed.

Lemma inOrder_iff : forall direction a b,
  inOrder getDate direction a b <-> compareDates getDate direction a b <= 0.
Proof.
  intros direction a b. unfold inOrder.
  destruct (isUndated getDate a) eqn:Ea.
  - rewrite (compareDates_undated_left direction a b Ea).
    destruct (isUndated getDate b); split; (lia || tauto).
  - destruct (isUndated getDate b) eqn:Eb.
    + rewrite (compareDates_undated_right direction a b Ea Eb).
      split; [lia|tauto].
    + destruct (compareDates_dated direction a b Ea Eb)
        as (x & y & Hx & Hy & ->).
      rewrite Hx, Hy. destruct direction; lia.
Qed.

Lemma inOrder_trans : forall direction a b c,
  inOrder getDate direction a b -> inOrder getDate direction b c ->
  inOrder getDate direction a c.
Proof.
  intros direction a b c. unfold inOrder, isUndated.
  destruct (getDate a) as [x|], (getDate b) as [y|], (getDate c) as [z|];
    cbn [falsy]; try tauto;
    repeat match goal with |- context [?u =? 0] => destruct (u =? 0) end;
    try tauto; destruct direction; lia.
Qed.

Lemma inOrder_pos : forall direction a b,
  0 < compareDates getDate direction a b -> inOrder getDate direction b a.
Proof.
  intros direction a b H. unfold inOrder.
  destruct (isUndated getDate a) eqn:Ea; [exact I|].
  destruct (isUndated getDate b) eqn:Eb.
  - rewrite (compareDates_undated_right direction a b Ea Eb) in H. lia.
  - destruct (compareDates_dated direction a b Ea Eb)
      as (x & y & Hx & Hy & E).
    rewrite E in H. rewrite Hx, Hy. destruct direction; lia.
Qed.

Lemma sortByDate_sorted : forall items direction,
  StronglySorted (inOrder getDate direction)
    (sortByDate getDate items direction).
Proof.
  intros items direction. apply arraySort_sorted.
  - apply inOrder_trans.
  - apply inOrder_pos.
  - intros a b. apply inOrder_iff.
Qed.

(** X3: [sortByDate] returns a rearrangement of the items in which every
    item without a date (absent, or 0) stands after every item with one,
    and the dates do not decrease from any position to a later one in
    direction "asc", and do not increase in direction "desc". *)
Theorem X3_sorted_by_date : forall items direction,
  Permutation items (sortByDate getDate items direction)
  /\ StronglySorted (inOrder getDate direction)
       (sortByDate getDate items direction).
Proof.
  intros items direction. split.
  - apply arraySort_perm.
  - apply sortByDate_sorted.
Qed.

(** X4: in both directions the items without a date (absent, or 0) come
    last, in the order they had in [items]; before them stand the items
    with a date, sorted. *)
Theorem X4_undated_last : forall items direction,
  sortByDate getDate items direction
  = (sortByDate getDate (filter (isDated getDate) items) direction
     ++ filter (isUndated getDate) items)%list.
Proof.
  intros items direction. unfold sortByDate.
  induction items as [|x items IH]; [reflexivity|].
  cbn [arraySort fold_right filter].
  change (fold_right (arrayInsert ?c) [] ?l) with (arraySort c l).
  rewrite IH.
  assert (Hd : isDated getDate x = negb (isUndated getDate x)) by reflexivity.
  rewrite Hd.
  destruct (isUndated getDate x) eqn:Ex; cbn [negb].
  - rewrite arrayInsert_app.
    + rewrite arrayInsert_behind; [now rewrite <- app_assoc|].
      apply Forall_forall. intros y Hy.
      apply (Permutation_in _ (Permutation_sym (arraySort_perm _ _ _))) in Hy.
      apply filter_In in Hy. destruct Hy as [_ Hy].
      rewrite (compareDates_undated_left direction x y Ex).
      unfold isDated in Hy. unfold isUndated.
      destruct (falsy (getDate y)); [discriminate|lia].
    + destruct (filter (isUndated getDate) items) as [|y l] eqn:E; [exact I|].
      assert (Hy : isUndated getDate y = true).
      { assert (Hin : In y (filter (isUndated getDate) items))
          by (rewrite E; now left).
        apply filter_In in Hin. tauto. }
      rewrite (compareDates_undated_left direction x y Ex), Hy. lia.
  - cbn [arraySort fold_right].
    change (fold_right (arrayInsert ?c) [] ?l) with (arraySort c l).
    apply arrayInsert_app.
    destruct (filter (isUndated getDate) items) as [|y l] eqn:E; [exact I|].
    assert (Hy : isUndated getDate y = true).
    { assert (Hin : In y (filter (isUndated getDate) items))
        by (rewrite E; now left).
      apply filter_In in Hin. tauto. }
    rewrite (compareDates_undated_right direction x y Ex Hy). lia.
Qed.

(** X5: [sortByDate] is stable: the items of one timestamp stand in the
    result in the order they had in [items]. *)
Theorem X5_equal_dates_keep_order : forall items direction d,
  filter (hasDate getDate d) (sortByDate getDate items direction)
  = filter (hasDate getDate d) items.
Proof.
  intros items direction d. unfold sortByDate.
  apply arraySort_filter. intros x y Hx Hy.
  unfold hasDate in Hx, Hy. unfold compareDates.
  destruct (getDate x) as [dx|]; [|discriminate].
  destruct (getDate y) as [dy|]; [|discriminate].
  apply Z.eqb_eq in Hx, Hy. subst dx dy.
  cbn [falsy]. destruct (d =? 0); cbn [andb]; [lia|].
  destruct direction; lia.
Qed.

(** X6: sorting a sorted array again changes nothing. *)
Theorem X6_sort_twice : forall items direction,
  sortByDate getDate (sortByDate getDate items direction) direction
  = sortByDate getDate items direction.
Proof.
  intros items direction. unfold sortByDate at 1.
  apply arraySort_fixed.
  eapply StronglySorted_ind with (P := fun l => StronglySorted _ l).
  - constructor.
  - intros a l _ IH Hall. constructor; [exact IH|].
    eapply Forall_impl; [|exact Hall].
    intros b Hb. apply inOrder_iff. exact Hb.
  - apply sortByDate_sorted.
Qed.

End SortByDate.


(** ** groupByDate *)

Section GroupByDate.

Variable T : Type.
Variable getDate : T -> option Z.
Variable format : Z -> string -> string.
Variable formatStr : string.

Lemma ownProperty_push : forall k item (g : list (string * list T)) k',
  ownProperty k' (pushItem k item g)
  = if String.eqb k k'
    then option_map (fun l => (l ++ [item])%list) (ownProperty k g)
    else ownProperty k' g.
Proof.
  intros k item g k'. induction g as [|[k0 l0] g IH]; cbn [pushItem ownProperty].
  - now destruct (String.eqb k k').
  - destruct (String.eqb k0 k) eqn:E0; cbn [ownProperty].
    + apply String.eqb_eq in E0. subst k0.
      destruct (String.eqb k k'); reflexivity.
    + destruct (String.eqb k0 k') eqn:E1; [|exact IH].
      apply String.eqb_eq in E1. subst k0.
      now rewrite String.eqb_sym, E0.
Qed.

Lemma ownProperty_app : forall k item (g : list (string * list T)) k',
  ownProperty k' (g ++ [(k, [item])])%list
  = match ownProperty k' g with
    | Some l => Some l
    | None => if String.eqb k k' then Some [item] else None
    end.
Proof.
  intros k item g k'. induction g as [|[k0 l0] g IH]; cbn [app ownProperty].
  - reflexivity.
  - destruct (String.eqb k0 k'); [reflexivity|exact IH].
Qed.

Lemma ownProperty_none : forall k (g : list (string * list T)),
  ownProperty k g = None <-> ~ In k (List.map fst g).
Proof.
  intros k g. induction g as [|[k0 l0] g IH]; cbn [ownProperty List.map fst In].
  - tauto.
  - destruct (String.eqb k0 k) eqn:E.
    + apply String.eqb_eq in E. split; [discriminate|tauto].
    + apply String.eqb_neq in E. tauto.
Qed.

Lemma ownProperty_In : forall k l (g : list (string * list T)),
  NoDup (List.map fst g) -> In (k, l) g -> ownProperty k g = Some l.
Proof.
  intros k l g. induction g as [|[k0 l0] g IH]; intros Hnd Hin; [destruct Hin|].
  cbn [ownProperty]. inversion Hnd as [|? ? Hk0 Hnd']; subst.
  destruct Hin as [E|Hin].
  - injection E as -> ->. now rewrite String.eqb_refl.
  - destruct (String.eqb k0 k) eqn:Ek; [|now apply IH].
    apply String.eqb_eq in Ek. subst k0. elim Hk0.
    change k with (fst (k, l)). now apply in_map.
Qed.

Lemma pushItem_keys : forall k item (g : list (string * list T)),
  List.map fst (pushItem k item g) = List.map fst g.
Proof.
  intros k item g. induction g as [|[k0 l0] g IH]; [reflexivity|].
  cbn [pushItem]. destruct (String.eqb k0 k); cbn [List.map fst]; [reflexivity|].
  now rewrite IH.
Qed.

Lemma pushItem_members : forall k item (g : list (string * list T)),
  ownProperty k g <> None ->
  Permutation (members (pushItem k item g)) (members g ++ [item])%list.
Proof.
  intros k item g. unfold members.
  induction g as [|[k0 l0] g IH]; cbn [pushItem ownProperty]; [congruence|].
  destruct (String.eqb k0 k); intros H; cbn [List.map snd List.concat].
  - rewrite <- !app_assoc. apply Permutation_app_head.
    apply Permutation_app_comm.
  - rewrite <- app_assoc. apply Permutation_app_head. now apply IH.
Qed.

Lemma withKey_app : forall k l1 l2,
  withKey getDate format formatStr k (l1 ++ l2)%list
  = (withKey getDate format formatStr k l1
     ++ withKey getDate format formatStr k l2)%list.
Proof.
  intros k l1 l2. unfold withKey. apply filter_app.
Qed.

Lemma unlessEmpty_app : forall (l : list T) item,
  unlessEmpty (l ++ [item])%list
  = Some (match unlessEmpty l with Some l' => l' | None => [] end ++ [item])%list.
Proof.
  intros [|x l] item; reflexivity.
Qed.

Lemma grouped_step : forall seen g item,
  grouped getDate format formatStr seen g ->
  inherited (keyOf getDate format formatStr item) = false ->
  exists g', addItem (keyOf getDate format formatStr item) item g = Some g'
             /\ grouped getDate format formatStr (seen ++ [item])%list g'.
Proof.
  intros seen g item (Hown & Hnd & Hperm) Hinh. unfold addItem.
  destruct (ownProperty (keyOf getDate format formatStr item) g) as [l|] eqn:E.
  - eexists. split; [reflexivity|]. split; [|split].
    + intros k. rewrite ownProperty_push, withKey_app.
      unfold withKey at 2. cbn [filter].
      destruct (String.eqb (keyOf getDate format formatStr item) k) eqn:Ek.
      * apply String.eqb_eq in Ek. subst k.
        rewrite unlessEmpty_app, <- Hown, E. reflexivity.
      * rewrite app_nil_r. apply Hown.
    + now rewrite pushItem_keys.
    + eapply perm_trans; [apply pushItem_members; congruence|].
      now apply Permutation_app_tail.
  - rewrite Hinh. eexists. split; [reflexivity|]. split; [|split].
    + intros k. rewrite ownProperty_app, withKey_app.
      unfold withKey at 2. cbn [filter].
      rewrite Hown.
      destruct (String.eqb (keyOf getDate format formatStr item) k) eqn:Ek.
      * apply String.eqb_eq in Ek. subst k.
        rewrite Hown in E.
        destruct (withKey getDate format formatStr
            (keyOf getDate format formatStr item) seen);
          [reflexivity|discriminate].
      * rewrite app_nil_r.
        now destruct (unlessEmpty (withKey getDate format formatStr k seen)).
    + rewrite map_app. cbn [List.map fst].
      apply NoDup_app; [exact Hnd|repeat constructor; simpl; tauto|].
      intros k Hk [<-|[]]. now apply ownProperty_none in E.
    + unfold members in *. rewrite map_app, concat_app.
      cbn [List.map snd List.concat]. rewrite app_nil_r.
      now apply Permutation_app_tail.
Qed.

Lemma loop_thrown : forall items, groupLoop getDate format formatStr
    items None = None.
Proof.
  induction items as [|item items IH]; [reflexivity|exact IH].
Qed.

Lemma loop_grouped : forall items seen g,
  grouped getDate format formatStr seen g ->
  Forall (fun item => inherited
      (keyOf getDate format formatStr item) = false) items ->
  exists g', groupLoop getDate format formatStr items (Some g) = Some g'
             /\ grouped getDate format formatStr (seen ++ items)%list g'.
Proof.
  induction items as [|item items IH]; intros seen g Hg Hall.
  - exists g. rewrite app_nil_r. now split.
  - inversion Hall as [|? ? Hitem Hrest]; subst.
    destruct (grouped_step seen g item Hg Hitem) as (g1 & E1 & Hg1).
    destruct (IH _ _ Hg1 Hrest) as (g' & E' & Hg').
    exists g'. split.
    + cbn [groupLoop fold_left]. rewrite E1. exact E'.
    + now rewrite <- app_assoc in Hg'.
Qed.

Lemma grouped_no_inherited : forall seen g k,
  grouped getDate format formatStr seen g ->
  Forall (fun item => inherited
      (keyOf getDate format formatStr item) = false) seen ->
  inherited k = true -> ownProperty k g = None.
Proof.
  intros seen g k (Hown & _) Hall Hk. rewrite Hown.
  destruct (withKey getDate format formatStr k seen) as [|x l] eqn:E;
    [reflexivity|].
  assert (Hin : In x (withKey getDate format formatStr k seen))
    by (rewrite E; now left).
  unfold withKey in Hin. apply filter_In in Hin. destruct Hin as [Hin Hx].
  apply String.eqb_eq in Hx. rewrite Forall_forall in Hall.
  specialize (Hall x Hin). cbv beta in Hall. congruence.
Qed.

Lemma loop_throws : forall items seen g,
  grouped getDate format formatStr seen g ->
  Forall (fun item => inherited
      (keyOf getDate format formatStr item) = false) seen ->
  Exists (fun item => inherited
      (keyOf getDate format formatStr item) = true) items ->
  groupLoop getDate format formatStr items (Some g) = None.
Proof.
  induction items as [|item items IH]; intros seen g Hg Hseen Hex;
    [inversion Hex|].
  cbn [groupLoop fold_left].
  destruct (inherited (keyOf getDate format formatStr item)) eqn:Hitem.
  - unfold addItem.
    rewrite (grouped_no_inherited seen g
        (keyOf getDate format formatStr item) Hg Hseen Hitem), Hitem.
    apply loop_thrown.
  - destruct (grouped_step seen g item Hg Hitem) as (g1 & E1 & Hg1).
    rewrite E1. apply (IH (seen ++ [item])%list g1 Hg1).
    + apply Forall_app. split; [exact Hseen|now repeat constructor].
    + inversion Hex as [? ? H|? ? H]; subst; [congruence|exact H].
Qed.

Lemma grouped_start : grouped getDate format formatStr [] [].
Proof.
  split; [reflexivity|]. split; constructor.
Qed.

Lemma safe_or_not : forall items,
  Forall
    (fun item => inherited (keyOf getDate format formatStr item) = false)
    items
  \/ Exists
       (fun item => inherited (keyOf getDate format formatStr item) = true)
       items.
Proof.
  induction items as [|item items [IH|IH]].
  - left. constructor.
  - destruct (inherited (keyOf getDate format formatStr item)) eqn:E.
    + right. now constructor.
    + left. now constructor.
  - right. now constructor 2.
Qed.

Lemma groupByDate_grouped : forall items g,
  groupByDate getDate format items formatStr = Some g ->
  grouped getDate format formatStr items g.
Proof.
  intros items g E. destruct (safe_or_not items) as [Hall|Hex].
  - destruct (loop_grouped items [] [] grouped_start Hall) as (g' & E' & Hg').
    unfold groupByDate in E. unfold groupLoop in E'.
    rewrite E in E'. injection E' as <-. exact Hg'.
  - pose proof (loop_throws items [] [] grouped_start (Forall_nil _) Hex) as H.
    unfold groupByDate in E. unfold groupLoop in H. congruence.
Qed.


(** X8: in the object [groupByDate] returns, the property of a key holds
    the items of that key, in the order they have in [items]; a key no
    item has is missing.  The items without a date (absent, or 0) have the
    key "No date". *)
Theorem X8_group_lookup : forall items g,
  groupByDate getDate format items formatStr = Some g ->
  (forall k, ownProperty k g
             = unlessEmpty (withKey getDate format formatStr k items))
  /\ (forall item, isUndated getDate item = true ->
                   keyOf getDate format formatStr item = "No date").
Proof.
  intros items g E. split.
  - apply (groupByDate_grouped items g E).
  - intros item H. unfold keyOf, isUndated in *.
    destruct (getDate item) as [d|]; [|reflexivity]. now rewrite H.
Qed.

(** X9: the groups are a partition of the items: no key stands twice, no
    group is empty, and the groups together hold the items, each as often
    as [items] does. *)
Theorem X9_groups_partition : forall items g,
  groupByDate getDate format items formatStr = Some g ->
  NoDup (List.map fst g)
  /\ Forall (fun group => snd group <> []) g
  /\ Permutation (members g) items.
Proof.
  intros items g E.
  destruct (groupByDate_grouped items g E) as (Hown & Hnd & Hperm).
  split; [exact Hnd|]. split; [|exact Hperm].
  apply Forall_forall. intros [k l] Hin. cbn [snd].
  pose proof (ownProperty_In k l g Hnd Hin) as E'.
  rewrite Hown in E'. intros ->.
  destruct (withKey getDate format formatStr k items); discriminate.
Qed.

End GroupByDate.

(** Four items by the day number of their date: two of one day, one
    without a date and one of date 0. *)
Lemma X8_witness :
  groupByDate (fun item : option Z => item) (fun t _ => ofZ (dayOf t))
    [Some 86400000; None; Some 0; Some 86400001] "yyyy-MM-dd"
  = Some [("1", [Some 86400000; Some 86400001]); ("No date", [None; Some 0])]
  /\ ownProperty "No date"
       [("1", [Some 86400000; Some 86400001]); ("No date", [None; Some 0])]
     = Some [None; Some 0].
Proof.
  assert (E : groupByDate (fun item : option Z => item)
                (fun t _ => ofZ (dayOf t))
                [Some 86400000; None; Some 0; Some 86400001] "yyyy-MM-dd"
              = Some [("1", [Some 86400000; Some 86400001]);
                      ("No date", [None; Some 0])])
    by reflexivity.
  split; [exact E|].
  exact (proj1 (X8_group_lookup _ _ _ _ _ _ E) "No date").
Defined.

Lemma X9_witness :
  groupByDate (fun item : option Z => item) (fun t _ => ofZ (dayOf t))
    [Some 86400000; None; Some 0; Some 86400001] "yyyy-MM-dd"
  = Some [("1", [Some 86400000; Some 86400001]); ("No date", [None; Some 0])]
  /\ Permutation
       (members
          [("1", [Some 86400000; Some 86400001]); ("No date", [None; Some 0])])
       [Some 86400000; None; Some 0; Some 86400001].
Proof.
  assert (E : groupByDate (fun item : option Z => item)
                (fun t _ => ofZ (dayOf t))
                [Some 86400000; None; Some 0; Some 86400001] "yyyy-MM-dd"
              = Some [("1", [Some 86400000; Some 86400001]);
                      ("No date", [None; Some 0])])
    by reflexivity.
  split; [exact E|].
  exact (proj2 (proj2 (X9_groups_partition _ _ _ _ _ _ E))).
Defined.


(** ** What a result of the parser keeps *)

Lemma extractTime_traced : forall trimmed,
  Traced (extractTime trimmed initial)
  /\ parsedDate (extractTime trimmed initial) = None.
Proof.
  intros trimmed. unfold Traced, extractTime.
  destruct (firstMatch timePatterns trimmed) as [[p m]|];
    [|cbn; repeat split; reflexivity].
  destruct (timeHours m) as [h|]; [|cbn; repeat split; reflexivity].
  destruct (timeMinutes m) as [mi|]; [|cbn; repeat split; reflexivity].
  destruct (timeInRange (Some h) (Some mi)) eqn:E;
    [|cbn; repeat split; reflexivity].
  unfold timeInRange in E.
  apply andb_true_iff in E. destruct E as [E E4].
  apply andb_true_iff in E. destruct E as [E E3].
  apply andb_true_iff in E. destruct E as [E1 E2].
  apply Z.leb_le in E1, E2, E3, E4.
  cbn. repeat split; try lia; try reflexivity. discriminate.
Qed.

Lemma resolveRelative_traced : forall now text st,
  Traced st -> parsedDate st = None ->
  Traced (resolveRelative now text st).
Proof.
  intros now text st Ht Hp. unfold resolveRelative.
  destruct (firstRelative relativePatterns text) as [[row m]|] eqn:E;
    [|exact Ht].
  apply firstRelative_In in E. destruct E as [Hin _].
  destruct Ht as (Htime & Hmod & Hdate). rewrite Hp in Hdate.
  destruct Hdate as [Hc Hcomp].
  assert (Hw : In (rpConfidence row) [0.9; 0.8; 0.85; 0.7]%float
               /\ (rpHandler row <> None \/ rpDays row <> None)).
  { unfold relativePatterns in Hin. simpl in Hin.
    repeat (destruct Hin as [<-|Hin];
            [split; [simpl; tauto|simpl; (left; discriminate) || (right; discriminate)]|]).
    destruct Hin. }
  destruct Hw as [Hw Hset].
  unfold Traced. cbn [extractedTime components parsedDate confidence].
  split; [exact Htime|]. split; [exact Hmod|].
  assert (Hsome : exists d,
            match rpHandler row with
            | Some handler => Some (handler now m)
            | None => match rpDays row with
                      | Some days => Some (addDays now days)
                      | None => parsedDate st
                      end
            end = Some d).
  { destruct (rpHandler row); [eexists; reflexivity|].
    destruct (rpDays row); [eexists; reflexivity|].
    destruct Hset as [Hset|Hset]; now elim Hset. }
  destruct Hsome as [d ->].
  exists [0.9; 0.8; 0.85; 0.7]%float, (rpConfidence row).
  unfold dateComponents, timeShare in *.
  cbn [ParsedComponents.setRelative ParsedComponents.relative
       ParsedComponents.weekday ParsedComponents.date ParsedComponents.time
       isSome].
  injection Hcomp as _ Hwd Hdt. rewrite Hwd, Hdt, Hc.
  split; [simpl; tauto|]. split; [exact Hw|reflexivity].
Qed.

Lemma resolveWeekday_traced : forall now text st,
  Traced st -> Traced (resolveWeekday now text st).
Proof.
  intros now text st Ht. unfold resolveWeekday.
  destruct (parsedDate st) eqn:Hp; [exact Ht|].
  destruct (exec weekdayPattern text) as [m|]; [|exact Ht].
  destruct (option_map toLowerCase (group 2 m)) as [name|]; [|exact Ht].
  destruct (indexOf name Parser.weekdays) as [i|]; [|exact Ht].
  destruct Ht as (Htime & Hmod & Hdate). rewrite Hp in Hdate.
  destruct Hdate as [Hc Hcomp].
  unfold Traced. cbn [extractedTime components parsedDate confidence].
  split; [exact Htime|]. split; [exact Hmod|].
  exists [0.85; 0.8]%float, (if truthy (group 1 m) then 0.85 else 0.8)%float.
  unfold dateComponents, timeShare in *.
  cbn [ParsedComponents.setWeekday ParsedComponents.relative
       ParsedComponents.weekday ParsedComponents.date ParsedComponents.time
       isSome].
  injection Hcomp as Hrel _ Hdt. rewrite Hrel, Hdt, Hc.
  split; [simpl; tauto|].
  split; [destruct (truthy (group 1 m)); simpl; tauto|reflexivity].
Qed.

Lemma resolveMonthDay_traced : forall now text st,
  Traced st -> Traced (resolveMonthDay now text st).
Proof.
  intros now text st Ht. unfold resolveMonthDay.
  destruct (parsedDate st) eqn:Hp; [exact Ht|].
  destruct (firstMatch monthPatterns text) as [[pat m]|]; [|exact Ht].
  destruct (monthAndDay pat m) as [[month|] [day|]]; try exact Ht.
  destruct (monthDayInRange (Some month) (Some day)); [|exact Ht].
  destruct Ht as (Htime & Hmod & Hdate). rewrite Hp in Hdate.
  destruct Hdate as [Hc Hcomp].
  unfold Traced. cbn [extractedTime components parsedDate confidence].
  split; [exact Htime|]. split; [exact Hmod|].
  exists [0.75]%float, 0.75%float.
  unfold dateComponents, timeShare in *.
  cbn [ParsedComponents.setDate ParsedComponents.relative
       ParsedComponents.weekday ParsedComponents.date ParsedComponents.time
       isSome].
  injection Hcomp as Hrel Hwd _. rewrite Hrel, Hwd, Hc.
  split; [simpl; tauto|]. split; [simpl; tauto|reflexivity].
Qed.

Lemma chain_traced : forall now trimmed, Traced (chain now trimmed).
Proof.
  intros now trimmed. unfold chain.
  destruct (extractTime_traced trimmed) as [Ht Hp].
  apply resolveMonthDay_traced, resolveWeekday_traced.
  now apply resolveRelative_traced.
Qed.

(** A date set by a resolver of the library comes with its component. *)
Lemma chain_marked : forall now trimmed,
  parsedDate (chain now trimmed) = None
  \/ dateComponents (components (chain now trimmed)) <> (false, false, false).
Proof.
  intros now trimmed. unfold chain.
  destruct (extractTime_traced trimmed) as [_ Hp].
  set (st := extractTime trimmed initial) in *.
  set (text := inputWithoutTime trimmed st).
  assert (H1 : parsedDate (resolveRelative now text st) = None
               \/ dateComponents (components (resolveRelative now text st))
                  <> (false, false, false)).
  { unfold resolveRelative.
    destruct (firstRelative relativePatterns text) as [[row m]|];
      [right; discriminate|now left]. }
  set (st1 := resolveRelative now text st) in *.
  assert (H2 : parsedDate (resolveWeekday now text st1) = None
               \/ dateComponents (components (resolveWeekday now text st1))
                  <> (false, false, false)).
  { unfold resolveWeekday.
    destruct (parsedDate st1) eqn:Hp1; [destruct H1; [congruence|now right]|].
    destruct (exec weekdayPattern text) as [m|]; [|now left].
    destruct (option_map toLowerCase (group 2 m)) as [name|]; [|now left].
    destruct (indexOf name Parser.weekdays) as [i|]; [|now left].
    right. unfold dateComponents. cbn. destruct (isSome _); discriminate. }
  set (st2 := resolveWeekday now text st1) in *.
  unfold resolveMonthDay.
  destruct (parsedDate st2) eqn:Hp2; [destruct H2; [congruence|now right]|].
  destruct (firstMatch monthPatterns text) as [[pat m]|]; [|now left].
  destruct (monthAndDay pat m) as [[month|] [day|]]; try now left.
  destruct (monthDayInRange (Some month) (Some day)); [|now left].
  right. unfold dateComponents. cbn.
  destruct (isSome _); destruct (isSome _); discriminate.
Qed.

Lemma chain_extractedTime : forall now trimmed,
  extractedTime (chain now trimmed)
  = extractedTime (extractTime trimmed initial).
Proof.
  intros now trimmed. unfold chain.
  set (st := extractTime trimmed initial).
  set (text := inputWithoutTime trimmed st).
  assert (H1 : extractedTime (resolveRelative now text st) = extractedTime st).
  { unfold resolveRelative.
    now destruct (firstRelative relativePatterns text) as [[row m]|]. }
  set (st1 := resolveRelative now text st) in *.
  assert (H2 : extractedTime (resolveWeekday now text st1) = extractedTime st1).
  { unfold resolveWeekday. destruct (parsedDate st1); [reflexivity|].
    destruct (exec weekdayPattern text) as [m|]; [|reflexivity].
    destruct (option_map toLowerCase (group 2 m)) as [name|]; [|reflexivity].
    now destruct (indexOf name Parser.weekdays). }
  set (st2 := resolveWeekday now text st1) in *.
  rewrite <- H1, <- H2. unfold resolveMonthDay.
  destruct (parsedDate st2); [reflexivity|].
  destruct (firstMatch monthPatterns text) as [[pat m]|]; [|reflexivity].
  destruct (monthAndDay pat m) as [[month|] [day|]]; try reflexivity.
  now destruct (monthDayInRange (Some month) (Some day)).
Qed.

(** The hour and the minute of a date a time of the day was applied to;
    the day, the seconds and the milliseconds stay. *)
Lemma applied_time_fields : forall d h mi t,
  0 <= h <= 23 -> 0 <= mi <= 59 ->
  setHours (setMinutes d mi) h = ValidDate t ->
  getHours t = h /\ getMinutes t = mi
  /\ exists t0, d = ValidDate t0 /\ dayOf t = dayOf t0
                /\ t mod msPerMinute = t0 mod msPerMinute.
Proof.
  intros d h mi t Hh Hmi H.
  destruct d as [t0|]; [|discriminate].
  unfold setMinutes in H.
  destruct (timeClip _) as [t1|] eqn:E1 in H; [|discriminate].
  unfold setHours in H.
  unfold timeClip in E1, H.
  destruct (Z.abs _ <=? maxTime) in E1; [|discriminate].
  destruct (Z.abs _ <=? maxTime) in H; [|discriminate].
  injection E1 as E1. injection H as H.
  split; [|split; [|exists t0; split; [reflexivity|]]].
  - rewrite <- H. apply setHours_bounds. exact Hh.
  - subst t t1.
    unfold getMinutes, getHours, makeDate, dayOf, msPerDay, msPerHour,
      msPerMinute.
    Z.div_mod_to_equations. lia.
  - subst t t1.
    unfold getHours, makeDate, dayOf, msPerDay, msPerHour, msPerMinute.
    Z.div_mod_to_equations. lia.
Qed.

Lemma toLowerCase_empty : forall s, toLowerCase s = "" -> s = "".
Proof.
  intros [|c s]; [reflexivity|discriminate].
Qed.

Section Results.

Variable dateParse : string -> Date.

Lemma resolve_chain : forall now input,
  resolve dateParse now input
  = resolveFallback dateParse input (chain now (normalForm input)).
Proof. reflexivity. Qed.

Lemma resolveFallback_traced : forall input st,
  Traced st -> Traced (resolveFallback dateParse input st).
Proof.
  intros input st Ht. unfold resolveFallback.
  destruct (parsedDate st) as [d|] eqn:Hp; [exact Ht|].
  destruct (isValid (dateParse input)); [|exact Ht].
  destruct Ht as (Htime & Hmod & Hdate). rewrite Hp in Hdate.
  destruct Hdate as [Hc Hcomp].
  unfold Traced. cbn [extractedTime components parsedDate confidence].
  split; [exact Htime|]. split; [exact Hmod|].
  exists [0.5]%float, 0.5%float. rewrite Hcomp, Hc.
  split; [simpl; tauto|]. split; [simpl; tauto|reflexivity].
Qed.

Lemma resolveFallback_none : forall input st,
  parsedDate (resolveFallback dateParse input st) = None ->
  isValid (dateParse input) = false.
Proof.
  intros input st. unfold resolveFallback.
  destruct (parsedDate st) eqn:Hp; [congruence|].
  destruct (isValid (dateParse input)); [discriminate|reflexivity].
Qed.

Lemma resolveFallback_invalid : forall input st,
  isValid (dateParse input) = false ->
  resolveFallback dateParse input st = st.
Proof.
  intros input st Hv. unfold resolveFallback. rewrite Hv.
  now destruct (parsedDate st).
Qed.

Lemma resolve_traced : forall now input, Traced (resolve dateParse now input).
Proof.
  intros now input. rewrite resolve_chain.
  apply resolveFallback_traced, chain_traced.
Qed.

Lemma share_weights : forall c ws w,
  In (dateComponents c, ws) resolverWeights -> In w ws ->
  PrimFloat.ltb (timeShare c + w) 0.3 = false.
Proof.
  intros c ws w Hws Hw.
  assert (Hall : forallb
                   (fun t =>
                      forallb
                        (fun row =>
                           forallb
                             (fun w => negb (PrimFloat.ltb (t + w) 0.3))
                             (snd row))
                        resolverWeights)
                   [0; 0 + 0.3]%float = true)
    by (vm_compute; reflexivity).
  rewrite forallb_forall in Hall.
  assert (Hc : In (timeShare c) [0; 0 + 0.3]%float).
  { unfold timeShare. destruct (ParsedComponents.time c); simpl; tauto. }
  specialize (Hall _ Hc). rewrite forallb_forall in Hall.
  specialize (Hall _ Hws). rewrite forallb_forall in Hall.
  specialize (Hall _ Hw). now apply negb_true_iff in Hall.
Qed.

Lemma finish_traced : forall input st,
  Traced st ->
  finish input st
  = match parsedDate st with
    | Some d =>
        Some (DateParseResult.mk (applyTime d st)
                (Math_min (confidence st) 1.0) input (components st))
    | None => None
    end.
Proof.
  intros input st (_ & _ & Hdate). unfold finish.
  destruct (parsedDate st) as [d|]; [|reflexivity].
  destruct Hdate as (ws & w & Hws & Hw & ->).
  now rewrite (share_weights _ ws w Hws Hw).
Qed.

Lemma parse_traced : forall now input,
  parseSmartDateString dateParse now input
  = if String.eqb (trim input) "" then None
    else match parsedDate (resolve dateParse now input) with
         | Some d =>
             Some (DateParseResult.mk
                     (applyTime d (resolve dateParse now input))
                     (Math_min (confidence (resolve dateParse now input)) 1.0)
                     input (components (resolve dateParse now input)))
         | None => None
         end.
Proof.
  intros now input. rewrite parse_unfold.
  destruct (String.eqb (trim input) ""); [reflexivity|].
  apply finish_traced, resolve_traced.
Qed.

(** X10: the parser answers null only on a blank input, or when no
    resolver found a date: it never drops a date that was resolved for a
    confidence below 0.3. *)
Theorem X10_every_resolved_date_is_returned : forall now input,
  parseSmartDateString dateParse now input = None
  <-> trim input = "" \/ parsedDate (resolve dateParse now input) = None.
Proof.
  intros now input. rewrite parse_traced.
  destruct (String.eqb (trim input) "") eqn:E.
  - apply String.eqb_eq in E. tauto.
  - apply String.eqb_neq in E.
    destruct (parsedDate (resolve dateParse now input)).
    + split; [discriminate|]. intros [H|H]; [contradiction|discriminate].
    + tauto.
Qed.

(** X11: every input that is not blank and that [new Date(text)] reads as
    a valid date has a result. *)
Theorem X11_host_dates_are_accepted : forall now input,
  trim input <> "" -> isValid (dateParse input) = true ->
  parseSmartDateString dateParse now input <> None.
Proof.
  intros now input Hblank Hvalid. rewrite parse_traced.
  apply String.eqb_neq in Hblank. rewrite Hblank.
  destruct (parsedDate (resolve dateParse now input)) eqn:E;
    [discriminate|].
  rewrite resolve_chain in E. apply resolveFallback_none in E. congruence.
Qed.

(** X12: in a result at most one of the components relative, weekday and
    date is present and no modifier; the confidence is the weight of the
    resolver that set it (0.5, the fallback, when none is present), plus
    0.3 when a time component is present, capped at 1.0.  A result without
    any of the three components stands for a text that [new Date(text)]
    reads as a valid date. *)
Theorem X12_one_resolver_per_result : forall now input r,
  parseSmartDateString dateParse now input = Some r ->
  ParsedComponents.modifiers (DateParseResult.parsedComponents r) = None
  /\ (exists ws w,
        In (dateComponents (DateParseResult.parsedComponents r), ws)
           resolverWeights
        /\ In w ws
        /\ DateParseResult.confidence r
           = Math_min (timeShare (DateParseResult.parsedComponents r) + w) 1.0)
  /\ (dateComponents (DateParseResult.parsedComponents r)
      = (false, false, false) ->
      isValid (dateParse input) = true)
  /\ DateParseResult.originalInput r = input.
Proof.
  intros now input r H. rewrite parse_traced in H.
  destruct (String.eqb (trim input) ""); [discriminate|].
  pose proof (resolve_traced now input) as Ht.
  destruct (parsedDate (resolve dateParse now input)) as [d|] eqn:Hp;
    [|discriminate].
  injection H as <-. cbn [DateParseResult.parsedComponents
                           DateParseResult.confidence
                           DateParseResult.originalInput].
  destruct Ht as (_ & Hmod & Hdate). rewrite Hp in Hdate.
  destruct Hdate as (ws & w & Hws & Hw & Hc).
  split; [exact Hmod|]. split; [|split; [|reflexivity]].
  - exists ws, w. rewrite Hc. tauto.
  - intros Hnone.
    destruct (isValid (dateParse input)) eqn:Hv; [reflexivity|].
    exfalso. rewrite resolve_chain in Hnone, Hp.
    rewrite (resolveFallback_invalid input _ Hv) in Hnone, Hp.
    destruct (chain_marked now (normalForm input)) as [Hm|Hm]; congruence.
Qed.

(** X13: a result without a time component carries the date the resolver
    gave; a result with one carries that date at the time the Time
    Extractor read, an hour from 0 to 23 and a minute from 0 to 59: when
    the date is valid, those are its hour and its minute. *)
Theorem X13_time_component_sets_the_clock : forall now input r,
  parseSmartDateString dateParse now input = Some r ->
  (ParsedComponents.time (DateParseResult.parsedComponents r) = None ->
   parsedDate (resolve dateParse now input) = Some (DateParseResult.date r))
  /\ (ParsedComponents.time (DateParseResult.parsedComponents r) <> None ->
      exists h mi,
        extractedTime (extractTime (normalForm input) initial) = Some (h, mi)
        /\ 0 <= h <= 23 /\ 0 <= mi <= 59
        /\ forall t, DateParseResult.date r = ValidDate t ->
                     getHours t = h /\ getMinutes t = mi).
Proof.
  intros now input r H. rewrite parse_traced in H.
  destruct (String.eqb (trim input) ""); [discriminate|].
  pose proof (resolve_traced now input) as (Htime & _).
  assert (He : extractedTime (resolve dateParse now input)
               = extractedTime (extractTime (normalForm input) initial)).
  { rewrite resolve_chain, <- (chain_extractedTime now).
    unfold resolveFallback.
    destruct (parsedDate (chain now (normalForm input))); [reflexivity|].
    now destruct (isValid (dateParse input)). }
  destruct (parsedDate (resolve dateParse now input)) as [d|] eqn:Hp;
    [|discriminate].
  injection H as <-.
  cbn [DateParseResult.parsedComponents DateParseResult.date].
  unfold applyTime. rewrite <- He.
  destruct (extractedTime (resolve dateParse now input)) as [[h mi]|].
  - destruct Htime as (Hh & Hmi & Hc). split; [intros Hn; now elim Hc|].
    intros _. exists h, mi. split; [reflexivity|].
    split; [exact Hh|]. split; [exact Hmi|].
    intros t Ht.
    destruct (applied_time_fields d h mi t Hh Hmi Ht) as (H1 & H2 & _).
    now split.
  - split; [reflexivity|]. intros Hn. now elim Hn.
Qed.

(** X14: the parser reads an input in lower case and without the white
    space around it: two inputs of one normal form that [new Date(text)]
    reads alike have the same result, the original input apart. *)
Theorem X14_case_and_outer_space_are_ignored : forall now input input',
  normalForm input = normalForm input' ->
  dateParse input = dateParse input' ->
  option_map outcome (parseSmartDateString dateParse now input)
  = option_map outcome (parseSmartDateString dateParse now input').
Proof.
  intros now input input' Hn Hd. rewrite !parse_unfold.
  assert (Hb : String.eqb (trim input) "" = String.eqb (trim input') "").
  { unfold normalForm in Hn.
    destruct (String.eqb (trim input) "") eqn:E;
      destruct (String.eqb (trim input') "") eqn:E'; try reflexivity.
    - apply String.eqb_eq in E. apply String.eqb_neq in E'.
      rewrite E in Hn. symmetry in Hn. cbn in Hn.
      now apply toLowerCase_empty in Hn.
    - apply String.eqb_neq in E. apply String.eqb_eq in E'.
      rewrite E' in Hn. cbn in Hn. now apply toLowerCase_empty in Hn. }
  rewrite <- Hb. destruct (String.eqb (trim input) ""); [reflexivity|].
  assert (Hr : resolve dateParse now input = resolve dateParse now input').
  { rewrite !resolve_chain, <- Hn. unfold resolveFallback. now rewrite Hd. }
  rewrite <- Hr. generalize (resolve dateParse now input). intros st.
  unfold finish. destruct (parsedDate st); [|reflexivity].
  destruct (PrimFloat.ltb (confidence st) 0.3); reflexivity.
Qed.

End Results.

(** A text [new Date(text)] reads and no resolver of the library does. *)
Lemma X11_witness :
  trim "2025-03-04" <> ""
  /\ isValid ((fun _ => ValidDate 1741046400000) "2025-03-04") = true
  /\ parseSmartDateString (fun _ => ValidDate 1741046400000) newYear2025
       "2025-03-04" <> None.
Proof.
  assert (H1 : trim "2025-03-04" <> "") by discriminate.
  assert (H2 : isValid ((fun _ : string => ValidDate 1741046400000)
                          "2025-03-04") = true) by reflexivity.
  split; [exact H1|]. split; [exact H2|].
  exact (X11_host_dates_are_accepted (fun _ => ValidDate 1741046400000)
           newYear2025 "2025-03-04" H1 H2).
Defined.

Lemma X12_witness :
  parseSmartDateString (fun _ => InvalidDate) newYear2025 "Tomorrow 7am"
  = Some (DateParseResult.mk (ValidDate 1735801200000) 1.0 "Tomorrow 7am"
            (ParsedComponents.mk (Some "tomorrow") (Some "7am") None None None))
  /\ ParsedComponents.modifiers
       (ParsedComponents.mk (Some "tomorrow") (Some "7am") None None None)
     = None.
Proof.
  assert (E : parseSmartDateString (fun _ => InvalidDate) newYear2025
                "Tomorrow 7am"
              = Some (DateParseResult.mk (ValidDate 1735801200000) 1.0
                        "Tomorrow 7am"
                        (ParsedComponents.mk (Some "tomorrow") (Some "7am")
                           None None None)))
    by (vm_compute; reflexivity).
  split; [exact E|].
  exact (proj1 (X12_one_resolver_per_result (fun _ => InvalidDate)
                  newYear2025 "Tomorrow 7am" _ E)).
Defined.

Lemma X13_witness :
  parseSmartDateString (fun _ => InvalidDate) newYear2025 "Tomorrow 7am"
  = Some (DateParseResult.mk (ValidDate 1735801200000) 1.0 "Tomorrow 7am"
            (ParsedComponents.mk (Some "tomorrow") (Some "7am") None None None))
  /\ (Some "7am" <> None ->
      exists h mi,
        extractedTime (extractTime (normalForm "Tomorrow 7am") initial)
        = Some (h, mi)
        /\ 0 <= h <= 23 /\ 0 <= mi <= 59
        /\ forall t, ValidDate 1735801200000 = ValidDate t ->
                     getHours t = h /\ getMinutes t = mi).
Proof.
  assert (E : parseSmartDateString (fun _ => InvalidDate) newYear2025
                "Tomorrow 7am"
              = Some (DateParseResult.mk (ValidDate 1735801200000) 1.0
                        "Tomorrow 7am"
                        (ParsedComponents.mk (Some "tomorrow") (Some "7am")
                           None None None)))
    by (vm_compute; reflexivity).
  split; [exact E|].
  exact (proj2 (X13_time_component_sets_the_clock (fun _ => InvalidDate)
                  newYear2025 "Tomorrow 7am" _ E)).
Defined.

Lemma X14_witness :
  normalForm "  Next FRIDAY " = normalForm "next friday"
  /\ option_map outcome
       (parseSmartDateString (fun _ => InvalidDate) newYear2025
          "  Next FRIDAY ")
     = option_map outcome
         (parseSmartDateString (fun _ => InvalidDate) newYear2025
            "next friday").
Proof.
  assert (H1 : normalForm "  Next FRIDAY " = normalForm "next friday")
    by reflexivity.
  split; [exact H1|].
  exact (X14_case_and_outer_space_are_ignored (fun _ => InvalidDate)
           newYear2025 "  Next FRIDAY " "next friday" H1 eq_refl).
Defined.


(** ** The indicator of a confidence *)

Lemma sameIndicator_eq : forall a b, sameIndicator a b = true -> a = b.
Proof.
  intros [a1 a2] [b1 b2] H. unfold sameIndicator in H. cbn [fst snd] in H.
  apply andb_true_iff in H. destruct H as [H1 H2].
  apply String.eqb_eq in H1. subst b1.
  destruct a2 as [x|], b2 as [y|]; try discriminate; [|reflexivity].
  apply String.eqb_eq in H2. now subst y.
Qed.

Lemma timeShare_cases : forall c,
  timeShare c
  = (if isSome (ParsedComponents.time c) then 0 + 0.3 else 0)%float.
Proof.
  intros c. unfold timeShare. now destruct (ParsedComponents.time c).
Qed.

Section Indicator.

Variable dateParse : string -> Date.

(** X15: the indicator of a result of the parser is one of seven: green
    with 100%, 90%, 85% or 80%, yellow with 75% or 70%, orange with 50%.
    It is green whenever the result has a time component, and orange
    exactly for a date that only [new Date(text)] read, without a time
    component. *)
Theorem X15_indicator_of_a_result : forall now input r,
  parseSmartDateString dateParse now input = Some r ->
  In (indicator (DateParseResult.confidence r)) parseIndicators
  /\ (ParsedComponents.time (DateParseResult.parsedComponents r) <> None ->
      getConfidenceColor (DateParseResult.confidence r) = "text-green-600")
  /\ (getConfidenceColor (DateParseResult.confidence r) = "text-orange-600"
      <-> ParsedComponents.time (DateParseResult.parsedComponents r) = None
          /\ dateComponents (DateParseResult.parsedComponents r)
             = (false, false, false)).
Proof.
  intros now input r H. rewrite parse_traced in H.
  destruct (String.eqb (trim input) ""); [discriminate|].
  pose proof (resolve_traced dateParse now input) as (_ & _ & Hdate).
  destruct (parsedDate (resolve dateParse now input)) as [d|];
    [|discriminate].
  injection H as <-.
  cbn [DateParseResult.parsedComponents DateParseResult.confidence].
  destruct Hdate as (ws & w & Hws & Hw & ->).
  generalize dependent (components (resolve dateParse now input)).
  intros c Hws. rewrite timeShare_cases.
  assert (Hall : indicatorsChecked = true) by (vm_compute; reflexivity).
  unfold indicatorsChecked in Hall. rewrite forallb_forall in Hall.
  assert (Hin : In (isSome (ParsedComponents.time c)) [false; true])
    by (destruct (isSome (ParsedComponents.time c)); simpl; tauto).
  specialize (Hall _ Hin). rewrite forallb_forall in Hall.
  specialize (Hall _ Hws). rewrite forallb_forall in Hall.
  specialize (Hall _ Hw). cbn [fst snd] in Hall.
  apply andb_true_iff in Hall. destruct Hall as [Hall H3].
  apply andb_true_iff in Hall. destruct Hall as [H1 H2].
  unfold indicator in H2, H3. cbn [fst] in H2, H3.
  apply existsb_exists in H1. destruct H1 as (i & Hi & Hsame).
  apply sameIndicator_eq in Hsame.
  split; [now rewrite Hsame|]. split.
  - intros Ht. destruct (ParsedComponents.time c); [|now elim Ht].
    cbn [isSome implb] in H2. now apply String.eqb_eq in H2.
  - apply Bool.eqb_prop in H3. split.
    + intros Ho. apply String.eqb_eq in Ho. rewrite Ho in H3. symmetry in H3.
      apply andb_true_iff in H3. destruct H3 as [H3 H4].
      split.
      * destruct (ParsedComponents.time c); [discriminate|reflexivity].
      * destruct (dateComponents c) as [[[|] [|]] [|]];
          try discriminate; reflexivity.
    + intros [Ht Hc]. rewrite Ht, Hc in H3. cbn [isSome negb andb] in H3.
      rewrite Ht. cbn [isSome]. now apply String.eqb_eq.
Qed.

End Indicator.

Lemma X15_witness :
  parseSmartDateString (fun _ => InvalidDate) newYear2025 "end of day"
  = Some (DateParseResult.mk (ValidDate 1735775999999) 0.7 "end of day"
            (ParsedComponents.mk (Some "end of day") None None None None))
  /\ In (indicator 0.7) parseIndicators.
Proof.
  assert (E : parseSmartDateString (fun _ => InvalidDate) newYear2025
                "end of day"
              = Some (DateParseResult.mk (ValidDate 1735775999999) 0.7
                        "end of day"
                        (ParsedComponents.mk (Some "end of day") None None
                           None None)))
    by (vm_compute; reflexivity).
  split; [exact E|].
  exact (proj1 (X15_indicator_of_a_result (fun _ => InvalidDate)
                  newYear2025 "end of day" _ E)).
Defined.


(** ** What a suggestion shows *)

Lemma filterIndexed_incl : forall (A : Type) (p : nat -> A -> bool) l i x,
  In x (filterIndexed p i l) -> In x l.
Proof.
  intros A p l. induction l as [|y l IH]; intros i x H; [destruct H|].
  cbn [filterIndexed] in H. destruct (p i y).
  - destruct H as [<-|H]; [now left|right; eauto].
  - right. eauto.
Qed.

Lemma boost_facts : forall c,
  In c parseConfidences -> PrimFloat.ltb 0.5 c = true ->
  let b := Math_min (c + 0.2) 1.0 in
  PrimFloat.is_nan b = false /\ PrimFloat.ltb 0 b = true
  /\ PrimFloat.leb 0.85 b = true /\ PrimFloat.leb 0.6 b = true
  /\ (forall w, In w generatorWeights -> PrimFloat.ltb 0 (w - b) = false)
  /\ PrimFloat.leb 0.9 b = PrimFloat.leb 0.75 c.
Proof.
  intros c Hc Hlt.
  assert (Hall : boostChecked = true) by (vm_compute; reflexivity).
  unfold boostChecked in Hall. rewrite forallb_forall in Hall.
  specialize (Hall c Hc). rewrite Hlt in Hall. cbn [implb] in Hall.
  cbv zeta in *.
  repeat (apply andb_true_iff in Hall; destruct Hall as [Hall ?]).
  repeat split.
  - now apply negb_true_iff.
  - assumption.
  - assumption.
  - assumption.
  - intros w Hw.
    match goal with H : forallb _ generatorWeights = true |- _ =>
      rewrite forallb_forall in H; specialize (H w Hw);
      now apply negb_true_iff in H end.
  - now apply Bool.eqb_prop.
Qed.

Section Shown.

Variable dateParse : string -> Date.
Variable format : Z -> string -> string.

Lemma shown_intro : forall now showTime l v c p d k r,
  parseSmartDateString dateParse now v = Some r ->
  d = Some (DateParseResult.date r) ->
  (p = Suggestions.formatDateForDisplay format (DateParseResult.date r)
         dateFormat
   \/ showTime = true
      /\ p = Suggestions.formatDateForDisplay format (DateParseResult.date r)
               dateTimeFormat) ->
  (k = Category.time -> showTime = true) ->
  Shown dateParse format now showTime (SmartSuggestion.mk l v c p d k).
Proof.
  intros now showTime l v c p d k r Hr Hd Hp Hk. exists r.
  cbn [SmartSuggestion.value SmartSuggestion.parsedDate
       SmartSuggestion.preview SmartSuggestion.category].
  tauto.
Qed.

Lemma timeSuggestions_shown : forall now trimmed showTime,
  Forall (fun s => Shown dateParse format now showTime s /\ Generated s)
    (timeSuggestions dateParse format now trimmed showTime).
Proof.
  intros now trimmed showTime. unfold timeSuggestions.
  destruct (showTime && _)%bool eqn:Eb; [|constructor].
  apply andb_true_iff in Eb. destruct Eb as [Eb _].
  apply Forall_flat_map, Forall_forall. intros [base times] _.
  apply Forall_flat_map, Forall_forall. intros time _.
  destruct (parseSmartDateString dateParse now (base ++ " " ++ time))
    as [r|] eqn:E; [|constructor].
  constructor; [|constructor]. split.
  - apply (shown_intro now showTime _ _ _ _ _ _ r E eq_refl); [|tauto].
    right. now split.
  - split; [discriminate|]. simpl; tauto.
Qed.

Lemma monthSuggestions_shown : forall now trimmed showTime currentParse,
  Forall (fun s => Shown dateParse format now showTime s /\ Generated s)
    (monthSuggestions dateParse format now trimmed currentParse).
Proof.
  intros now trimmed showTime currentParse. unfold monthSuggestions.
  destruct (belowOrAbsent currentParse 0.7); [|constructor].
  apply Forall_flat_map, Forall_forall. intros month _.
  apply Forall_flat_map, Forall_forall. intros day _.
  destruct (parseSmartDateString dateParse now (month ++ " " ++ ofZ day))
    as [r|] eqn:E; [|constructor].
  destruct (negb _); [|constructor].
  constructor; [|constructor]. split.
  - apply (shown_intro now showTime _ _ _ _ _ _ r E eq_refl);
      [now left|discriminate].
  - split; [discriminate|]. simpl; tauto.
Qed.

Lemma weekdaySuggestions_shown : forall now trimmed showTime,
  Forall (fun s => Shown dateParse format now showTime s /\ Generated s)
    (weekdaySuggestions dateParse format now trimmed showTime).
Proof.
  intros now trimmed showTime. unfold weekdaySuggestions.
  apply Forall_flat_map, Forall_forall. intros weekday _.
  apply Forall_flat_map, Forall_forall. intros prefix _.
  destruct (parseSmartDateString dateParse now (prefix ++ weekday))
    as [r|] eqn:E; [|constructor].
  constructor.
  - split.
    + apply (shown_intro now showTime _ _ _ _ _ _ r E eq_refl);
        [now left|discriminate].
    + split; [discriminate|]. destruct (nonEmpty prefix); simpl; tauto.
  - destruct showTime; [|constructor].
    apply Forall_flat_map, Forall_forall. intros time _.
    destruct (parseSmartDateString dateParse now
                ((prefix ++ weekday) ++ " " ++ time)) as [tr|] eqn:Et;
      [|constructor].
    constructor; [|constructor]. split.
    + apply (shown_intro now true _ _ _ _ _ _ tr Et eq_refl); [|tauto].
      right. now split.
    + split; [discriminate|]. destruct (nonEmpty prefix); simpl; tauto.
Qed.

Lemma pushPhrase_shown : forall now showTime suggestions suggestion,
  exists extra,
    pushPhrase dateParse format now showTime suggestions suggestion
    = (suggestions ++ extra)%list
    /\ Forall (fun s => Shown dateParse format now showTime s /\ Generated s)
         extra.
Proof.
  intros now showTime suggestions suggestion. unfold pushPhrase.
  destruct (negb showTime && mentionsAmPm suggestion)%bool eqn:Eb;
    [exists []; split; [now rewrite app_nil_r|constructor]|].
  destruct (parseSmartDateString dateParse now suggestion) as [r|] eqn:E;
    [|exists []; split; [now rewrite app_nil_r|constructor]].
  destruct (existsb _ suggestions);
    [exists []; split; [now rewrite app_nil_r|constructor]|].
  eexists. split; [reflexivity|].
  constructor; [|constructor]. split.
  - apply (shown_intro now showTime _ _ _ _ _ _ r E eq_refl).
    + destruct showTime; cbn [andb]; [|now left].
      destruct (mentionsAmPm suggestion); [right; now split|now left].
    + destruct (mentionsAmPm suggestion); [|discriminate].
      intros _. destruct showTime; [reflexivity|discriminate].
  - split; [now destruct (mentionsAmPm suggestion)|]. simpl; tauto.
Qed.

Lemma pushPhrases_shown : forall now showTime phrases suggestions,
  exists extra,
    fold_left (pushPhrase dateParse format now showTime) phrases suggestions
    = (suggestions ++ extra)%list
    /\ Forall (fun s => Shown dateParse format now showTime s /\ Generated s)
         extra.
Proof.
  intros now showTime. induction phrases as [|p phrases IH];
    intros suggestions; cbn [fold_left].
  - exists []. split; [now rewrite app_nil_r|constructor].
  - destruct (pushPhrase_shown now showTime suggestions p) as (e1 & -> & H1).
    destruct (IH (suggestions ++ e1)%list) as (e2 & -> & H2).
    exists (e1 ++ e2)%list. split; [now rewrite app_assoc|].
    apply Forall_app. now split.
Qed.

Lemma pushFamily_shown : forall now trimmed showTime families suggestions,
  exists extra,
    pushFamily dateParse format now trimmed showTime families suggestions
    = (suggestions ++ extra)%list
    /\ Forall (fun s => Shown dateParse format now showTime s /\ Generated s)
         extra.
Proof.
  intros now trimmed showTime.
  induction families as [|[pattern phrases] families IH];
    intros suggestions; cbn [pushFamily].
  - exists []. split; [now rewrite app_nil_r|constructor].
  - destruct (test pattern trimmed); [|apply IH].
    apply pushPhrases_shown.
Qed.

(** The pool of candidates: the suggestion for the input itself, if it
    has one, then suggestions the generator built from its phrases. *)
Lemma candidates_shape : forall now input showTime,
  exists tail,
    candidates dateParse format now input showTime
    = (directSuggestion format input showTime
         (parseSmartDateString dateParse now input) ++ tail)%list
    /\ Forall (fun s => Shown dateParse format now showTime s /\ Generated s)
         tail.
Proof.
  intros now input showTime. unfold candidates.
  set (d := directSuggestion format input showTime
              (parseSmartDateString dateParse now input)).
  set (ctx := firstn 8 (contextualSuggestions dateParse format now
                          (toLowerCase (trim input)) showTime
                          (parseSmartDateString dateParse now input))).
  assert (Hctx : Forall (fun s => Shown dateParse format now showTime s
                                  /\ Generated s) ctx).
  { apply Forall_firstn. unfold contextualSuggestions.
    apply Forall_app. split; [apply timeSuggestions_shown|].
    apply Forall_app. split;
      [apply monthSuggestions_shown|apply weekdaySuggestions_shown]. }
  destruct (belowOrAbsent _ 0.8).
  - destruct (pushFamily_shown now (toLowerCase (trim input)) showTime
                relativeSuggestions (d ++ ctx)%list) as (extra & -> & He).
    exists (ctx ++ extra)%list. split; [now rewrite app_assoc|].
    apply Forall_app. now split.
  - now exists ctx.
Qed.

Lemma directSuggestion_cases : forall now input showTime,
  match parseSmartDateString dateParse now input with
  | Some r =>
      if PrimFloat.ltb 0.5 (DateParseResult.confidence r)
      then directSuggestion format input showTime
             (parseSmartDateString dateParse now input)
           = [direct format input showTime r]
      else directSuggestion format input showTime
             (parseSmartDateString dateParse now input) = []
  | None =>
      directSuggestion format input showTime
        (parseSmartDateString dateParse now input) = []
  end.
Proof.
  intros now input showTime. unfold directSuggestion.
  destruct (parseSmartDateString dateParse now input) as [r|]; [|reflexivity].
  now destruct (PrimFloat.ltb 0.5 (DateParseResult.confidence r)).
Qed.

Lemma direct_shown : forall now input showTime r,
  parseSmartDateString dateParse now input = Some r ->
  Shown dateParse format now showTime (direct format input showTime r).
Proof.
  intros now input showTime r E. unfold direct.
  apply (shown_intro now showTime _ _ _ _ _ _ r E eq_refl); [|discriminate].
  destruct showTime; [right; now split|now left].
Qed.

Lemma candidates_shown : forall now input showTime,
  Forall (Shown dateParse format now showTime)
    (candidates dateParse format now input showTime).
Proof.
  intros now input showTime.
  destruct (candidates_shape now input showTime) as (tail & -> & Ht).
  apply Forall_app. split.
  - pose proof (directSuggestion_cases now input showTime) as Hd.
    destruct (parseSmartDateString dateParse now input) as [r|] eqn:E.
    + destruct (PrimFloat.ltb 0.5 (DateParseResult.confidence r));
        rewrite Hd; [|constructor].
      constructor; [|constructor]. now apply direct_shown.
    + rewrite Hd. constructor.
  - eapply Forall_impl; [|exact Ht]. now intros s [H _].
Qed.

Lemma returned_candidate : forall l e, In e (postProcess l) -> In e l.
Proof.
  intros l e H. apply postProcess_incl, ranked_incl, dedup_first in H.
  tauto.
Qed.

Lemma initial_shown : forall now showTime,
  Forall (fun s => Shown dateParse format now showTime s
                   /\ SmartSuggestion.category s = Category.relative
                   /\ In (SmartSuggestion.confidence s) initialWeights)
    (initialSuggestions dateParse format now showTime).
Proof.
  intros now showTime. unfold initialSuggestions.
  apply Forall_firstn, Forall_forall. intros s Hs.
  apply in_map_iff in Hs. destruct Hs as ([[[l v] k] c] & <- & Hin).
  assert (Hv : In v ["tomorrow"; "next week"; "next monday"; "tomorrow 10am";
                     "end of day"]
               /\ k = Category.relative /\ In c initialWeights).
  { unfold baseSuggestions in Hin. apply in_app_or in Hin.
    destruct Hin as [Hin|Hin].
    - simpl in Hin.
      repeat (destruct Hin as [Hin|Hin];
              [injection Hin as <- <- <- <-; simpl; tauto|]).
      destruct Hin.
    - destruct showTime; [|destruct Hin]. simpl in Hin.
      repeat (destruct Hin as [Hin|Hin];
              [injection Hin as <- <- <- <-; simpl; tauto|]).
      destruct Hin. }
  destruct Hv as (Hv & -> & Hc).
  assert (Hp : parseSmartDateString dateParse now v <> None).
  { apply (parses_at_any_time dateParse newYear2025 now).
    simpl in Hv.
    repeat (destruct Hv as [<-|Hv]; [vm_compute; discriminate|]).
    destruct Hv. }
  destruct (parseSmartDateString dateParse now v) as [r|] eqn:E;
    [|now elim Hp].
  split; [|split; [reflexivity|exact Hc]].
  apply (shown_intro now showTime _ _ _ _ _ _ r E eq_refl); [|discriminate].
  destruct showTime; [right; now split|now left].
Qed.

(** X16: every suggestion [generateSmartSuggestions] returns shows what
    choosing it gives while the clock stands: its value parses, its date
    is the date of that parse, and its preview is that date in the format
    "MMM dd, yyyy" or, with times on, "MMM dd 'at' h:mma". *)
Theorem X16_suggestion_shows_its_parse : forall now input showTime s,
  In s (generateSmartSuggestions dateParse format now input showTime) ->
  exists r,
    parseSmartDateString dateParse now (SmartSuggestion.value s) = Some r
    /\ SmartSuggestion.parsedDate s = Some (DateParseResult.date r)
    /\ (SmartSuggestion.preview s
        = Suggestions.formatDateForDisplay format (DateParseResult.date r)
            "MMM dd, yyyy"
        \/ showTime = true
           /\ SmartSuggestion.preview s
              = Suggestions.formatDateForDisplay format
                  (DateParseResult.date r) "MMM dd 'at' h:mma").
Proof.
  intros now input showTime s Hs. rewrite generate_unfold in Hs.
  assert (H : Shown dateParse format now showTime s).
  { destruct (String.eqb (toLowerCase (trim input)) "").
    - pose proof (initial_shown now showTime) as Hall.
      rewrite Forall_forall in Hall. now apply Hall.
    - apply returned_candidate in Hs.
      pose proof (candidates_shown now input showTime) as Hall.
      rewrite Forall_forall in Hall. now apply Hall. }
  destruct H as (r & H1 & H2 & H3 & _). now exists r.
Qed.

(** X17: with times off no suggestion has the category time, and every
    preview is in the format "MMM dd, yyyy". *)
Theorem X17_times_off : forall now input s,
  In s (generateSmartSuggestions dateParse format now input false) ->
  SmartSuggestion.category s <> Category.time
  /\ exists r,
       parseSmartDateString dateParse now (SmartSuggestion.value s) = Some r
       /\ SmartSuggestion.preview s
          = Suggestions.formatDateForDisplay format (DateParseResult.date r)
              "MMM dd, yyyy".
Proof.
  intros now input s Hs. rewrite generate_unfold in Hs.
  assert (H : Shown dateParse format now false s).
  { destruct (String.eqb (toLowerCase (trim input)) "").
    - pose proof (initial_shown now false) as Hall.
      rewrite Forall_forall in Hall. now apply Hall.
    - apply returned_candidate in Hs.
      pose proof (candidates_shown now input false) as Hall.
      rewrite Forall_forall in Hall. now apply Hall. }
  destruct H as (r & H1 & _ & H3 & H4). split.
  - intros Hk. specialize (H4 Hk). discriminate.
  - exists r. split; [exact H1|].
    destruct H3 as [H3|[H3 _]]; [exact H3|discriminate].
Qed.

(** X18: the indicator of a suggestion is green or yellow, never orange,
    with one of nine labels from 65% to 100%. *)
Theorem X18_indicator_of_a_suggestion : forall now input showTime s,
  In s (generateSmartSuggestions dateParse format now input showTime) ->
  In (indicator (SmartSuggestion.confidence s)) suggestionIndicators
  /\ getConfidenceColor (SmartSuggestion.confidence s) <> "text-orange-600".
Proof.
  intros now input showTime s Hs. rewrite generate_unfold in Hs.
  assert (Hc : In (SmartSuggestion.confidence s)
                 (suggestionConfidences ++ initialWeights)%list).
  { apply in_or_app.
    destruct (String.eqb (toLowerCase (trim input)) "").
    - right. pose proof (initial_shown now showTime) as Hall.
      rewrite Forall_forall in Hall. now apply Hall.
    - left. apply returned_candidate in Hs.
      pose proof (candidates_listed dateParse format now input showTime)
        as Hall.
      rewrite Forall_forall in Hall. now apply Hall. }
  assert (Hall : suggestionIndicatorsChecked = true)
    by (vm_compute; reflexivity).
  unfold suggestionIndicatorsChecked in Hall. rewrite forallb_forall in Hall.
  specialize (Hall _ Hc). apply existsb_exists in Hall.
  destruct Hall as (i & Hi & Hsame). apply sameIndicator_eq in Hsame.
  assert (Hin : In (indicator (SmartSuggestion.confidence s))
                  suggestionIndicators) by now rewrite Hsame.
  split; [exact Hin|].
  change (getConfidenceColor (SmartSuggestion.confidence s))
    with (fst (indicator (SmartSuggestion.confidence s))).
  revert Hin. generalize (indicator (SmartSuggestion.confidence s)).
  intros p Hin. unfold suggestionIndicators in Hin. simpl in Hin.
  repeat (destruct Hin as [<-|Hin]; [discriminate|]). destruct Hin.
Qed.

Lemma ranked_direct_first : forall d tail,
  PrimFloat.is_nan (SmartSuggestion.confidence d) = false ->
  PrimFloat.ltb 0 (SmartSuggestion.confidence d) = true ->
  (forall w, In w generatorWeights ->
             PrimFloat.ltb 0 (w - SmartSuggestion.confidence d) = false) ->
  Forall Generated tail ->
  exists rest, ranked (d :: tail) = d :: rest.
Proof.
  intros d tail Hnan Hpos Htop Htail. unfold ranked, dedupByValue.
  cbn [filterIndexed findIndex]. rewrite String.eqb_refl. cbn [Nat.eqb].
  set (l1 := filterIndexed _ 1%nat tail).
  assert (H1 : forall x, In x l1 -> In x tail)
    by (intros x; apply filterIndexed_incl).
  cbn [filter]. unfold validConfidence at 1. rewrite Hnan, Hpos.
  cbn [negb andb]. set (l2 := filter validConfidence l1).
  assert (H2 : forall x, In x l2 -> In x tail).
  { intros x Hx. apply filter_In in Hx. apply H1. tauto. }
  cbn [sort fold_right].
  change (fold_right (insertSorted byConfidence) [] l2)
    with (sort byConfidence l2).
  assert (H3 : forall x, In x (sort byConfidence l2) -> In x tail).
  { intros x Hx. apply H2.
    exact (Permutation_in _ (sort_perm _ byConfidence l2) Hx). }
  destruct (sort byConfidence l2) as [|y S]; [now exists []|].
  cbn [insertSorted]. unfold byConfidence at 1.
  rewrite Forall_forall in Htail.
  destruct (Htail y (H3 y (or_introl eq_refl))) as [_ Hy].
  rewrite (Htop _ Hy). now exists (y :: S).
Qed.

(** X19: when the input parses with a confidence above 0.5, the first
    suggestion is the one for the input itself: its value is the input,
    its category natural, its date the date of the parse and its
    confidence that of the parse plus 0.2, capped at 1.0.  That confidence
    is at least 0.9 exactly when the confidence of the parse is at least
    0.75: the sum of 0.7 and 0.2 falls below 0.9. *)
Theorem X19_direct_suggestion_first : forall now input showTime r,
  parseSmartDateString dateParse now input = Some r ->
  PrimFloat.ltb 0.5 (DateParseResult.confidence r) = true ->
  hd_error (generateSmartSuggestions dateParse format now input showTime)
  = Some (direct format input showTime r)
  /\ PrimFloat.leb 0.9
       (SmartSuggestion.confidence (direct format input showTime r))
     = PrimFloat.leb 0.75 (DateParseResult.confidence r).
Proof.
  intros now input showTime r E Hlt.
  pose proof (parse_confidence_listed dateParse now input r E) as Hc.
  destruct (boost_facts _ Hc Hlt) as (Hnan & Hpos & H85 & H60 & Htop & H90).
  split; [|exact H90].
  rewrite generate_unfold.
  assert (Hne : String.eqb (toLowerCase (trim input)) "" = false).
  { apply String.eqb_neq. intros Hn. apply toLowerCase_empty in Hn.
    rewrite parse_unfold, Hn in E. discriminate. }
  rewrite Hne.
  destruct (candidates_shape now input showTime) as (tail & -> & Ht).
  pose proof (directSuggestion_cases now input showTime) as Hd.
  rewrite E in Hd. rewrite Hlt in Hd. rewrite E, Hd. cbn [app].
  assert (Hg : Forall Generated tail)
    by (eapply Forall_impl; [|exact Ht]; now intros s [_ H]).
  destruct (ranked_direct_first (direct format input showTime r) tail
              Hnan Hpos Htop Hg) as (rest & Hr).
  assert (Hconf : SmartSuggestion.confidence (direct format input showTime r)
                  = Math_min (DateParseResult.confidence r + 0.2) 1.0)
    by reflexivity.
  rewrite postProcess_ranked, Hr.
  destruct (PrimFloat.leb 0.9 _).
  - cbn [filter]. unfold atLeast at 1. now rewrite Hconf, H85.
  - destruct (PrimFloat.leb 0.7 _); [|reflexivity].
    cbn [filter]. unfold atLeast at 1. now rewrite Hconf, H60.
Qed.

End Shown.

Lemma X16_witness :
  In (SmartSuggestion.mk "Tomorrow" "tomorrow" 0.8 "MMM dd, yyyy"
        (Some (ValidDate 1735810200000)) Category.relative)
     (generateSmartSuggestions (fun _ => InvalidDate) (fun _ f => f)
        newYear2025 "tom" true)
  /\ exists r,
       parseSmartDateString (fun _ => InvalidDate) newYear2025 "tomorrow"
       = Some r
       /\ Some (ValidDate 1735810200000) = Some (DateParseResult.date r).
Proof.
  assert (Hin : In (SmartSuggestion.mk "Tomorrow" "tomorrow" 0.8
                      "MMM dd, yyyy" (Some (ValidDate 1735810200000))
                      Category.relative)
                  (generateSmartSuggestions (fun _ => InvalidDate)
                     (fun _ f => f) newYear2025 "tom" true))
    by (vm_compute; left; reflexivity).
  split; [exact Hin|].
  destruct (X16_suggestion_shows_its_parse (fun _ => InvalidDate)
              (fun _ f => f) newYear2025 "tom" true _ Hin)
    as (r & H1 & H2 & _).
  exists r. split; [exact H1|exact H2].
Defined.

Lemma X17_witness :
  In (SmartSuggestion.mk "Tomorrow" "tomorrow" 0.8 "MMM dd, yyyy"
        (Some (ValidDate 1735810200000)) Category.relative)
     (generateSmartSuggestions (fun _ => InvalidDate) (fun _ f => f)
        newYear2025 "tom" false)
  /\ Category.relative <> Category.time.
Proof.
  assert (Hin : In (SmartSuggestion.mk "Tomorrow" "tomorrow" 0.8
                      "MMM dd, yyyy" (Some (ValidDate 1735810200000))
                      Category.relative)
                  (generateSmartSuggestions (fun _ => InvalidDate)
                     (fun _ f => f) newYear2025 "tom" false))
    by (vm_compute; left; reflexivity).
  split; [exact Hin|].
  exact (proj1 (X17_times_off (fun _ => InvalidDate) (fun _ f => f)
                  newYear2025 "tom" _ Hin)).
Defined.

Lemma X18_witness :
  In (SmartSuggestion.mk "Tomorrow" "tomorrow" 0.8 "MMM dd, yyyy"
        (Some (ValidDate 1735810200000)) Category.relative)
     (generateSmartSuggestions (fun _ => InvalidDate) (fun _ f => f)
        newYear2025 "tom" false)
  /\ In (indicator 0.8) suggestionIndicators.
Proof.
  assert (Hin : In (SmartSuggestion.mk "Tomorrow" "tomorrow" 0.8
                      "MMM dd, yyyy" (Some (ValidDate 1735810200000))
                      Category.relative)
                  (generateSmartSuggestions (fun _ => InvalidDate)
                     (fun _ f => f) newYear2025 "tom" false))
    by (vm_compute; left; reflexivity).
  split; [exact Hin|].
  exact (proj1 (X18_indicator_of_a_suggestion (fun _ => InvalidDate)
                  (fun _ f => f) newYear2025 "tom" false _ Hin)).
Defined.

Lemma X19_witness :
  parseSmartDateString (fun _ => InvalidDate) newYear2025 "end of day"
  = Some (DateParseResult.mk (ValidDate 1735775999999) 0.7 "end of day"
            (ParsedComponents.mk (Some "end of day") None None None None))
  /\ PrimFloat.ltb 0.5 0.7 = true
  /\ option_map
       (fun s => (SmartSuggestion.value s, SmartSuggestion.confidence s))
       (hd_error
          (generateSmartSuggestions (fun _ => InvalidDate) (fun _ f => f)
             newYear2025 "end of day" true))
     = Some ("end of day", 0.8999999999999999%float).
Proof.
  assert (E : parseSmartDateString (fun _ => InvalidDate) newYear2025
                "end of day"
              = Some (DateParseResult.mk (ValidDate 1735775999999) 0.7
                        "end of day"
                        (ParsedComponents.mk (Some "end of day") None None
                           None None)))
    by (vm_compute; reflexivity).
  assert (Hlt : PrimFloat.ltb 0.5 0.7 = true) by reflexivity.
  split; [exact E|]. split; [exact Hlt|].
  rewrite (proj1 (X19_direct_suggestion_first (fun _ => InvalidDate)
                    (fun _ f => f) newYear2025 "end of day" true _ E Hlt)).
  vm_compute. reflexivity.
Defined.


(** ** Phrases that reach one resolver *)

Lemma noTime_extract : forall s,
  noTime s = true -> extractTime s initial = initial.
Proof.
  intros s H. unfold noTime in H. unfold extractTime.
  now destruct (firstMatch timePatterns s).
Qed.

Lemma relativeIndex_first : forall rows s k m,
  relativeIndex rows s = Some (k, m) ->
  firstRelative rows s
  = Some (nth k rows (byDays (mkRegExp "" false Bol) 0 0), m).
Proof.
  induction rows as [|row rows IH]; intros s k m H; [discriminate|].
  cbn [relativeIndex firstRelative] in *.
  destruct (exec (rpPattern row) s) as [m'|].
  - injection H as <- <-. reflexivity.
  - destruct (relativeIndex rows s) as [[k' m']|] eqn:E; [|discriminate].
    injection H as <- <-. cbn [nth]. now apply IH.
Qed.

Lemma chain_relative : forall now s k,
  noTime s = true -> relativeOf s = Some k ->
  exists m,
    firstRelative relativePatterns s
    = Some (nth k relativePatterns (byDays (mkRegExp "" false Bol) 0 0), m)
    /\ chain now s
       = resolveMonthDay now s
           (resolveWeekday now s
              (mkLocals
                 (0 + rpConfidence
                        (nth k relativePatterns
                           (byDays (mkRegExp "" false Bol) 0 0)))%float
                 (match rpHandler
                          (nth k relativePatterns
                             (byDays (mkRegExp "" false Bol) 0 0)) with
                  | Some handler => Some (handler now m)
                  | None =>
                      match rpDays
                              (nth k relativePatterns
                                 (byDays (mkRegExp "" false Bol) 0 0)) with
                      | Some days => Some (addDays now days)
                      | None => None
                      end
                  end)
                 (ParsedComponents.mk (Some s) None None None None)
                 None None)).
Proof.
  intros now s k Ht Hr. unfold relativeOf in Hr.
  destruct (relativeIndex relativePatterns s) as [[k' m]|] eqn:E;
    [|discriminate].
  destruct (String.eqb (m0 m) s) eqn:Em; [|discriminate].
  injection Hr as ->. apply String.eqb_eq in Em.
  apply relativeIndex_first in E. exists m. split; [exact E|].
  unfold chain. rewrite (noTime_extract s Ht).
  change (inputWithoutTime s initial) with s.
  unfold resolveRelative. rewrite E. rewrite Em. reflexivity.
Qed.

Lemma chain_weekday : forall now s next i,
  noTime s = true -> noRelative s = true -> weekdayOf s = Some (next, i) ->
  chain now s
  = mkLocals (0 + (if next then 0.85 else 0.8))%float
      (Some (addDays now (daysUntilTarget now next i)))
      (ParsedComponents.mk None None (Some s) None None) None None.
Proof.
  intros now s next i Ht Hr Hw. unfold chain.
  rewrite (noTime_extract s Ht).
  change (inputWithoutTime s initial) with s.
  unfold noRelative in Hr. unfold resolveRelative.
  destruct (firstRelative relativePatterns s); [discriminate|].
  unfold weekdayOf in Hw. unfold resolveWeekday. cbn [parsedDate initial].
  destruct (exec weekdayPattern s) as [m|]; [|discriminate].
  destruct (String.eqb (m0 m) s) eqn:Em; [|discriminate].
  apply String.eqb_eq in Em.
  destruct (option_map toLowerCase (group 2 m)) as [name|]; [|discriminate].
  destruct (indexOf name Parser.weekdays) as [j|]; [|discriminate].
  injection Hw as <- <-. rewrite Em. reflexivity.
Qed.

Lemma chain_monthDay : forall now s month day,
  noTime s = true -> noRelative s = true -> noWeekday s = true ->
  monthDayOf s = Some (month, day) ->
  chain now s
  = mkLocals (0 + 0.75)%float (Some (thisOrNextYear now month day))
      (ParsedComponents.mk None None None (Some s) None) None None.
Proof.
  intros now s month day Ht Hr Hw Hm. unfold chain.
  rewrite (noTime_extract s Ht).
  change (inputWithoutTime s initial) with s.
  unfold noRelative in Hr. unfold resolveRelative.
  destruct (firstRelative relativePatterns s); [discriminate|].
  unfold noWeekday in Hw. unfold resolveWeekday. cbn [parsedDate initial].
  destruct (exec weekdayPattern s); [discriminate|].
  unfold monthDayOf in Hm. unfold resolveMonthDay. cbn [parsedDate initial].
  destruct (firstMatch monthPatterns s) as [[pat m]|]; [|discriminate].
  destruct (String.eqb (m0 m) s) eqn:Em; [|discriminate].
  apply String.eqb_eq in Em.
  destruct (monthAndDay pat m) as [[mo|] [d|]]; try discriminate.
  destruct (monthDayInRange (Some mo) (Some d)); [|discriminate].
  injection Hm as <- <-. rewrite Em. reflexivity.
Qed.

Lemma sameOption_eq : forall (A : Type) (eqb : A -> A -> bool) a b,
  (forall x y, eqb x y = true -> x = y) ->
  sameOption eqb a b = true -> a = b.
Proof.
  intros A eqb [x|] [y|] H E; try discriminate; [|reflexivity].
  f_equal. now apply H.
Qed.

Lemma day_listed : forall day, 1 <= day <= 31 -> In day daysOfMonth.
Proof.
  intros day H. unfold daysOfMonth.
  replace day with (Z.of_nat (Z.to_nat day)) by lia.
  apply in_map, in_seq. lia.
Qed.

Lemma month_listed : forall month, 1 <= month <= 12 -> In month monthNumbers.
Proof.
  intros month H. unfold monthNumbers.
  replace month with (Z.of_nat (Z.to_nat month)) by lia.
  apply in_map, in_seq. lia.
Qed.

Lemma onlyMonthDay_chain : forall now s month day,
  onlyMonthDay s month day = true ->
  chain now s
  = mkLocals (0 + 0.75)%float (Some (thisOrNextYear now month day))
      (ParsedComponents.mk None None None (Some s) None) None None.
Proof.
  intros now s month day H. unfold onlyMonthDay in H.
  apply andb_true_iff in H. destruct H as [H H4].
  apply andb_true_iff in H. destruct H as [H H3].
  apply andb_true_iff in H. destruct H as [H1 H2].
  apply chain_monthDay; try assumption.
  apply (sameOption_eq _ sameMonthDay); [|exact H4].
  intros [a b] [c d] E. unfold sameMonthDay in E. cbn [fst snd] in E.
  apply andb_true_iff in E. destruct E as [E1 E2].
  apply Z.eqb_eq in E1, E2. now subst.
Qed.

(** The 14 phrases of weekdays: no time and no relative phrase is read in
    them, and the weekday pattern reads the phrase. *)
Lemma weekdayPhrases_read : forall next i,
  (i < 7)%nat ->
  noTime (weekdayPhrase next (nth i Parser.weekdays "")) = true
  /\ noRelative (weekdayPhrase next (nth i Parser.weekdays "")) = true
  /\ weekdayOf (weekdayPhrase next (nth i Parser.weekdays ""))
     = Some (next, i).
Proof.
  intros next i Hi.
  assert (Hall : forallb
                   (fun next : bool =>
                      forallb
                        (fun i =>
                           noTime (weekdayPhrase next
                                     (nth i Parser.weekdays ""))
                           && noRelative (weekdayPhrase next
                                            (nth i Parser.weekdays ""))
                           && sameOption
                                (fun a b =>
                                   Bool.eqb (fst a) (fst b)
                                   && Nat.eqb (snd a) (snd b))
                                (weekdayOf (weekdayPhrase next
                                              (nth i Parser.weekdays "")))
                                (Some (next, i)))%bool
                        (seq 0 7))
                   [false; true] = true)
    by (vm_compute; reflexivity).
  rewrite forallb_forall in Hall.
  assert (Hnext : In next [false; true]) by (destruct next; simpl; tauto).
  specialize (Hall _ Hnext). rewrite forallb_forall in Hall.
  assert (Hin : In i (seq 0 7)) by (apply in_seq; lia).
  specialize (Hall _ Hin).
  apply andb_true_iff in Hall. destruct Hall as [Hall H3].
  apply andb_true_iff in Hall. destruct Hall as [H1 H2].
  split; [exact H1|]. split; [exact H2|].
  apply sameOption_eq in H3; [exact H3|].
  intros [a b] [c d] E. cbn [fst snd] in E.
  apply andb_true_iff in E. destruct E as [E1 E2].
  apply Bool.eqb_prop in E1. apply Nat.eqb_eq in E2. now subst.
Qed.

(** A month name of the table and a day reach the month/day block alone,
    which reads the month of the table and the day. *)
Lemma monthNames_read : forall name month day,
  In (name, month) monthNameTable -> 1 <= day <= 31 ->
  onlyMonthDay (name ++ " " ++ ofZ day) month day = true.
Proof.
  intros name month day Hname Hday.
  assert (Hall : forallb
                   (fun row : string * Z =>
                      forallb
                        (fun day =>
                           onlyMonthDay (fst row ++ " " ++ ofZ day)
                             (snd row) day)
                        daysOfMonth)
                   monthNameTable = true)
    by (vm_compute; reflexivity).
  rewrite forallb_forall in Hall.
  specialize (Hall _ Hname). rewrite forallb_forall in Hall.
  exact (Hall _ (day_listed day Hday)).
Qed.

(** Two numbers with a slash or a hyphen between them reach the month/day
    block alone, which reads the first as the month and the second as the
    day. *)
Lemma numeric_read : forall sep month day,
  In sep ["/"; "-"] -> 1 <= month <= 12 -> 1 <= day <= 31 ->
  onlyMonthDay (ofZ month ++ sep ++ ofZ day) (month - 1) day = true.
Proof.
  intros sep month day Hsep Hmonth Hday.
  assert (Hall : forallb
                   (fun sep =>
                      forallb
                        (fun month =>
                           forallb
                             (fun day =>
                                onlyMonthDay (ofZ month ++ sep ++ ofZ day)
                                  (month - 1) day)
                             daysOfMonth)
                        monthNumbers)
                   ["/"; "-"] = true)
    by (vm_compute; reflexivity).
  rewrite forallb_forall in Hall.
  specialize (Hall _ Hsep). rewrite forallb_forall in Hall.
  specialize (Hall _ (month_listed month Hmonth)).
  rewrite forallb_forall in Hall.
  exact (Hall _ (day_listed day Hday)).
Qed.

Section Phrases.

Variable dateParse : string -> Date.

(** The result for an input whose normal form a resolver of the library
    reads. *)
Lemma parse_by_chain : forall now input st d,
  normalForm input <> "" ->
  chain now (normalForm input) = st ->
  parsedDate st = Some d ->
  parseSmartDateString dateParse now input
  = Some (DateParseResult.mk (applyTime d st) (Math_min (confidence st) 1.0)
            input (components st)).
Proof.
  intros now input st d Hne Hc Hd. rewrite parse_traced.
  assert (Hb : String.eqb (trim input) "" = false).
  { apply String.eqb_neq. intros E. apply Hne. unfold normalForm.
    now rewrite E. }
  rewrite Hb, resolve_chain, Hc. unfold resolveFallback. rewrite Hd.
  now rewrite Hd.
Qed.

Lemma getDay_addDays : forall now k t,
  addDays now k = ValidDate t ->
  getDay t = (getDay now + k) mod 7
  /\ timeWithinDay t = timeWithinDay now.
Proof.
  intros now k t H. unfold addDays, timeClip in H.
  destruct (Z.abs _ <=? maxTime); [|discriminate].
  injection H as <-. unfold getDay, timeWithinDay, dayOf, msPerDay.
  split.
  - rewrite Z.div_add by lia. rewrite Zplus_mod_idemp_l. f_equal. lia.
  - now rewrite Z_mod_plus_full.
Qed.

(** X20: a weekday name, with or without "next" before it, in any letter
    case and with white space around, resolves to the day [k] days after
    now, at the time of day of now, with confidence 0.8, or 0.85 with
    "next".  That day falls on the weekday named.  Without "next" [k] is
    from 1 to 7, and 7 exactly when today is the weekday named; with
    "next" [k] is from 1 to 13. *)
Theorem X20_weekday_phrases : forall now input next i name,
  nth_error Parser.weekdays i = Some name ->
  normalForm input = weekdayPhrase next name ->
  parseSmartDateString dateParse now input
  = Some (DateParseResult.mk (addDays now (daysUntilTarget now next i))
            (if next then 0.85 else 0.8) input
            (ParsedComponents.mk None None (Some (weekdayPhrase next name))
               None None))
  /\ 1 <= daysUntilTarget now next i <= (if next then 13 else 7)
  /\ (next = false ->
      (daysUntilTarget now next i = 7
       <-> getDay now = (Z.of_nat i + 1) mod 7))
  /\ (forall t,
        addDays now (daysUntilTarget now next i) = ValidDate t ->
        getDay t = (Z.of_nat i + 1) mod 7
        /\ timeWithinDay t = timeWithinDay now).
Proof.
  intros now input next i name Hi Hn.
  assert (Hlt : (i < 7)%nat).
  { change 7%nat with (List.length Parser.weekdays).
    apply nth_error_Some. congruence. }
  assert (Hname : name = nth i Parser.weekdays "").
  { symmetry. now apply nth_error_nth. }
  destruct (weekdayPhrases_read next i Hlt) as (H1 & H2 & H3).
  rewrite <- Hname in H1, H2, H3.
  pose proof (chain_weekday now _ next i H1 H2 H3) as Hc.
  pose proof (getDay_range now) as Hd.
  split; [|split; [|split]].
  - assert (Hne : normalForm input <> "").
    { rewrite Hn, Hname. clear - Hlt.
      destruct next; do 7 (destruct i as [|i]; [discriminate|]); lia. }
    rewrite (parse_by_chain now input _ _ Hne
               (eq_trans (f_equal (chain now) Hn) Hc) eq_refl).
    cbn [applyTime extractedTime confidence components Parser.confidence].
    f_equal. f_equal. destruct next; vm_compute; reflexivity.
  - unfold daysUntilTarget.
    destruct (getDay now =? 0) eqn:E0;
      [apply Z.eqb_eq in E0|apply Z.eqb_neq in E0];
      destruct next; cbn [orb];
      try destruct (_ <=? 0) eqn:E1;
      try apply Z.leb_le in E1; try apply Z.leb_gt in E1; lia.
  - intros ->. unfold daysUntilTarget. cbn [orb].
    assert (Hi7 : 0 <= Z.of_nat i <= 6) by lia.
    destruct (getDay now =? 0) eqn:E0;
      [apply Z.eqb_eq in E0|apply Z.eqb_neq in E0];
      destruct (_ <=? 0) eqn:E1;
      try apply Z.leb_le in E1; try apply Z.leb_gt in E1.
    + destruct (Z.eq_dec (Z.of_nat i) 6) as [E6|E6].
      * rewrite E0, E6. split; reflexivity.
      * split; [lia|]. intros E. rewrite Z.mod_small in E by lia. lia.
    + lia.
    + rewrite Z.mod_small by lia. lia.
    + split; [lia|]. intros E.
      destruct (Z.eq_dec (Z.of_nat i) 6) as [E6|E6].
      * rewrite E6 in E. change ((6 + 1) mod 7) with 0 in E. lia.
      * rewrite Z.mod_small in E by lia. lia.
  - intros t Ht. destruct (getDay_addDays now _ t Ht) as [Hg Hw].
    split; [|exact Hw]. rewrite Hg. unfold daysUntilTarget.
    destruct (getDay now =? 0) eqn:E0;
      [apply Z.eqb_eq in E0|apply Z.eqb_neq in E0];
      destruct (next || _)%bool.
    + rewrite E0. replace (0 + (Z.of_nat i + 1 - 7 + 7)) with (Z.of_nat i + 1)
        by lia. reflexivity.
    + rewrite E0. replace (0 + (Z.of_nat i + 1 - 7))
        with (Z.of_nat i + 1 + (-1) * 7) by lia.
      now rewrite Z_mod_plus_full.
    + replace (getDay now + (Z.of_nat i + 1 - getDay now + 7))
        with (Z.of_nat i + 1 + 1 * 7) by lia.
      now rewrite Z_mod_plus_full.
    + f_equal. lia.
Qed.

Lemma joined_not_empty : forall a sep b,
  sep <> "" -> a ++ sep ++ b <> "".
Proof.
  intros [|c a] [|d sep] b H; try discriminate. now elim H.
Qed.

(** X21: a month name of the month patterns and a day from 1 to 31, in
    any letter case and with white space around, resolve with confidence
    0.75 to that day of the month that the index of the name in
    [monthNames] gives, in the year of now or in the next: the names up to
    "may" give their month, and the names from "jun" on the month
    before. *)
Theorem X21_month_names : forall now input name month day,
  In (name, month) monthNameTable -> 1 <= day <= 31 ->
  normalForm input = name ++ " " ++ ofZ day ->
  parseSmartDateString dateParse now input
  = Some (DateParseResult.mk (thisOrNextYear now month day) 0.75 input
            (ParsedComponents.mk None None None
               (Some (name ++ " " ++ ofZ day)) None)).
Proof.
  intros now input name month day Hname Hday Hn.
  pose proof (monthNames_read name month day Hname Hday) as Hall.
  pose proof (onlyMonthDay_chain now _ _ _ Hall) as Hc.
  assert (Hne : normalForm input <> "").
  { rewrite Hn. apply joined_not_empty. discriminate. }
  rewrite (parse_by_chain now input _ _ Hne
             (eq_trans (f_equal (chain now) Hn) Hc) eq_refl).
  cbn [applyTime extractedTime confidence components Parser.confidence].
  replace (Math_min (0 + 0.75) 1.0) with 0.75%float
    by (vm_compute; reflexivity).
  reflexivity.
Qed.

(** X22: two numbers from 1 to 12 and from 1 to 31 with a slash or a
    hyphen between them, with white space around, resolve with confidence
    0.75 to the month of the first number and the day of the second, in
    the year of now or in the next.  The day may be any from 1 to 31,
    whatever the month. *)
Theorem X22_numeric_month_first : forall now input sep month day,
  In sep ["/"; "-"] -> 1 <= month <= 12 -> 1 <= day <= 31 ->
  normalForm input = ofZ month ++ sep ++ ofZ day ->
  parseSmartDateString dateParse now input
  = Some (DateParseResult.mk (thisOrNextYear now (month - 1) day) 0.75 input
            (ParsedComponents.mk None None None
               (Some (ofZ month ++ sep ++ ofZ day)) None)).
Proof.
  intros now input sep month day Hsep Hmonth Hday Hn.
  pose proof (numeric_read sep month day Hsep Hmonth Hday) as Hall.
  pose proof (onlyMonthDay_chain now _ _ _ Hall) as Hc.
  assert (Hne : normalForm input <> "").
  { rewrite Hn. apply joined_not_empty.
    destruct Hsep as [<-|[<-|[]]]; discriminate. }
  rewrite (parse_by_chain now input _ _ Hne
             (eq_trans (f_equal (chain now) Hn) Hc) eq_refl).
  cbn [applyTime extractedTime confidence components Parser.confidence].
  replace (Math_min (0 + 0.75) 1.0) with 0.75%float
    by (vm_compute; reflexivity).
  reflexivity.
Qed.

Lemma relative_phrase : forall now input phrase k d w,
  normalForm input = phrase -> phrase <> "" ->
  noTime phrase = true -> relativeOf phrase = Some k ->
  (forall m,
     match rpHandler (nth k relativePatterns
                        (byDays (mkRegExp "" false Bol) 0 0)) with
     | Some handler => Some (handler now m)
     | None =>
         match rpDays (nth k relativePatterns
                         (byDays (mkRegExp "" false Bol) 0 0)) with
         | Some days => Some (addDays now days)
         | None => None
         end
     end = Some d) ->
  Math_min (0 + rpConfidence (nth k relativePatterns
                                (byDays (mkRegExp "" false Bol) 0 0))) 1.0
  = w ->
  parseSmartDateString dateParse now input
  = Some (DateParseResult.mk d w input
            (ParsedComponents.mk (Some phrase) None None None None)).
Proof.
  intros now input phrase k d w Hn Hne Ht Hr Hd Hw.
  destruct (chain_relative now phrase k Ht Hr) as (m & _ & Hc).
  rewrite (Hd m) in Hc.
  unfold resolveWeekday, resolveMonthDay in Hc. cbn [parsedDate] in Hc.
  rewrite <- Hn in Hne.
  rewrite (parse_by_chain now input _ _ Hne
             (eq_trans (f_equal (chain now) Hn) Hc) eq_refl).
  cbn [applyTime extractedTime confidence components Parser.confidence].
  now rewrite Hw.
Qed.

(** X23: each of the sixteen fixed phrases of the table of relative
    phrases, in any letter case and with white space around, resolves to
    its date with its weight: today and now to now; tomorrow and yesterday
    to a day from now; the week phrases to seven days from now; the month
    phrases to a month from now; end of day and eod to the last
    millisecond of today, start of day and beginning of day to its
    first. *)
Theorem X23_relative_phrases : forall now input phrase k date w,
  In (phrase, k, date, w) relativePhrases ->
  normalForm input = phrase ->
  parseSmartDateString dateParse now input
  = Some (DateParseResult.mk (date now) w input
            (ParsedComponents.mk (Some phrase) None None None None)).
Proof.
  intros now input phrase k date w Hin Hn.
  unfold relativePhrases in Hin. simpl in Hin.
  repeat (destruct Hin as [Hin|Hin];
          [injection Hin as <- <- <- <-;
           eapply (relative_phrase now input _ _ _ _ Hn);
           [discriminate|vm_compute; reflexivity|vm_compute; reflexivity
           |intros m; reflexivity|vm_compute; reflexivity]|]).
  destruct Hin.
Qed.

End Phrases.

(** "Friday" on the Wednesday of the examples: two days ahead. *)
Lemma X20_witness :
  nth_error Parser.weekdays 4 = Some "friday"
  /\ normalForm " Friday " = weekdayPhrase false "friday"
  /\ parseSmartDateString (fun _ => InvalidDate) newYear2025 " Friday "
     = Some (DateParseResult.mk
               (addDays newYear2025 (daysUntilTarget newYear2025 false 4))
               0.8 " Friday "
               (ParsedComponents.mk None None
                  (Some (weekdayPhrase false "friday")) None None))
  /\ daysUntilTarget newYear2025 false 4 = 2.
Proof.
  assert (H1 : nth_error Parser.weekdays 4 = Some "friday") by reflexivity.
  assert (H2 : normalForm " Friday " = weekdayPhrase false "friday")
    by reflexivity.
  split; [exact H1|]. split; [exact H2|]. split; [|reflexivity].
  exact (proj1 (X20_weekday_phrases (fun _ => InvalidDate) newYear2025
                  " Friday " false 4 "friday" H1 H2)).
Defined.

(** "Oct 15" gives the 15th of September. *)
Lemma X21_witness :
  In ("oct", 8) monthNameTable /\ 1 <= 15 <= 31
  /\ normalForm "Oct 15" = "oct" ++ " " ++ ofZ 15
  /\ parseSmartDateString (fun _ => InvalidDate) newYear2025 "Oct 15"
     = Some (DateParseResult.mk (thisOrNextYear newYear2025 8 15) 0.75
               "Oct 15"
               (ParsedComponents.mk None None None
                  (Some ("oct" ++ " " ++ ofZ 15)) None))
  /\ fields (thisOrNextYear newYear2025 8 15) = Some (2025, 9, 15, 0, 0).
Proof.
  assert (H1 : In ("oct", 8) monthNameTable) by (simpl; tauto).
  assert (H2 : 1 <= 15 <= 31) by lia.
  assert (H3 : normalForm "Oct 15" = "oct" ++ " " ++ ofZ 15) by reflexivity.
  split; [exact H1|]. split; [exact H2|]. split; [exact H3|].
  split; [|reflexivity].
  exact (X21_month_names (fun _ => InvalidDate) newYear2025 "Oct 15" "oct" 8
           15 H1 H2 H3).
Defined.

(** "2/31" gives the 3rd of March. *)
Lemma X22_witness :
  In "/" ["/"; "-"] /\ 1 <= 2 <= 12 /\ 1 <= 31 <= 31
  /\ normalForm "2/31" = ofZ 2 ++ "/" ++ ofZ 31
  /\ parseSmartDateString (fun _ => InvalidDate) newYear2025 "2/31"
     = Some (DateParseResult.mk (thisOrNextYear newYear2025 (2 - 1) 31) 0.75
               "2/31"
               (ParsedComponents.mk None None None
                  (Some (ofZ 2 ++ "/" ++ ofZ 31)) None))
  /\ fields (thisOrNextYear newYear2025 (2 - 1) 31) = Some (2025, 3, 3, 0, 0).
Proof.
  assert (H1 : In "/" ["/"; "-"]) by (simpl; tauto).
  assert (H2 : 1 <= 2 <= 12) by lia.
  assert (H3 : 1 <= 31 <= 31) by lia.
  assert (H4 : normalForm "2/31" = ofZ 2 ++ "/" ++ ofZ 31) by reflexivity.
  split; [exact H1|]. split; [exact H2|]. split; [exact H3|].
  split; [exact H4|]. split; [|reflexivity].
  exact (X22_numeric_month_first (fun _ => InvalidDate) newYear2025 "2/31"
           "/" 2 31 H1 H2 H3 H4).
Defined.

Lemma X23_witness :
  In ("eod", 9%nat, fun now => endOfDay now, 0.7%float) relativePhrases
  /\ normalForm " EOD" = "eod"
  /\ parseSmartDateString (fun _ => InvalidDate) newYear2025 " EOD"
     = Some (DateParseResult.mk (endOfDay newYear2025) 0.7 " EOD"
               (ParsedComponents.mk (Some "eod") None None None None)).
Proof.
  assert (H1 : In ("eod", 9%nat, fun now => endOfDay now, 0.7%float)
                 relativePhrases) by (simpl; tauto).
  assert (H2 : normalForm " EOD" = "eod") by reflexivity.
  split; [exact H1|]. split; [exact H2|].
  exact (X23_relative_phrases (fun _ => InvalidDate) newYear2025 " EOD"
           "eod" 9%nat (fun now => endOfDay now) 0.7%float H1 H2).
Defined.


(** ** The calendar *)

Lemma allFrom_spec : forall start n p,
  allFrom start n p = true ->
  forall z, start <= z < start + Z.of_N n -> p z = true.
Proof.
  intros start n p. unfold allFrom.
  assert (Hf : forall k,
            fst (N.iter k
                   (fun zb : Z * bool =>
                      (fst zb + 1, (snd zb && p (fst zb))%bool))
                   (start, true))
            = start + Z.of_N k).
  { induction k as [|k IHk] using N.peano_ind; [simpl; lia|].
    rewrite N.iter_succ. cbn [fst]. rewrite IHk. lia. }
  induction n as [|n IH] using N.peano_ind; intros H z Hz; [lia|].
  rewrite N.iter_succ in H. cbn [fst snd] in H.
  apply andb_true_iff in H. destruct H as [H1 H2].
  rewrite Hf in H2.
  destruct (Z.eq_dec z (start + Z.of_N n)) as [->|Hne]; [exact H2|].
  apply IH; [exact H1|lia].
Qed.

Lemma march_era : forall e k,
  marchDays (400 * e + k) = 146097 * e + marchDays k.
Proof.
  intros e k. unfold marchDays. Z.div_mod_to_equations. lia.
Qed.

Lemma march_step : forall n, 365 <= marchDays (n + 1) - marchDays n <= 366.
Proof.
  intros n. unfold marchDays. Z.div_mod_to_equations. lia.
Qed.

Lemma march_range : forall k, 0 <= k <= 400 -> 0 <= marchDays k <= 146097.
Proof.
  intros k H. unfold marchDays. Z.div_mod_to_equations. lia.
Qed.

Lemma march_bracket_upto : forall (n : nat) w,
  0 <= w < marchDays (Z.of_nat n) ->
  exists k, 0 <= k < Z.of_nat n /\ marchDays k <= w < marchDays (k + 1).
Proof.
  induction n as [|n IH]; intros w Hw.
  - change (marchDays (Z.of_nat 0)) with 0 in Hw. lia.
  - rewrite Nat2Z.inj_succ in *. unfold Z.succ in *.
    destruct (Z_lt_le_dec w (marchDays (Z.of_nat n))) as [Hlt|Hge].
    + destruct (IH w ltac:(lia)) as (k & Hk & Hb).
      exists k. split; [lia|exact Hb].
    + exists (Z.of_nat n). split; lia.
Qed.

(** Every day lies in one year from March to March. *)
Lemma march_bracket : forall w,
  exists n, marchDays n <= w < marchDays (n + 1).
Proof.
  intros w.
  pose proof (Z.div_mod w 146097 ltac:(lia)) as Hd.
  pose proof (Z.mod_pos_bound w 146097 ltac:(lia)) as Hb.
  destruct (march_bracket_upto 400 (w mod 146097)) as (k & Hk & Hkb).
  { change (marchDays (Z.of_nat 400)) with 146097. lia. }
  exists (400 * (w / 146097) + k).
  replace (400 * (w / 146097) + k + 1) with (400 * (w / 146097) + (k + 1))
    by lia.
  rewrite !march_era. lia.
Qed.

Lemma yearOfEra_mono : forall d1 d2,
  0 <= d1 <= d2 -> d2 <= 146096 -> yearOfEra d1 <= yearOfEra d2.
Proof.
  intros d1 d2 H H2. unfold yearOfEra. apply Z.div_le_mono; [lia|].
  Z.div_mod_to_equations. lia.
Qed.

Lemma yearOfEra_spec : forall k doe,
  0 <= k < 400 -> marchDays k <= doe < marchDays (k + 1) ->
  yearOfEra doe = k.
Proof.
  intros k doe Hk Hb.
  assert (Hall : allFrom 0 400 yearChecked = true)
    by (vm_compute; reflexivity).
  pose proof (allFrom_spec _ _ _ Hall k ltac:(lia)) as H.
  unfold yearChecked in H. apply andb_true_iff in H. destruct H as [H1 H2].
  apply Z.eqb_eq in H1, H2.
  pose proof (march_range k ltac:(lia)) as R1.
  pose proof (march_range (k + 1) ltac:(lia)) as R2.
  pose proof (yearOfEra_mono (marchDays k) doe ltac:(lia) ltac:(lia)).
  pose proof (yearOfEra_mono doe (marchDays (k + 1) - 1) ltac:(lia)
                ltac:(lia)).
  lia.
Qed.

(** The civil date of a day, by the year from March to March it lies in. *)
Lemma civil_march : forall z n,
  marchDays n <= z + 719468 < marchDays (n + 1) ->
  civilFromDays z
  = (let doy := z + 719468 - marchDays n in
     let mp := (5 * doy + 2) / 153 in
     let d := doy - (153 * mp + 2) / 5 + 1 in
     let m := if mp <? 10 then mp + 3 else mp - 9 in
     (if m <=? 2 then n + 1 else n, m, d)).
Proof.
  intros z n H.
  pose proof (Z.div_mod n 400 ltac:(lia)) as Hn.
  pose proof (Z.mod_pos_bound n 400 ltac:(lia)) as Hk.
  remember (n / 400) as e eqn:He. remember (n mod 400) as k eqn:Hkk.
  clear He Hkk.
  assert (E1 : marchDays n = 146097 * e + marchDays k)
    by (rewrite Hn; apply march_era).
  assert (E2 : marchDays (n + 1) = 146097 * e + marchDays (k + 1)).
  { replace (n + 1) with (400 * e + (k + 1)) by lia. apply march_era. }
  pose proof (march_range k ltac:(lia)) as R1.
  pose proof (march_range (k + 1) ltac:(lia)) as R2.
  assert (Ee : (z + 719468) / 146097 = e).
  { symmetry. apply Z.div_unique with (r := z + 719468 - 146097 * e); lia. }
  assert (Ey : yearOfEra (z + 719468 - e * 146097) = k)
    by (apply yearOfEra_spec; lia).
  assert (Ek : marchDays k = 365 * k + k / 4 - k / 100).
  { unfold marchDays. rewrite (Z.div_small k 400) by lia. lia. }
  unfold civilFromDays. cbv zeta. rewrite Ee.
  unfold yearOfEra in Ey. rewrite Ey.
  replace (z + 719468 - e * 146097 - (365 * k + k / 4 - k / 100))
    with (z + 719468 - marchDays n) by lia.
  replace (k + e * 400) with n by lia.
  reflexivity.
Qed.

Lemma daysFromCivil_march : forall y m d,
  daysFromCivil y m d
  = marchDays (if m <=? 2 then y - 1 else y)
    + (153 * (if 2 <? m then m - 3 else m + 9) + 2) / 5 + d - 1 - 719468.
Proof.
  intros y m d. unfold daysFromCivil. cbv zeta.
  generalize (if m <=? 2 then y - 1 else y) as y'.
  generalize ((153 * (if 2 <? m then m - 3 else m + 9) + 2) / 5) as q.
  intros q y'. unfold marchDays. Z.div_mod_to_equations. lia.
Qed.

Lemma daysFromCivil_early : forall y m d,
  m <= 2 ->
  daysFromCivil y m d
  = marchDays (y - 1) + (153 * (m + 9) + 2) / 5 + d - 1 - 719468.
Proof.
  intros y m d H. rewrite daysFromCivil_march.
  replace (m <=? 2) with true by (symmetry; apply Z.leb_le; lia).
  replace (2 <? m) with false by (symmetry; apply Z.ltb_ge; lia).
  reflexivity.
Qed.

Lemma daysFromCivil_late : forall y m d,
  3 <= m ->
  daysFromCivil y m d
  = marchDays y + (153 * (m - 3) + 2) / 5 + d - 1 - 719468.
Proof.
  intros y m d H. rewrite daysFromCivil_march.
  replace (m <=? 2) with false by (symmetry; apply Z.leb_gt; lia).
  replace (2 <? m) with true by (symmetry; apply Z.ltb_lt; lia).
  reflexivity.
Qed.

Lemma daysFromCivil_day : forall y m d,
  daysFromCivil y m d = daysFromCivil y m 1 + d - 1.
Proof.
  intros y m d. unfold daysFromCivil. cbv zeta. lia.
Qed.

Lemma year_start : forall y,
  daysFromCivil y 1 1 = marchDays (y - 1) + 306 - 719468.
Proof.
  intros y. rewrite daysFromCivil_early by lia.
  change ((153 * (1 + 9) + 2) / 5) with 306. lia.
Qed.

Lemma month_of_doy : forall mp j,
  0 <= mp <= 11 -> 0 <= j -> (153 * mp + 2) / 5 + j <= 365 ->
  (mp <= 10 -> (153 * mp + 2) / 5 + j < (153 * (mp + 1) + 2) / 5) ->
  (5 * ((153 * mp + 2) / 5 + j) + 2) / 153 = mp.
Proof.
  intros mp j Hmp Hj Hup Hin. Z.div_mod_to_equations. lia.
Qed.

Lemma civil_of_march : forall n mp j,
  0 <= mp <= 11 -> 0 <= j ->
  marchDays n + (153 * mp + 2) / 5 + j < marchDays (n + 1) ->
  (mp <= 10 -> (153 * mp + 2) / 5 + j < (153 * (mp + 1) + 2) / 5) ->
  civilFromDays (marchDays n + (153 * mp + 2) / 5 + j - 719468)
  = (if mp <? 10 then n else n + 1, if mp <? 10 then mp + 3 else mp - 9,
     j + 1).
Proof.
  intros n mp j Hmp Hj Hup Hin.
  pose proof (march_step n) as Hs.
  assert (Hq : 0 <= (153 * mp + 2) / 5) by (Z.div_mod_to_equations; lia).
  rewrite (civil_march _ n) by lia. cbv zeta.
  replace (marchDays n + (153 * mp + 2) / 5 + j - 719468 + 719468
           - marchDays n)
    with ((153 * mp + 2) / 5 + j) by lia.
  rewrite (month_of_doy mp j Hmp Hj ltac:(lia) Hin).
  replace ((153 * mp + 2) / 5 + j - (153 * mp + 2) / 5 + 1) with (j + 1)
    by lia.
  destruct (mp <? 10) eqn:E; [apply Z.ltb_lt in E|apply Z.ltb_ge in E].
  - replace (mp + 3 <=? 2) with false by (symmetry; apply Z.leb_gt; lia).
    reflexivity.
  - replace (mp - 9 <=? 2) with true by (symmetry; apply Z.leb_le; lia).
    reflexivity.
Qed.

(** The civil date of a day number. *)
Lemma civil_facts : forall z,
  let '(y, m, d) := civilFromDays z in
  daysFromCivil y m d = z /\ 1 <= m <= 12 /\ 1 <= d <= 31
  /\ daysFromCivil y 1 1 <= z < daysFromCivil (y + 1) 1 1.
Proof.
  intros z. destruct (march_bracket (z + 719468)) as (n & Hn).
  rewrite (civil_march z n Hn). cbv beta iota zeta.
  pose proof (march_step n) as Hs.
  pose proof (march_step (n - 1)) as Hp.
  replace (n - 1 + 1) with n in Hp by lia.
  pose proof (march_step (n + 1)) as Hq.
  set (doy := z + 719468 - marchDays n) in *.
  assert (Hdoy : 0 <= doy <= 365) by (unfold doy; lia).
  set (mp := (5 * doy + 2) / 153) in *.
  assert (Hmp : 0 <= mp <= 11) by (unfold mp; Z.div_mod_to_equations; lia).
  assert (Hback : (153 * mp + 2) / 5 <= doy <= (153 * mp + 2) / 5 + 30)
    by (unfold mp; Z.div_mod_to_equations; lia).
  assert (Hten : mp < 10 <-> doy <= 305)
    by (unfold mp; Z.div_mod_to_equations; lia).
  rewrite !year_start.
  destruct (mp <? 10) eqn:E; [apply Z.ltb_lt in E|apply Z.ltb_ge in E].
  - replace (mp + 3 <=? 2) with false by (symmetry; apply Z.leb_gt; lia).
    rewrite daysFromCivil_late by lia.
    replace (mp + 3 - 3) with mp by lia.
    replace (n + 1 - 1) with n by lia.
    unfold doy in *. lia.
  - replace (mp - 9 <=? 2) with true by (symmetry; apply Z.leb_le; lia).
    rewrite daysFromCivil_early by lia.
    replace (mp - 9 + 9) with mp by lia.
    replace (n + 1 - 1) with n by lia.
    replace (n + 1 + 1 - 1) with (n + 1) by lia.
    unfold doy in *. lia.
Qed.

(** The months of a year: where they start, how long they are, and the
    civil dates of their days. *)
Lemma month_facts : forall y m,
  1 <= m <= 12 ->
  daysFromCivil y 1 1 <= daysFromCivil y m 1 <= daysFromCivil y 1 1 + 335
  /\ 365 <= daysFromCivil (y + 1) m 1 - daysFromCivil y m 1 <= 366
  /\ 28 <= daysFromCivil (y + m / 12) (m mod 12 + 1) 1 - daysFromCivil y m 1
     <= 31
  /\ forall k,
       1 <= k
       <= daysFromCivil (y + m / 12) (m mod 12 + 1) 1 - daysFromCivil y m 1 ->
       civilFromDays (daysFromCivil y m 1 + k - 1) = (y, m, k).
Proof.
  intros y m Hm.
  pose proof (march_step (y - 1)) as P1.
  replace (y - 1 + 1) with y in P1 by lia.
  pose proof (march_step y) as P2.
  rewrite !year_start.
  destruct (Z.eq_dec m 12) as [->|H12].
  - change (12 / 12) with 1. change (12 mod 12 + 1) with 1.
    rewrite year_start. rewrite !daysFromCivil_late by lia.
    replace (y + 1 - 1) with y by lia.
    change ((153 * (12 - 3) + 2) / 5) with 275.
    split; [lia|]. split; [lia|]. split; [lia|].
    intros k Hk.
    replace (marchDays y + 275 + 1 - 1 - 719468 + k - 1)
      with (marchDays y + (153 * 9 + 2) / 5 + (k - 1) - 719468)
      by (change ((153 * 9 + 2) / 5) with 275; lia).
    rewrite civil_of_march.
    + f_equal. lia.
    + lia.
    + lia.
    + change ((153 * 9 + 2) / 5) with 275. lia.
    + intros _. change ((153 * 9 + 2) / 5) with 275.
      change ((153 * (9 + 1) + 2) / 5) with 306. lia.
  - rewrite (Z.div_small m 12), (Z.mod_small m 12), Z.add_0_r by lia.
    destruct (Z_le_gt_dec m 2) as [Hearly|Hlate].
    + rewrite !(daysFromCivil_early _ m) by lia.
      replace (y + 1 - 1) with y by lia.
      assert (Enext : daysFromCivil y (m + 1) 1 + 719468
                      = if m =? 1 then marchDays (y - 1) + 337
                        else marchDays y).
      { destruct (Z.eq_dec m 1) as [->|H1].
        - rewrite daysFromCivil_early by lia. cbn [Z.eqb Pos.eqb].
          change ((153 * (1 + 1 + 9) + 2) / 5) with 337. lia.
        - replace m with 2 by lia. rewrite daysFromCivil_late by lia.
          cbn [Z.eqb Pos.eqb].
          change ((153 * (2 + 1 - 3) + 2) / 5) with 0. lia. }
      assert (Eq : (153 * (m + 9) + 2) / 5 = if m =? 1 then 306 else 337).
      { destruct (Z.eq_dec m 1) as [->|H1]; [reflexivity|].
        replace m with 2 by lia. reflexivity. }
      split; [destruct (m =? 1); lia|]. split; [lia|].
      split; [destruct (m =? 1); lia|].
      intros k Hk.
      replace (marchDays (y - 1) + (153 * (m + 9) + 2) / 5 + 1 - 1 - 719468
               + k - 1)
        with (marchDays (y - 1) + (153 * (m + 9) + 2) / 5 + (k - 1) - 719468)
        by lia.
      replace (y - 1 + 1) with y in * by lia.
      rewrite civil_of_march.
      * replace (m + 9 <? 10) with false by (symmetry; apply Z.ltb_ge; lia).
        f_equal; [f_equal|]; lia.
      * lia.
      * lia.
      * replace (y - 1 + 1) with y by lia. destruct (m =? 1); lia.
      * intros Hten. assert (m = 1) by lia. subst m.
        change ((153 * (1 + 9) + 2) / 5) with 306.
        change ((153 * (1 + 9 + 1) + 2) / 5) with 337.
        cbn [Z.eqb Pos.eqb] in *. lia.
    + rewrite !(daysFromCivil_late _ m) by lia.
      rewrite (daysFromCivil_late _ (m + 1)) by lia.
      assert (Hq : 0 <= (153 * (m - 3) + 2) / 5 <= 245
                   /\ 30 <= (153 * (m + 1 - 3) + 2) / 5
                            - (153 * (m - 3) + 2) / 5 <= 31)
        by (Z.div_mod_to_equations; lia).
      split; [lia|]. split; [lia|]. split; [lia|].
      intros k Hk.
      replace (marchDays y + (153 * (m - 3) + 2) / 5 + 1 - 1 - 719468
               + k - 1)
        with (marchDays y + (153 * (m - 3) + 2) / 5 + (k - 1) - 719468)
        by lia.
      rewrite civil_of_march.
      * replace (m - 3 <? 10) with true by (symmetry; apply Z.ltb_lt; lia).
        f_equal; [f_equal|]; lia.
      * lia.
      * lia.
      * lia.
      * intros _. replace (m - 3 + 1) with (m + 1 - 3) by lia. lia.
Qed.

(** ** Dates by their fields *)

Lemma time_split : forall t,
  t = dayOf t * msPerDay + timeWithinDay t /\ 0 <= timeWithinDay t < msPerDay.
Proof.
  intros t. unfold dayOf, timeWithinDay, msPerDay.
  pose proof (Z.div_mod t 86400000 ltac:(lia)).
  pose proof (Z.mod_pos_bound t 86400000 ltac:(lia)). lia.
Qed.

Lemma dayOf_makeDate : forall day time,
  0 <= time < msPerDay ->
  dayOf (makeDate day time) = day /\ timeWithinDay (makeDate day time) = time.
Proof.
  intros day time H. unfold dayOf, timeWithinDay, makeDate, msPerDay in *.
  Z.div_mod_to_equations. lia.
Qed.

Lemma fields_of_day : forall day time y m d,
  0 <= time < msPerDay -> civilFromDays day = (y, m, d) ->
  getFullYear (makeDate day time) = y /\ getMonth (makeDate day time) = m - 1
  /\ getDate (makeDate day time) = d.
Proof.
  intros day time y m d Ht H. unfold getFullYear, getMonth, getDate.
  rewrite (proj1 (dayOf_makeDate day time Ht)), H. tauto.
Qed.

Lemma date_fields : forall t,
  daysFromCivil (getFullYear t) (getMonth t + 1) (getDate t) = dayOf t
  /\ 0 <= getMonth t <= 11 /\ 1 <= getDate t <= 31
  /\ daysFromCivil (getFullYear t) 1 1 <= dayOf t
     < daysFromCivil (getFullYear t + 1) 1 1.
Proof.
  intros t. unfold getFullYear, getMonth, getDate.
  pose proof (civil_facts (dayOf t)) as H.
  destruct (civilFromDays (dayOf t)) as [[y m] d].
  replace (m - 1 + 1) with m by lia. lia.
Qed.

Lemma makeDay_month : forall y month d,
  0 <= month <= 11 ->
  makeDay y month d = daysFromCivil y (month + 1) 1 + d - 1.
Proof.
  intros y month d H. unfold makeDay.
  rewrite Z.div_small, Z.mod_small, Z.add_0_r by lia. reflexivity.
Qed.

Lemma makeDay_day : forall y month d,
  makeDay y month d = makeDay y month 1 + d - 1.
Proof.
  intros y month d. unfold makeDay. lia.
Qed.

Lemma makeDay_today : forall t,
  makeDay (getFullYear t) (getMonth t) (getDate t) = dayOf t.
Proof.
  intros t. destruct (date_fields t) as (H1 & H2 & _).
  rewrite makeDay_month by lia. rewrite daysFromCivil_day in H1. lia.
Qed.

Lemma month_step : forall month,
  month / 12 + (month mod 12 + 1) / 12 = (month + 1) / 12
  /\ (month mod 12 + 1) mod 12 = (month + 1) mod 12.
Proof.
  intros month. Z.div_mod_to_equations. lia.
Qed.

(** The month MakeDay reaches has 28 to 31 days, and MakeDay on one of its
    days is the day of that civil date. *)
Lemma makeDay_facts : forall y month,
  28 <= makeDay y (month + 1) 1 - makeDay y month 1 <= 31
  /\ forall k,
       1 <= k <= makeDay y (month + 1) 1 - makeDay y month 1 ->
       civilFromDays (makeDay y month k)
       = (y + month / 12, month mod 12 + 1, k).
Proof.
  intros y month.
  pose proof (Z.mod_pos_bound month 12 ltac:(lia)) as Hb.
  destruct (month_facts (y + month / 12) (month mod 12 + 1) ltac:(lia))
    as (_ & _ & HL & Hk).
  destruct (month_step month) as [E1 E2].
  rewrite <- Z.add_assoc, E1, E2 in HL, Hk.
  unfold makeDay.
  split; [lia|]. intros k Hj. apply Hk. lia.
Qed.

(** [setDate] on the day of the month plus [n] moves by [n] days. *)
Lemma setDate_addDays : forall t n,
  Presets.setDate t (getDate t + n) = addDays t n.
Proof.
  intros t n. unfold Presets.setDate, addDays. f_equal.
  rewrite makeDay_day.
  pose proof (makeDay_today t) as H. rewrite makeDay_day in H.
  destruct (time_split t) as [Hs _]. unfold makeDate.
  unfold msPerDay in *. lia.
Qed.

Lemma year_start_mono : forall a n,
  0 <= n -> daysFromCivil a 1 1 <= daysFromCivil (a + n) 1 1.
Proof.
  intros a n Hn. pattern n. apply natlike_ind; [| |exact Hn].
  - rewrite Z.add_0_r. lia.
  - intros x Hx IH.
    destruct (month_facts (a + x) 1 ltac:(lia)) as (_ & H & _).
    replace (a + Z.succ x) with (a + x + 1) by lia. lia.
Qed.

Lemma year_from_1970 : forall t, 0 <= t -> 1970 <= getFullYear t.
Proof.
  intros t Ht. destruct (date_fields t) as (_ & _ & _ & HJ).
  destruct (Z_lt_le_dec (getFullYear t) 1970) as [Hlt|Hge]; [|exact Hge].
  exfalso.
  pose proof (year_start_mono (getFullYear t + 1)
                (1970 - (getFullYear t + 1)) ltac:(lia)) as H.
  replace (getFullYear t + 1 + (1970 - (getFullYear t + 1))) with 1970 in H
    by lia.
  assert (E0 : daysFromCivil 1970 1 1 = 0) by reflexivity.
  assert (Hd : 0 <= dayOf t) by (unfold dayOf, msPerDay; apply Z.div_pos; lia).
  lia.
Qed.

(** The date of a month and a day is midnight of a day not before now and
    less than 366 days ahead. *)
Lemma thisOrNextYear_ahead : forall now month day,
  0 <= now <= maxTime - 366 * msPerDay ->
  0 <= month <= 11 -> 1 <= day <= 31 ->
  exists t,
    thisOrNextYear now month day = ValidDate t
    /\ now <= t < now + 366 * msPerDay /\ timeWithinDay t = 0.
Proof.
  intros now month day Hnow Hm Hd.
  pose proof (year_from_1970 now ltac:(lia)) as Hy.
  destruct (date_fields now) as (_ & _ & _ & HJ).
  destruct (time_split now) as [Hs Hw].
  set (y := getFullYear now) in *.
  destruct (month_facts y (month + 1) ltac:(lia)) as (HS & HS' & _).
  destruct (month_facts y 1 ltac:(lia)) as (_ & HJ' & _).
  destruct (month_facts (y + 1) (month + 1) ltac:(lia)) as (HS2 & _).
  pose proof (year_start_mono 1970 (y - 1970) ltac:(lia)) as H0.
  replace (1970 + (y - 1970)) with y in H0 by lia.
  assert (E0 : daysFromCivil 1970 1 1 = 0) by reflexivity.
  rewrite E0 in H0.
  unfold thisOrNextYear. fold y. cbv zeta. unfold ofYMD.
  replace ((0 <=? y) && (y <=? 99))%bool with false
    by (symmetry; apply andb_false_iff; right; apply Z.leb_gt; lia).
  replace ((0 <=? y + 1) && (y + 1 <=? 99))%bool with false
    by (symmetry; apply andb_false_iff; right; apply Z.leb_gt; lia).
  rewrite !makeDay_month by lia. unfold makeDate. rewrite !Z.add_0_r.
  set (S1 := daysFromCivil y (month + 1) 1) in *.
  set (S2 := daysFromCivil (y + 1) (month + 1) 1) in *.
  rewrite (timeClip_valid ((S1 + day - 1) * msPerDay))
    by (unfold msPerDay, maxTime in *; lia).
  cbn [ltTime].
  destruct ((S1 + day - 1) * msPerDay <? now) eqn:E;
    [apply Z.ltb_lt in E|apply Z.ltb_ge in E].
  - rewrite timeClip_valid by (unfold msPerDay, maxTime in *; lia).
    eexists. split; [reflexivity|]. split.
    + unfold msPerDay in *. lia.
    + unfold timeWithinDay. apply Z_mod_mult.
  - eexists. split; [reflexivity|]. split.
    + unfold msPerDay in *. lia.
    + unfold timeWithinDay. apply Z_mod_mult.
Qed.

Lemma timeClip_some : forall x t, timeClip x = ValidDate t -> t = x.
Proof.
  intros x t H. unfold timeClip in H.
  destruct (Z.abs x <=? maxTime); [|discriminate]. now injection H.
Qed.

(** The month and the day of the date of a month and a day that every
    month has. *)
Lemma thisOrNextYear_fields : forall now month day t,
  0 <= now -> 0 <= month <= 11 -> 1 <= day <= 28 ->
  thisOrNextYear now month day = ValidDate t ->
  getMonth t = month /\ getDate t = day.
Proof.
  intros now month day t Hnow Hm Hd H.
  pose proof (year_from_1970 now Hnow) as Hy.
  assert (Hfields : forall year x,
            timeClip (makeDate (makeDay year month day) 0) = ValidDate x ->
            getMonth x = month /\ getDate x = day).
  { intros year x Hx. apply timeClip_some in Hx. subst x.
    destruct (makeDay_facts year month) as [HL Hk].
    destruct (fields_of_day (makeDay year month day) 0 _ _ _
                ltac:(unfold msPerDay; lia) (Hk day ltac:(lia)))
      as (_ & FM & FD).
    rewrite FM, FD. rewrite Z.mod_small by lia. lia. }
  unfold thisOrNextYear in H. cbv zeta in H. unfold ofYMD in H.
  replace ((0 <=? getFullYear now) && (getFullYear now <=? 99))%bool
    with false in H
    by (symmetry; apply andb_false_iff; right; apply Z.leb_gt; lia).
  replace ((0 <=? getFullYear now + 1) && (getFullYear now + 1 <=? 99))%bool
    with false in H
    by (symmetry; apply andb_false_iff; right; apply Z.leb_gt; lia).
  destruct (ltTime _ now); apply (Hfields _ _ H).
Qed.



(** ** Month and day *)

(** The date component is set by the month/day block alone, with the date
    of a month from 0 to 11 and a day from 1 to 31. *)
Lemma chain_date_component : forall now trimmed,
  ParsedComponents.date (components (chain now trimmed)) <> None ->
  exists month day,
    0 <= month <= 11 /\ 1 <= day <= 31
    /\ parsedDate (chain now trimmed) = Some (thisOrNextYear now month day).
Proof.
  intros now trimmed. unfold chain.
  set (st := extractTime trimmed initial).
  set (text := inputWithoutTime trimmed st).
  assert (H0 : ParsedComponents.date (components st) = None).
  { unfold st, extractTime.
    destruct (firstMatch timePatterns trimmed) as [[pat m]|]; [|reflexivity].
    destruct (timeHours m) as [h|]; [|reflexivity].
    destruct (timeMinutes m) as [mi|]; [|reflexivity].
    now destruct (timeInRange (Some h) (Some mi)). }
  assert (H1 : ParsedComponents.date
                 (components (resolveRelative now text st)) = None).
  { unfold resolveRelative.
    now destruct (firstRelative relativePatterns text) as [[row m]|]. }
  set (st1 := resolveRelative now text st) in *.
  assert (H2 : ParsedComponents.date
                 (components (resolveWeekday now text st1)) = None).
  { unfold resolveWeekday. destruct (parsedDate st1); [exact H1|].
    destruct (exec weekdayPattern text) as [m|]; [|exact H1].
    destruct (option_map toLowerCase (group 2 m)) as [name|]; [|exact H1].
    now destruct (indexOf name Parser.weekdays). }
  set (st2 := resolveWeekday now text st1) in *.
  unfold resolveMonthDay.
  destruct (parsedDate st2); [intros H; contradiction|].
  destruct (firstMatch monthPatterns text) as [[pat m]|];
    [|intros H; contradiction].
  destruct (monthAndDay pat m) as [[month|] [day|]];
    try (intros H; contradiction).
  destruct (monthDayInRange (Some month) (Some day)) eqn:E;
    [|intros H; contradiction].
  intros _. exists month, day. cbn [parsedDate].
  unfold monthDayInRange in E.
  repeat (apply andb_true_iff in E; destruct E as [E ?]).
  repeat match goal with
         | H : (_ <=? _) = true |- _ => apply Z.leb_le in H
         end.
  split; [lia|]. split; [lia|]. reflexivity.
Qed.

Lemma ahead_days : forall now t,
  now <= t < now + 366 * msPerDay -> timeWithinDay t = 0 ->
  dayOf now <= dayOf t <= dayOf now + 366
  /\ (dayOf t = dayOf now -> timeWithinDay now = 0).
Proof.
  intros now t H Hw.
  destruct (time_split now) as [Hn Hnw]. destruct (time_split t) as [Ht Htw].
  rewrite Hw in Ht. unfold msPerDay in *. lia.
Qed.

Section Ahead.

Variable dateParse : string -> Date.

(** X24: a result with a date component, which the month/day block alone
    sets, is a valid date on a day not before the day of now and at most
    366 days after it.  It is on the day of now only when now is midnight
    sharp: at any other time of the day, the month and the day of today
    resolve to the next year.  Without a time component the date is at
    midnight. *)
Theorem X24_month_and_day_lie_ahead : forall now input r,
  0 <= now <= maxTime - 368 * msPerDay ->
  parseSmartDateString dateParse now input = Some r ->
  ParsedComponents.date (DateParseResult.parsedComponents r) <> None ->
  exists t,
    DateParseResult.date r = ValidDate t
    /\ dayOf now <= dayOf t <= dayOf now + 366
    /\ (dayOf t = dayOf now -> timeWithinDay now = 0)
    /\ (ParsedComponents.time (DateParseResult.parsedComponents r) = None ->
        timeWithinDay t = 0).
Proof.
  intros now input r Hnow H Hc. rewrite parse_traced in H.
  destruct (String.eqb (trim input) ""); [discriminate|].
  assert (Hcomp : components (resolve dateParse now input)
                  = components (chain now (normalForm input))).
  { rewrite resolve_chain. unfold resolveFallback.
    destruct (parsedDate (chain now (normalForm input))); [reflexivity|].
    now destruct (isValid (dateParse input)). }
  destruct (parsedDate (resolve dateParse now input)) as [d|] eqn:Hd;
    [|discriminate].
  injection H as <-.
  cbn [DateParseResult.parsedComponents DateParseResult.date] in *.
  rewrite Hcomp in Hc.
  destruct (chain_date_component now _ Hc) as (month & day & Hm & Hday & Hp).
  assert (Hres : resolve dateParse now input = chain now (normalForm input)).
  { rewrite resolve_chain. unfold resolveFallback. now rewrite Hp. }
  rewrite Hres in *. rewrite Hp in Hd. injection Hd as <-.
  destruct (thisOrNextYear_ahead now month day) as (t0 & Ht0 & Hb & Hw0);
    [unfold msPerDay, maxTime in *; lia|exact Hm|exact Hday|].
  rewrite Ht0. unfold applyTime.
  destruct (chain_traced now (normalForm input)) as (Htime & _ & _).
  destruct (ahead_days now t0 Hb Hw0) as [Hdays Hsame].
  destruct (extractedTime (chain now (normalForm input))) as [[h mi]|].
  - destruct Htime as (Hh & Hmi & Hne).
    destruct (applied_time_hours t0 h mi Hh Hmi) as (t' & Ht' & _);
      [unfold msPerDay, msPerHour, maxTime in *; lia|].
    destruct (applied_time_fields _ h mi t' Hh Hmi Ht')
      as (_ & _ & t1 & E1 & Hday' & _).
    injection E1 as <-.
    exists t'. split; [exact Ht'|]. rewrite Hday'.
    split; [exact Hdays|]. split; [exact Hsame|].
    intros Hn. contradiction.
  - exists t0. split; [reflexivity|]. split; [exact Hdays|].
    split; [exact Hsame|]. intros _. exact Hw0.
Qed.

End Ahead.

(** "Jan 1" on the first of January 2025 at 09:30: the first of January
    2026. *)
Lemma X24_witness :
  0 <= newYear2025 <= maxTime - 368 * msPerDay
  /\ parseSmartDateString (fun _ => InvalidDate) newYear2025 "Jan 1"
     = Some (DateParseResult.mk (ValidDate 1767225600000) 0.75 "Jan 1"
               (ParsedComponents.mk None None None (Some "jan 1") None))
  /\ exists t,
       ValidDate 1767225600000 = ValidDate t
       /\ dayOf newYear2025 <= dayOf t <= dayOf newYear2025 + 366
       /\ (dayOf t = dayOf newYear2025 -> timeWithinDay newYear2025 = 0)
       /\ (@None string = None -> timeWithinDay t = 0).
Proof.
  assert (H1 : 0 <= newYear2025 <= maxTime - 368 * msPerDay)
    by (unfold newYear2025, maxTime, msPerDay; lia).
  assert (H2 : parseSmartDateString (fun _ => InvalidDate) newYear2025
                 "Jan 1"
               = Some (DateParseResult.mk (ValidDate 1767225600000) 0.75
                         "Jan 1"
                         (ParsedComponents.mk None None None (Some "jan 1")
                            None)))
    by (vm_compute; reflexivity).
  split; [exact H1|]. split; [exact H2|].
  apply (X24_month_and_day_lie_ahead (fun _ => InvalidDate) newYear2025
           "Jan 1" _ H1 H2).
  discriminate.
Defined.

(** ** The presets *)

Section PresetDates.

Variable dateParse : string -> Date.

Lemma typed_relative : forall now input phrase k d,
  normalForm input = phrase -> phrase <> "" ->
  noTime phrase = true -> relativeOf phrase = Some k ->
  (forall m,
     match rpHandler (nth k relativePatterns
                        (byDays (mkRegExp "" false Bol) 0 0)) with
     | Some handler => Some (handler now m)
     | None =>
         match rpDays (nth k relativePatterns
                         (byDays (mkRegExp "" false Bol) 0 0)) with
         | Some days => Some (addDays now days)
         | None => None
         end
     end = Some d) ->
  parseDateString dateParse now input = Some d.
Proof.
  intros now input phrase k d Hn Hne Ht Hr Hd. unfold parseDateString.
  now rewrite (relative_phrase dateParse now input phrase k d _ Hn Hne Ht Hr
                 Hd eq_refl).
Qed.

(** "in N days" in any letter case and with white space around. *)
Lemma typed_in_days : forall now input ds plural,
  isNumeral ds = true -> normalForm input = inDays ds plural ->
  parseDateString dateParse now input = Some (addDays now (numeralValue ds)).
Proof.
  intros now input ds plural H Hn.
  assert (Hc : chain now (normalForm input)
               = mkLocals (0 + 0.85)%float
                   (Some (addDays now (numeralValue ds)))
                   (ParsedComponents.mk (Some (inDays ds plural)) None None
                      None None)
                   None None).
  { pose proof (inDays_resolve (fun _ => InvalidDate) now ds plural H) as Hr.
    rewrite resolve_chain in Hr.
    rewrite resolveFallback_invalid in Hr by reflexivity.
    unfold normalForm in Hr.
    rewrite (inDays_trim ds plural H), (inDays_lower ds plural H) in Hr.
    rewrite Hn. exact Hr. }
  assert (Hne : normalForm input <> "") by (rewrite Hn; discriminate).
  unfold parseDateString.
  now rewrite (parse_by_chain dateParse now input _ _ Hne Hc eq_refl).
Qed.

(** X25: the presets Today, Tomorrow, In 3 days, Next week and In 2 weeks
    give the date 0, 1, 3, 7 and 14 days from now, at the time of day of
    now.  The label of each of the first four, typed in any letter case and
    with white space around, is parsed to the date of the preset. *)
Theorem X25_day_presets : forall now label n value input,
  Z.abs now <= maxTime ->
  In (label, n) dayPresets -> In (label, value) Presets.getDatePresets ->
  value now = addDays now n
  /\ (label <> "In 2 weeks" -> normalForm input = normalForm label ->
      parseDateString dateParse now input = Some (value now)).
Proof.
  intros now label n value input Hnow Hn Hv.
  assert (Hval : value now = addDays now n).
  { unfold dayPresets in Hn. unfold Presets.getDatePresets in Hv.
    cbn [In] in Hn, Hv.
    destruct Hn as [E|[E|[E|[E|[E|[]]]]]]; injection E as <- <-;
      (destruct Hv as [V|[V|[V|[V|[V|[V|[]]]]]]];
       try discriminate V; injection V as <-);
      try apply setDate_addDays.
    unfold addDays. rewrite Z.mul_0_l, Z.add_0_r. symmetry.
    apply timeClip_valid. lia. }
  split; [exact Hval|]. intros Hl Hi. rewrite Hval.
  unfold dayPresets in Hn. cbn [In] in Hn.
  destruct Hn as [E|[E|[E|[E|[E|[]]]]]]; injection E as <- <-.
  - apply (typed_relative now input "today" 0%nat);
      [exact Hi|discriminate|vm_compute; reflexivity|vm_compute; reflexivity
      |intros m; reflexivity].
  - apply (typed_relative now input "tomorrow" 1%nat);
      [exact Hi|discriminate|vm_compute; reflexivity|vm_compute; reflexivity
      |intros m; reflexivity].
  - apply (typed_in_days now input "3" true); [reflexivity|exact Hi].
  - apply (typed_relative now input "next week" 3%nat);
      [exact Hi|discriminate|vm_compute; reflexivity|vm_compute; reflexivity
      |intros m; reflexivity].
  - now elim Hl.
Qed.

Lemma typed_next_month : forall now input,
  normalForm input = "next month" ->
  parseDateString dateParse now input = Some (addMonths now 1).
Proof.
  intros now input Hi.
  apply (typed_relative now input "next month" 5%nat);
    [exact Hi|discriminate|vm_compute; reflexivity
    |vm_compute; reflexivity|intros m; reflexivity].
Qed.

Lemma addMonths_unfold : forall t amount,
  amount <> 0 ->
  addMonths t amount
  = match timeClip (makeDate
                      (makeDay (getFullYear t) (getMonth t + amount + 1) 0)
                      (timeWithinDay t)) with
    | ValidDate endOfDesiredMonth =>
        if getDate endOfDesiredMonth <=? getDate t
        then ValidDate endOfDesiredMonth
        else timeClip (makeDate
                         (makeDay (getFullYear endOfDesiredMonth)
                            (getMonth endOfDesiredMonth) (getDate t))
                         (timeWithinDay t))
    | InvalidDate => InvalidDate
    end.
Proof.
  intros t amount H. unfold addMonths.
  destruct (amount =? 0) eqn:E; [apply Z.eqb_eq in E; contradiction|].
  reflexivity.
Qed.

(** A month from now, and the date of [setMonth] on the month after. *)
Lemma next_month_dates : forall now,
  Z.abs now <= maxTime - 62 * msPerDay ->
  exists t,
    addMonths now 1 = ValidDate t
    /\ 28 <= nextMonthLength now <= 31
    /\ getMonth t = (getMonth now + 1) mod 12
    /\ getDate t = Z.min (getDate now) (nextMonthLength now)
    /\ timeWithinDay t = timeWithinDay now
    /\ Presets.setMonth now (getMonth now + 1)
       = ValidDate
           (t + Z.max 0 (getDate now - nextMonthLength now) * msPerDay).
Proof.
  intros now Hnow.
  destruct (date_fields now) as (_ & HM & HD & _).
  pose proof (makeDay_today now) as Hz.
  destruct (time_split now) as [Hs Hw].
  rewrite (addMonths_unfold now 1) by lia.
  unfold nextMonthLength, Presets.setMonth.
  generalize dependent (timeWithinDay now). intros w Hs Hw.
  generalize dependent (getDate now). intros D HD Hz.
  generalize dependent (getMonth now). intros M HM Hz.
  generalize dependent (getFullYear now). intros Y Hz.
  replace (M + 1 + 1) with (M + 2) by lia.
  destruct (makeDay_facts Y M) as [HL0 _].
  destruct (makeDay_facts Y (M + 1)) as [HL1 Hk].
  replace (M + 1 + 1) with (M + 2) in HL1, Hk by lia.
  remember (makeDay Y (M + 2) 1 - makeDay Y (M + 1) 1) as L eqn:EL in *.
  rewrite (makeDay_day Y M D) in Hz.
  pose proof (makeDay_day Y (M + 2) 0) as E2.
  pose proof (makeDay_day Y (M + 1) L) as EL1.
  pose proof (makeDay_day Y (M + 1) D) as ED1.
  assert (E0 : makeDay Y (M + 2) 0 = makeDay Y (M + 1) L) by lia.
  rewrite E0.
  rewrite (timeClip_valid (makeDate (makeDay Y (M + 1) L) w))
    by (unfold makeDate, msPerDay, maxTime in *; lia).
  destruct (fields_of_day (makeDay Y (M + 1) L) w _ _ _ Hw
              (Hk L ltac:(lia))) as (FY & FM & FD).
  rewrite FD, FY, FM.
  assert (Hmod : 0 <= (M + 1) mod 12 < 12) by (apply Z.mod_pos_bound; lia).
  assert (Eprev : makeDay (Y + (M + 1) / 12) ((M + 1) mod 12 + 1 - 1) D
                  = makeDay Y (M + 1) D).
  { replace ((M + 1) mod 12 + 1 - 1) with ((M + 1) mod 12) by lia.
    rewrite makeDay_month by lia. unfold makeDay. reflexivity. }
  rewrite Eprev.
  rewrite (timeClip_valid (makeDate (makeDay Y (M + 1) D) w))
    by (unfold makeDate, msPerDay, maxTime in *; lia).
  destruct (L <=? D) eqn:E; [apply Z.leb_le in E|apply Z.leb_gt in E].
  - exists (makeDate (makeDay Y (M + 1) L) w).
    split; [reflexivity|].
    split; [lia|]. split; [lia|]. split; [lia|].
    split; [apply (dayOf_makeDate _ _ Hw)|].
    f_equal. unfold makeDate, msPerDay. lia.
  - destruct (fields_of_day (makeDay Y (M + 1) D) w _ _ _ Hw
                (Hk D ltac:(lia))) as (GY & GM & GD).
    exists (makeDate (makeDay Y (M + 1) D) w).
    split; [reflexivity|].
    split; [lia|]. split; [lia|]. split; [lia|].
    split; [apply (dayOf_makeDate _ _ Hw)|].
    f_equal. unfold makeDate, msPerDay. lia.
Qed.

(** X26: the preset Next month and the phrase "next month" give dates in
    the month after the month of now, at the time of day of now.  The
    phrase, in any letter case and with white space around, gives the day
    of the month of now, or the last day of the month after when that
    month is shorter; the preset gives the date as many days later as the
    day of the month of now exceeds the length of the month after, a date
    of the month after that one. *)
Theorem X26_next_month : forall now value,
  Z.abs now <= maxTime - 62 * msPerDay ->
  In ("Next month", value) Presets.getDatePresets ->
  exists t,
    addMonths now 1 = ValidDate t
    /\ (forall input,
          normalForm input = "next month" ->
          parseDateString dateParse now input = Some (ValidDate t))
    /\ 28 <= nextMonthLength now <= 31
    /\ getMonth t = (getMonth now + 1) mod 12
    /\ getDate t = Z.min (getDate now) (nextMonthLength now)
    /\ timeWithinDay t = timeWithinDay now
    /\ value now
       = ValidDate
           (t + Z.max 0 (getDate now - nextMonthLength now) * msPerDay).
Proof.
  intros now value Hnow Hv.
  assert (Ev : value now = Presets.setMonth now (getMonth now + 1)).
  { unfold Presets.getDatePresets in Hv. cbn [In] in Hv.
    destruct Hv as [V|[V|[V|[V|[V|[V|[]]]]]]];
      try discriminate V. injection V as <-. reflexivity. }
  destruct (next_month_dates now Hnow)
    as (t & Hadd & HL & Hmonth & Hdate & Htime & Hset).
  exists t. split; [exact Hadd|]. split.
  { intros input Hi. rewrite (typed_next_month now input Hi).
    now rewrite Hadd. }
  split; [exact HL|]. split; [exact Hmonth|]. split; [exact Hdate|].
  split; [exact Htime|]. rewrite Ev. exact Hset.
Qed.

End PresetDates.

(** ** The suggestions of a month *)

Lemma firstn_member : forall (A : Type) (n : nat) (l : list A) x,
  In x (firstn n l) -> In x l.
Proof.
  intros A n l x H. rewrite <- (firstn_skipn n l). apply in_or_app. now left.
Qed.


Lemma monthRead_range : forall i month,
  nth_error Suggestions.months i = Some month ->
  (i < 12)%nat /\ 0 <= monthRead i <= 11.
Proof.
  intros i month H.
  assert (Hi : (i < 12)%nat).
  { change 12%nat with (List.length Suggestions.months).
    apply nth_error_Some. congruence. }
  split; [exact Hi|]. unfold monthRead.
  destruct (i <=? 4)%nat eqn:E;
    [apply Nat.leb_le in E|apply Nat.leb_gt in E]; lia.
Qed.

Section MonthSuggestions.

Variable dateParse : string -> Date.
Variable format : Z -> string -> string.

(** The result for the text of a suggestion of a month. *)
Lemma month_suggestion_parse : forall now i month day,
  nth_error Suggestions.months i = Some month -> In day [1; 15] ->
  parseSmartDateString dateParse now (month ++ " " ++ ofZ day)
  = Some (DateParseResult.mk (thisOrNextYear now (monthRead i) day) 0.75
            (month ++ " " ++ ofZ day)
            (ParsedComponents.mk None None None
               (Some (month ++ " " ++ ofZ day)) None)).
Proof.
  intros now i month day Hi Hday.
  assert (Hname : In (month, monthRead i) monthNameTable
                  /\ normalForm (month ++ " " ++ ofZ day)
                     = month ++ " " ++ ofZ day).
  { cbn [In] in Hday.
    do 12 (destruct i as [|i];
           [cbn [nth_error Suggestions.months] in Hi; injection Hi as <-;
            destruct Hday as [<-|[<-|[]]];
            (split; [vm_compute; tauto|reflexivity])|]).
    destruct i; discriminate Hi. }
  destruct Hname as [Hname Hnf].
  assert (Hd31 : 1 <= day <= 31) by (cbn [In] in Hday; lia).
  pose proof (monthNames_read month (monthRead i) day Hname Hd31) as Hall.
  pose proof (onlyMonthDay_chain now _ _ _ Hall) as Hc.
  assert (Hne : normalForm (month ++ " " ++ ofZ day) <> "").
  { rewrite Hnf. apply joined_not_empty. discriminate. }
  rewrite (parse_by_chain dateParse now _ _ _ Hne
             (eq_trans (f_equal (chain now) Hnf) Hc) eq_refl).
  cbn [applyTime extractedTime confidence components Parser.confidence].
  replace (Math_min (0 + 0.75) 1.0) with 0.75%float
    by (vm_compute; reflexivity).
  reflexivity.
Qed.

(** X27: a suggestion of the month block is for the first or the fifteenth
    of a month of [months]: its label and its value name that month, and
    its date and its preview are on that day of the month the parser reads
    in the name, not before now and less than 366 days ahead.  That is the
    month named for "jan" to "may"; for "jun" to "dec" it is the month
    before the one in the label. *)
Theorem X27_month_suggestions : forall now trimmed currentParse s,
  0 <= now <= maxTime - 366 * msPerDay ->
  In s (monthSuggestions dateParse format now trimmed currentParse) ->
  exists i month day t,
    nth_error Suggestions.months i = Some month /\ In day [1; 15]
    /\ SmartSuggestion.label s = capitalize month ++ " " ++ ofZ day
    /\ SmartSuggestion.value s = month ++ " " ++ ofZ day
    /\ SmartSuggestion.parsedDate s = Some (ValidDate t)
    /\ SmartSuggestion.preview s = format t dateFormat
    /\ getMonth t = monthRead i /\ getDate t = day
    /\ now <= t < now + 366 * msPerDay.
Proof.
  intros now trimmed currentParse s Hnow H. unfold monthSuggestions in H.
  destruct (belowOrAbsent currentParse 0.7); [|contradiction].
  apply in_flat_map in H. destruct H as (month & Hmonth & H).
  apply in_flat_map in H. destruct H as (day & Hday & H).
  apply filter_In in Hday. destruct Hday as [Hday _].
  apply firstn_member, filter_In in Hmonth. destruct Hmonth as [Hmonth _].
  destruct (In_nth_error _ _ Hmonth) as (i & Hi).
  rewrite (month_suggestion_parse now i month day Hi Hday) in H.
  destruct (negb _); [|contradiction]. destruct H as [<-|[]].
  destruct (monthRead_range i month Hi) as [_ Hr].
  assert (Hd : 1 <= day <= 28) by (cbn [In] in Hday; lia).
  destruct (thisOrNextYear_ahead now (monthRead i) day Hnow Hr ltac:(lia))
    as (t & Ht & Hb & _).
  destruct (thisOrNextYear_fields now _ day t ltac:(lia) Hr Hd Ht)
    as [Hm Hdate].
  exists i, month, day, t.
  cbn [SmartSuggestion.label SmartSuggestion.value SmartSuggestion.parsedDate
       SmartSuggestion.preview DateParseResult.date].
  rewrite Ht. unfold Suggestions.formatDateForDisplay.
  repeat (split; [reflexivity || assumption|]). exact Hb.
Qed.


End MonthSuggestions.

(** "in 3 days", typed in capitals, on the first of January 2025 at
    09:30. *)
Lemma X25_witness :
  Z.abs newYear2025 <= maxTime
  /\ In ("In 3 days", 3) dayPresets
  /\ In ("In 3 days", fun now => Presets.setDate now (getDate now + 3))
        Presets.getDatePresets
  /\ Presets.setDate newYear2025 (getDate newYear2025 + 3)
     = addDays newYear2025 3
  /\ parseDateString (fun _ => InvalidDate) newYear2025 " IN 3 DAYS "
     = Some (Presets.setDate newYear2025 (getDate newYear2025 + 3)).
Proof.
  assert (H1 : Z.abs newYear2025 <= maxTime)
    by (unfold newYear2025, maxTime; lia).
  assert (H2 : In ("In 3 days", 3) dayPresets) by (simpl; tauto).
  assert (H3 : In ("In 3 days",
                   fun now => Presets.setDate now (getDate now + 3))
                  Presets.getDatePresets)
    by (unfold Presets.getDatePresets; cbn [In]; right; right; left;
        reflexivity).
  split; [exact H1|]. split; [exact H2|]. split; [exact H3|].
  destruct (X25_day_presets (fun _ => InvalidDate) newYear2025 "In 3 days" 3
              _ " IN 3 DAYS " H1 H2 H3) as [Ha Hb].
  split; [exact Ha|]. apply Hb; [discriminate|reflexivity].
Defined.

(** On the 31st of January 2025 the phrase gives the 28th of February and
    the preset the 3rd of March. *)
Lemma X26_witness :
  Z.abs endOfJanuary2025 <= maxTime - 62 * msPerDay
  /\ In ("Next month", fun now => Presets.setMonth now (getMonth now + 1))
        Presets.getDatePresets
  /\ fields (addMonths endOfJanuary2025 1) = Some (2025, 2, 28, 9, 30)
  /\ fields (Presets.setMonth endOfJanuary2025
               (getMonth endOfJanuary2025 + 1))
     = Some (2025, 3, 3, 9, 30)
  /\ exists t,
       addMonths endOfJanuary2025 1 = ValidDate t
       /\ (forall input,
             normalForm input = "next month" ->
             parseDateString (fun _ => InvalidDate) endOfJanuary2025 input
             = Some (ValidDate t))
       /\ 28 <= nextMonthLength endOfJanuary2025 <= 31
       /\ getMonth t = (getMonth endOfJanuary2025 + 1) mod 12
       /\ getDate t
          = Z.min (getDate endOfJanuary2025)
              (nextMonthLength endOfJanuary2025)
       /\ timeWithinDay t = timeWithinDay endOfJanuary2025
       /\ Presets.setMonth endOfJanuary2025 (getMonth endOfJanuary2025 + 1)
          = ValidDate
              (t + Z.max 0 (getDate endOfJanuary2025
                            - nextMonthLength endOfJanuary2025) * msPerDay).
Proof.
  assert (H1 : Z.abs endOfJanuary2025 <= maxTime - 62 * msPerDay)
    by (unfold endOfJanuary2025, maxTime, msPerDay; lia).
  assert (H2 : In ("Next month",
                   fun now => Presets.setMonth now (getMonth now + 1))
                  Presets.getDatePresets)
    by (unfold Presets.getDatePresets; cbn [In]; do 5 right; left;
        reflexivity).
  split; [exact H1|]. split; [exact H2|].
  split; [reflexivity|]. split; [reflexivity|].
  exact (X26_next_month (fun _ => InvalidDate) endOfJanuary2025 _ H1 H2).
Defined.

(** "jun" typed on the first of January 2025: the suggestion "Jun 15" is
    for the 15th of May. *)
Lemma X27_witness :
  0 <= newYear2025 <= maxTime - 366 * msPerDay
  /\ In (SmartSuggestion.mk "Jun 15" "jun 15" 0.65 "2025-05-15"
           (Some (ValidDate 1747267200000)) Category.date)
        (monthSuggestions (fun _ => InvalidDate) (fun _ _ => "2025-05-15")
           newYear2025 "jun" None)
  /\ exists i month day t,
       nth_error Suggestions.months i = Some month /\ In day [1; 15]
       /\ "Jun 15" = capitalize month ++ " " ++ ofZ day
       /\ "jun 15" = month ++ " " ++ ofZ day
       /\ Some (ValidDate 1747267200000) = Some (ValidDate t)
       /\ "2025-05-15" = "2025-05-15"
       /\ getMonth t = monthRead i /\ getDate t = day
       /\ newYear2025 <= t < newYear2025 + 366 * msPerDay.
Proof.
  assert (H1 : 0 <= newYear2025 <= maxTime - 366 * msPerDay)
    by (unfold newYear2025, maxTime, msPerDay; lia).
  assert (H2 : In (SmartSuggestion.mk "Jun 15" "jun 15" 0.65 "2025-05-15"
                     (Some (ValidDate 1747267200000)) Category.date)
                  (monthSuggestions (fun _ => InvalidDate)
                     (fun _ _ => "2025-05-15") newYear2025 "jun" None))
    by (vm_compute; tauto).
  split; [exact H1|]. split; [exact H2|].
  exact (X27_month_suggestions (fun _ => InvalidDate)
           (fun _ _ => "2025-05-15") newYear2025 "jun" None _ H1 H2).
Defined.

